(** * SwapSathi: escrow contract and deal store, embedded and verified

    The development has two parts, one per layer of the repository:

    - [Escrow]: the Solidity contract [SwapSathiEscrow]
      (contracts/EscrowContract.sol) as a state-and-error monad over the
      contract storage and a token ledger;
    - [DB]: the deal store [SwapSathiDB] (lib/database.ts) and the route
      handlers that drive it (app/api/deals), as functions over the tables.

    The two embeddings come first; [EscrowFacts] and [DBFacts] then hold
    what is proved of them, [EscrowMore] and [DBMore] what else the code
    shows: invariants of the contract over all its calls, the guards of
    each function, and the behaviour of the routes request by request. *)

From Stdlib Require Import ZArith NArith QArith Qround Qabs Lia Bool List Sorted.
From Stdlib Require Import DecimalString Lqa.
From stdpp Require Import base option list gmap strings.

(* ===================================================================== *)
(** * Part I: the escrow contract                                         *)
(* ===================================================================== *)

Module Escrow.

Local Open Scope N_scope.

(** ** Machine integers and the result of a call *)

Definition address := N.

(** [uint256] values are kept in [N]; Solidity 0.8 checks every [+], [-]
    and [*] and reverts with a panic when the result leaves the range. *)
Definition MAX_UINT256 : N := 2 ^ 256 - 1.

Inductive result (A : Type) : Type :=
| Ok (a : A)
| Revert (reason : string).
Arguments Ok {A} a.
Arguments Revert {A} reason.

(** ** Storage *)

Inductive DealStatus : Set :=
| Created | Funded | PaymentSent | Completed | Disputed | Cancelled.

Definition DealStatus_eqb (a b : DealStatus) : bool :=
  match a, b with
  | Created, Created | Funded, Funded | PaymentSent, PaymentSent
  | Completed, Completed | Disputed, Disputed | Cancelled, Cancelled => true
  | _, _ => false
  end.

Record Deal : Set := mkDeal {
  dealId : N;
  buyer : address;
  seller : address;
  token : address;
  amount : N;
  inrAmount : N;
  status : DealStatus;
  createdAt : N;
  expiresAt : N;
  sellerConfirmed : bool;
  buyerConfirmed : bool
}.

(** What [deals[id]] reads for an id that was never written. *)
Definition zeroDeal : Deal :=
  mkDeal 0 0 0 0 0 0 Created 0 0 false false.

Definition set_status (s : DealStatus) (d : Deal) : Deal :=
  mkDeal (dealId d) (buyer d) (seller d) (token d) (amount d) (inrAmount d)
         s (createdAt d) (expiresAt d) (sellerConfirmed d) (buyerConfirmed d).

Definition set_buyerConfirmed (b : bool) (d : Deal) : Deal :=
  mkDeal (dealId d) (buyer d) (seller d) (token d) (amount d) (inrAmount d)
         (status d) (createdAt d) (expiresAt d) (sellerConfirmed d) b.

Definition set_sellerConfirmed (b : bool) (d : Deal) : Deal :=
  mkDeal (dealId d) (buyer d) (seller d) (token d) (amount d) (inrAmount d)
         (status d) (createdAt d) (expiresAt d) b (buyerConfirmed d).

Record Storage : Type := mkStorage {
  deals : gmap N Deal;
  userReputation : gmap address N;
  nextDealId : N;
  arbitrator : address;
  feeRecipient : address;
  platformFeePercent : N
}.

Definition DEAL_TIMEOUT : N := 24 * 3600.
Definition DISPUTE_FEE : N := 10 ^ 15.
Definition ONE_HOUR : N := 3600.

(** The ERC20 tokens the contract moves are external contracts.  They
    are modelled as one ledger of balances and allowances with the
    standard semantics: a transfer reverts when the holder's balance (or
    the spender's allowance) is too small and moves the amount otherwise. *)
Record Ledger : Type := mkLedger {
  balances : gmap (address * address) N;            (* (token, holder) *)
  allowances : gmap (address * address * address) N (* (token, owner, spender) *)
}.

Definition balanceOf (l : Ledger) (tok who : address) : N :=
  default 0 (balances l !! (tok, who)).

Definition allowance (l : Ledger) (tok owner spender : address) : N :=
  default 0 (allowances l !! (tok, owner, spender)).

Record World : Type := mkWorld {
  storage : Storage;
  ledger : Ledger
}.

(** ** Effects visible from outside *)

Inductive Event : Set :=
| DealCreated (id : N) (b s tok : address) (amt inr : N)
| DealFunded (id : N) (b : address)
| PaymentSentEv (id : N) (b : address)
| PaymentConfirmed (id : N) (s : address)
| DealCompleted (id : N)
| DealDisputed (id : N) (initiator : address)
| DealCancelled (id : N).

Inductive Effect : Set :=
| Transfer (tok from to : address) (amt : N)
| Emit (e : Event).

(** The call context: [msg.sender], [msg.value], [block.timestamp] and
    [address(this)]. *)
Record Ctx : Set := mkCtx {
  msg_sender : address;
  msg_value : N;
  block_timestamp : N;
  this : address
}.

(** ** The monad of a transaction

    A call reads and writes the world and emits effects, or reverts, in
    which case nothing of it remains. *)

Definition M (A : Type) : Type := World -> result (A * World * list Effect).

Definition ret {A} (a : A) : M A := fun w => Ok (a, w, []).

Definition bind {A B} (m : M A) (k : A -> M B) : M B := fun w =>
  match m w with
  | Revert r => Revert r
  | Ok (a, w1, e1) =>
      match k a w1 with
      | Revert r => Revert r
      | Ok (b, w2, e2) => Ok (b, w2, e1 ++ e2)
      end
  end.

Definition revert {A} (reason : string) : M A := fun _ => Revert reason.

Declare Scope tx_scope.
Delimit Scope tx_scope with tx.
Notation "x <- m ;; k" := (bind m (fun x => k))
  (at level 100, m at next level, right associativity) : tx_scope.
Notation "m ;;; k" := (bind m (fun _ => k))
  (at level 100, right associativity) : tx_scope.
Local Open Scope tx_scope.

Definition require (c : bool) (reason : string) : M unit :=
  if c then ret tt else revert reason.

Definition emit (e : Event) : M unit := fun w => Ok (tt, w, [Emit e]).

Definition get_storage : M Storage := fun w => Ok (storage w, w, []).

Definition put_storage (s : Storage) : M unit :=
  fun w => Ok (tt, mkWorld s (ledger w), []).

Definition checked_add (a b : N) : M N :=
  if a + b <=? MAX_UINT256 then ret (a + b) else revert "Panic(0x11)".

Definition checked_sub (a b : N) : M N :=
  if b <=? a then ret (a - b) else revert "Panic(0x11)".

Definition checked_mul (a b : N) : M N :=
  if a * b <=? MAX_UINT256 then ret (a * b) else revert "Panic(0x11)".

(** [deals[id]] as a storage read. *)
Definition load_deal (id : N) : M Deal :=
  s <- get_storage ;; ret (default zeroDeal (deals s !! id)).

Definition store_deal (id : N) (d : Deal) : M unit :=
  s <- get_storage ;;
  put_storage (mkStorage (<[id := d]> (deals s)) (userReputation s)
                 (nextDealId s) (arbitrator s) (feeRecipient s)
                 (platformFeePercent s)).

(** [IERC20(tok).safeTransfer(to, amt)], sent by the contract. *)
Definition safeTransfer (c : Ctx) (tok to : address) (amt : N) : M unit :=
  fun w =>
    let l := ledger w in
    let have := balanceOf l tok (this c) in
    if amt <=? have then
      let b1 := <[(tok, this c) := have - amt]> (balances l) in
      let b2 := <[(tok, to) := default 0 (b1 !! (tok, to)) + amt]> b1 in
      Ok (tt, mkWorld (storage w) (mkLedger b2 (allowances l)),
          [Transfer tok (this c) to amt])
    else Revert "ERC20: transfer amount exceeds balance".

(** [IERC20(tok).safeTransferFrom(from, to, amt)], sent by the contract. *)
Definition safeTransferFrom (c : Ctx) (tok from to : address) (amt : N) : M unit :=
  fun w =>
    let l := ledger w in
    let allowed := allowance l tok from (this c) in
    let have := balanceOf l tok from in
    if negb (amt <=? allowed) then Revert "ERC20: insufficient allowance"
    else if negb (amt <=? have) then Revert "ERC20: transfer amount exceeds balance"
    else
      let a1 := <[(tok, from, this c) := allowed - amt]> (allowances l) in
      let b1 := <[(tok, from) := have - amt]> (balances l) in
      let b2 := <[(tok, to) := default 0 (b1 !! (tok, to)) + amt]> b1 in
      Ok (tt, mkWorld (storage w) (mkLedger b2 a1), [Transfer tok from to amt]).

(** ** Modifiers *)

Definition onlyDealParticipant (c : Ctx) (_dealId : N) : M unit :=
  deal <- load_deal _dealId ;;
  require ((msg_sender c =? buyer deal) || (msg_sender c =? seller deal))
          "Not authorized".

Definition onlyArbitrator (c : Ctx) : M unit :=
  s <- get_storage ;;
  require (msg_sender c =? arbitrator s) "Only arbitrator".

(** ** The external functions *)

(** A function that is not [payable] reverts, before its body runs and
    without a reason, when the call carries value. *)
Definition nonpayable (c : Ctx) : M unit :=
  require (msg_value c =? 0) "".

Definition constructor (_arbitrator _feeRecipient : address) : Storage :=
  mkStorage ∅ ∅ 1 _arbitrator _feeRecipient 50.

Definition createDeal (c : Ctx) (_seller _token : address)
    (_amount _inrAmount : N) : M N :=
  require (negb (_seller =? msg_sender c)) "Cannot trade with yourself" ;;;
  require (0 <? _amount) "Amount must be greater than 0" ;;;
  require (0 <? _inrAmount) "INR amount must be greater than 0" ;;;
  s <- get_storage ;;
  let id := nextDealId s in
  next <- checked_add id 1 ;;
  put_storage (mkStorage (deals s) (userReputation s) next (arbitrator s)
                 (feeRecipient s) (platformFeePercent s)) ;;;
  expires <- checked_add (block_timestamp c) DEAL_TIMEOUT ;;
  store_deal id (mkDeal id (msg_sender c) _seller _token _amount _inrAmount
                   Created (block_timestamp c) expires false false) ;;;
  emit (DealCreated id (msg_sender c) _seller _token _amount _inrAmount) ;;;
  ret id.

Definition fundDeal (c : Ctx) (_dealId : N) : M unit :=
  nonpayable c ;;;
  deal <- load_deal _dealId ;;
  require (buyer deal =? msg_sender c) "Only buyer can fund" ;;;
  require (DealStatus_eqb (status deal) Created) "Deal not in created state" ;;;
  require (block_timestamp c <=? expiresAt deal) "Deal expired" ;;;
  safeTransferFrom c (token deal) (msg_sender c) (this c) (amount deal) ;;;
  store_deal _dealId (set_status Funded deal) ;;;
  emit (DealFunded _dealId (msg_sender c)).

Definition confirmPaymentSent (c : Ctx) (_dealId : N) : M unit :=
  nonpayable c ;;;
  deal <- load_deal _dealId ;;
  require (buyer deal =? msg_sender c) "Only buyer can confirm payment" ;;;
  require (DealStatus_eqb (status deal) Funded) "Deal not funded" ;;;
  store_deal _dealId (set_buyerConfirmed true (set_status PaymentSent deal)) ;;;
  emit (PaymentSentEv _dealId (msg_sender c)).

Definition bump_reputation (who : address) : M unit :=
  s <- get_storage ;;
  r <- checked_add (default 0 (userReputation s !! who)) 1 ;;
  put_storage (mkStorage (deals s) (<[who := r]> (userReputation s))
                 (nextDealId s) (arbitrator s) (feeRecipient s)
                 (platformFeePercent s)).

(** The seller payout shared by [confirmPaymentReceived] and the
    favour-seller branch of [resolveDispute]: fee, remainder, the two
    transfers. *)
Definition release_to_seller (c : Ctx) (deal : Deal) : M unit :=
  s <- get_storage ;;
  prod <- checked_mul (amount deal) (platformFeePercent s) ;;
  let fee := prod / 10000 in
  sellerAmount <- checked_sub (amount deal) fee ;;
  safeTransfer c (token deal) (seller deal) sellerAmount ;;;
  (if 0 <? fee then safeTransfer c (token deal) (feeRecipient s) fee
   else ret tt).

Definition confirmPaymentReceived (c : Ctx) (_dealId : N) : M unit :=
  nonpayable c ;;;
  deal <- load_deal _dealId ;;
  require (seller deal =? msg_sender c) "Only seller can confirm" ;;;
  require (DealStatus_eqb (status deal) PaymentSent) "Payment not sent" ;;;
  let deal1 := set_sellerConfirmed true deal in
  store_deal _dealId deal1 ;;;
  release_to_seller c deal1 ;;;
  store_deal _dealId (set_status Completed deal1) ;;;
  bump_reputation (buyer deal1) ;;;
  bump_reputation (seller deal1) ;;;
  emit (PaymentConfirmed _dealId (msg_sender c)) ;;;
  emit (DealCompleted _dealId).

Definition initiateDispute (c : Ctx) (_dealId : N) : M unit :=
  onlyDealParticipant c _dealId ;;;
  require (DISPUTE_FEE <=? msg_value c) "Insufficient dispute fee" ;;;
  deal <- load_deal _dealId ;;
  require (DealStatus_eqb (status deal) Funded
           || DealStatus_eqb (status deal) PaymentSent)
          "Cannot dispute at this stage" ;;;
  store_deal _dealId (set_status Disputed deal) ;;;
  emit (DealDisputed _dealId (msg_sender c)).

Definition resolveDispute (c : Ctx) (_dealId : N) (_favorBuyer : bool) : M unit :=
  nonpayable c ;;;
  onlyArbitrator c ;;;
  deal <- load_deal _dealId ;;
  require (DealStatus_eqb (status deal) Disputed) "Deal not disputed" ;;;
  (if _favorBuyer
   then safeTransfer c (token deal) (buyer deal) (amount deal)
   else release_to_seller c deal) ;;;
  store_deal _dealId (set_status Completed deal) ;;;
  emit (DealCompleted _dealId).

Definition cancelDeal (c : Ctx) (_dealId : N) : M unit :=
  nonpayable c ;;;
  onlyDealParticipant c _dealId ;;;
  deal <- load_deal _dealId ;;
  require (DealStatus_eqb (status deal) Created) "Cannot cancel funded deal" ;;;
  store_deal _dealId (set_status Cancelled deal) ;;;
  emit (DealCancelled _dealId).

Definition emergencyRefund (c : Ctx) (_dealId : N) : M unit :=
  nonpayable c ;;;
  deal <- load_deal _dealId ;;
  require (buyer deal =? msg_sender c) "Only buyer can refund" ;;;
  require (DealStatus_eqb (status deal) Funded) "Deal not funded" ;;;
  limit <- checked_add (expiresAt deal) ONE_HOUR ;;
  require (limit <? block_timestamp c) "Deal not expired enough" ;;;
  safeTransfer c (token deal) (buyer deal) (amount deal) ;;;
  store_deal _dealId (set_status Cancelled deal) ;;;
  emit (DealCancelled _dealId).

Definition updatePlatformFee (c : Ctx) (_newFeePercent : N) : M unit :=
  nonpayable c ;;;
  onlyArbitrator c ;;;
  require (_newFeePercent <=? 500) "Fee too high" ;;;
  s <- get_storage ;;
  put_storage (mkStorage (deals s) (userReputation s) (nextDealId s)
                 (arbitrator s) (feeRecipient s) _newFeePercent).


(** [getDeal] and the getter of the public mapping [deals]: both read
    [deals[id]], the zero deal for an id never written, and change
    nothing. *)
Definition getDeal (c : Ctx) (_dealId : N) : M Deal :=
  nonpayable c ;;;
  load_deal _dealId.

Definition getter_deals (c : Ctx) (_dealId : N) : M Deal :=
  nonpayable c ;;;
  load_deal _dealId.

(** ** Reading the effects of a call *)

Definition transfer_amount (e : Effect) : N :=
  match e with
  | Transfer _ _ _ amt => amt
  | Emit _ => 0
  end.

(** Total amount of tokens the effects move. *)
Definition transferred (es : list Effect) : N :=
  fold_right (fun e acc => transfer_amount e + acc) 0 es.

(** The token transfers among the effects, in order. *)
Fixpoint transfers_of (es : list Effect) : list Effect :=
  match es with
  | [] => []
  | Transfer tok from to amt :: rest => Transfer tok from to amt :: transfers_of rest
  | Emit _ :: rest => transfers_of rest
  end.

(** The platform fee of a payout, as the contract computes it. *)
Definition fee_of (pct amt : N) : N := amt * pct / 10000.

(** The world after the contract has sent [amt] of [tok] to [to]. *)
Definition after_transfer (c : Ctx) (tok to : address) (amt : N) (w : World) : World :=
  let l := ledger w in
  let b1 := <[(tok, this c) := balanceOf l tok (this c) - amt]> (balances l) in
  mkWorld (storage w)
    (mkLedger (<[(tok, to) := default 0 (b1 !! (tok, to)) + amt]> b1) (allowances l)).

(** The ways a funded deal is settled. *)
Inductive Settlement : Set :=
| ByConfirmation                       (* confirmPaymentReceived *)
| ByArbitration (_favorBuyer : bool).  (* resolveDispute *)

Definition settle (how : Settlement) (c : Ctx) (_dealId : N) : M unit :=
  match how with
  | ByConfirmation => confirmPaymentReceived c _dealId
  | ByArbitration _favorBuyer => resolveDispute c _dealId _favorBuyer
  end.

(** The external calls of the contract, for statements about all of
    them. *)
Inductive Call : Set :=
| CallCreateDeal (_seller _token : address) (_amount _inrAmount : N)
| CallFundDeal (_dealId : N)
| CallConfirmPaymentSent (_dealId : N)
| CallConfirmPaymentReceived (_dealId : N)
| CallInitiateDispute (_dealId : N)
| CallResolveDispute (_dealId : N) (_favorBuyer : bool)
| CallCancelDeal (_dealId : N)
| CallEmergencyRefund (_dealId : N)
| CallUpdatePlatformFee (_newFeePercent : N)
| CallGetDeal (_dealId : N)
| CallDeals (_dealId : N).

(** One external call.  [createDeal] is not [payable] either: its
    call-value check is made here, on entry. *)
Definition call (c : Ctx) (f : Call) : M unit :=
  match f with
  | CallCreateDeal s t a i =>
      (nonpayable c ;;; _ <- createDeal c s t a i ;; ret tt)%tx
  | CallFundDeal id => fundDeal c id
  | CallConfirmPaymentSent id => confirmPaymentSent c id
  | CallConfirmPaymentReceived id => confirmPaymentReceived c id
  | CallInitiateDispute id => initiateDispute c id
  | CallResolveDispute id b => resolveDispute c id b
  | CallCancelDeal id => cancelDeal c id
  | CallEmergencyRefund id => emergencyRefund c id
  | CallUpdatePlatformFee p => updatePlatformFee c p
  | CallGetDeal id => (_ <- getDeal c id ;; ret tt)%tx
  | CallDeals id => (_ <- getter_deals c id ;; ret tt)%tx
  end.

(** A sequence of transactions; one that reverts leaves the world as it
    was.  The result is the world at the end and the effects of the
    transactions that went through. *)
Fixpoint run_calls (txs : list (Ctx * Call)) (w : World) : World * list Effect :=
  match txs with
  | [] => (w, [])
  | (c, f) :: rest =>
      match call c f w with
      | Ok (_, w1, es) => let '(w2, es2) := run_calls rest w1 in (w2, es ++ es2)
      | Revert _ => run_calls rest w
      end
  end.

(** ** A sample deployment

    Arbitrator 99, fee recipient 98, the contract at address 500; a
    buyer 10 holding 1000 units of token 77, all of them approved for the
    contract; a seller 20. *)

Definition sample_ctx (sender value : N) : Ctx := mkCtx sender value 1000 500.

Definition sample_genesis : World :=
  mkWorld (constructor 99 98)
          (mkLedger {[ (77, 10) := 1000 ]} {[ (77, 10, 500) := 1000 ]}).

Definition sample_opening : list (Ctx * Call) :=
  [ (sample_ctx 10 0, CallCreateDeal 20 77 1000 300000);
    (sample_ctx 10 0, CallFundDeal 1) ].

(** The sample deal once funded and disputed by the buyer. *)
Definition sample_disputed : World :=
  fst (run_calls (sample_opening
                    ++ [(sample_ctx 10 DISPUTE_FEE, CallInitiateDispute 1)])
                 sample_genesis).

(** The sample deal once funded and marked paid by the buyer. *)
Definition sample_payment_sent : World :=
  fst (run_calls (sample_opening
                    ++ [(sample_ctx 10 0, CallConfirmPaymentSent 1)])
                 sample_genesis).

Definition sample_deal (s : DealStatus) (buyerConfirmed : bool) : Deal :=
  mkDeal 1 10 20 77 1000 300000 s 1000 87400 false buyerConfirmed.

(** ** Storage writes by name, and what the guards of the contract add up to *)

(** [deals[id] = d] on the storage. *)
Definition store (id : N) (d : Deal) (s : Storage) : Storage :=
  mkStorage (<[id := d]> (deals s)) (userReputation s) (nextDealId s)
            (arbitrator s) (feeRecipient s) (platformFeePercent s).

(** [userReputation[who]] as a storage read. *)
Definition reputationOf (s : Storage) (who : address) : N :=
  default 0 (userReputation s !! who).

(** [userReputation[who]++] on the storage. *)
Definition bumped (who : address) (s : Storage) : Storage :=
  mkStorage (deals s) (<[who := reputationOf s who + 1]> (userReputation s))
            (nextDealId s) (arbitrator s) (feeRecipient s) (platformFeePercent s).

(** The status changes the [require]s of the external functions let
    through. *)
Definition chain_edge (a b : DealStatus) : bool :=
  match a, b with
  | Created, Funded               (* fundDeal *)
  | Funded, PaymentSent           (* confirmPaymentSent *)
  | PaymentSent, Completed        (* confirmPaymentReceived *)
  | Funded, Disputed | PaymentSent, Disputed   (* initiateDispute *)
  | Disputed, Completed           (* resolveDispute *)
  | Created, Cancelled            (* cancelDeal *)
  | Funded, Cancelled => true     (* emergencyRefund *)
  | _, _ => false
  end.

(** The terms of a deal: all of its fields but the status and the two
    confirmation flags. *)
Definition same_terms (d d' : Deal) : Prop :=
  dealId d' = dealId d /\ buyer d' = buyer d /\ seller d' = seller d
  /\ token d' = token d /\ amount d' = amount d /\ inrAmount d' = inrAmount d
  /\ createdAt d' = createdAt d /\ expiresAt d' = expiresAt d.

(** The statuses in which the contract holds the tokens of a deal. *)
Definition in_escrow (s : DealStatus) : bool :=
  match s with
  | Funded | PaymentSent | Disputed => true
  | _ => false
  end.

(** What one deal keeps in the contract of token [tok]. *)
Definition escrowed_by (tok : address) (d : Deal) : N :=
  if in_escrow (status d) && (token d =? tok) then amount d else 0.

(** What all deals together keep in the contract of token [tok]. *)
Definition escrowed (tok : address) (m : gmap N Deal) : N :=
  map_fold (fun _ d acc => escrowed_by tok d + acc) 0 m.

(** Every stored deal has an id the counter has passed. *)
Definition ids_in_use (s : Storage) : Prop :=
  forall id d, deals s !! id = Some d -> id < nextDealId s.

(** A deal as [createDeal] writes it under [id], whatever its status
    has become since. *)
Definition deal_as_created (id : N) (d : Deal) : Prop :=
  dealId d = id /\ 0 < id /\ buyer d <> seller d /\ buyer d <> 0
  /\ 0 < amount d /\ 0 < inrAmount d
  /\ expiresAt d = createdAt d + DEAL_TIMEOUT.

(** Senders of real transactions: an account other than the zero
    address and other than the contract, which stays at one address. *)
Definition real_senders (self : address) (txs : list (Ctx * Call)) : Prop :=
  Forall (fun tx => msg_sender (fst tx) <> 0 /\ msg_sender (fst tx) <> self
                    /\ this (fst tx) = self) txs.

(** The deal a call acts on: none for [createDeal] and
    [updatePlatformFee], which name no deal, and none for the two getters,
    which only read. *)
Definition target (f : Call) : option N :=
  match f with
  | CallCreateDeal _ _ _ _ | CallUpdatePlatformFee _
  | CallGetDeal _ | CallDeals _ => None
  | CallFundDeal id | CallConfirmPaymentSent id | CallConfirmPaymentReceived id
  | CallInitiateDispute id | CallResolveDispute id _ | CallCancelDeal id
  | CallEmergencyRefund id => Some id
  end.

(** The contract can pay what every open deal holds in it. *)
Definition solvent (self : address) (w : World) : Prop :=
  forall tok, escrowed tok (deals (storage w)) <= balanceOf (ledger w) tok self.

(** What holds of the storage at every moment of the contract's life. *)
Definition storage_ok (s : Storage) : Prop :=
  1 <= nextDealId s
  /\ forall id d, deals s !! id = Some d ->
                  id < nextDealId s /\ deal_as_created id d.

(** What a call adds to [userReputation[who]]. *)
Definition reputation_gain (f : Call) (s : Storage) (who : address) : N :=
  match f with
  | CallConfirmPaymentReceived id =>
      let d := default zeroDeal (deals s !! id) in
      (if decide (who = buyer d) then 1 else 0)
      + (if decide (who = seller d) then 1 else 0)
  | _ => 0
  end.

(** The contract as deployed, beside a ledger. *)
Definition deployed (_arbitrator _feeRecipient : address) (l : Ledger) : World :=
  mkWorld (constructor _arbitrator _feeRecipient) l.

(** The sample deal once created and funded. *)
Definition sample_funded_world : World :=
  fst (run_calls sample_opening sample_genesis).

(** The transactions that lead to [sample_disputed]. *)
Definition sample_dispute_txs : list (Ctx * Call) :=
  sample_opening ++ [(sample_ctx 10 DISPUTE_FEE, CallInitiateDispute 1)].


(** A deal of 2^255 units, created on the sample deployment. *)
Definition sample_oversized : World :=
  fst (run_calls [(sample_ctx 10 0, CallCreateDeal 20 77 (2 ^ 255) 1)]
                 sample_genesis).

End Escrow.

(* ===================================================================== *)
(** * Part II: the deal store and its route handlers                      *)
(* ===================================================================== *)

Module DB.

Local Open Scope string_scope.
Local Open Scope Z_scope.

(** ** JavaScript values as the handlers test them

    A field of a JSON body or a nullable column is an [option].  The
    finite numbers of JavaScript and of the DECIMAL columns are exact
    rationals here; the rounding of IEEE doubles is outside the model.
    Strings are the bytes of their UTF-8 text. *)

Definition truthy_string (o : option string) : bool :=
  match o with
  | Some s => negb (String.eqb s "")
  | None => false
  end.

Definition truthy_int (o : option Z) : bool :=
  match o with
  | Some z => negb (z =? 0)
  | None => false
  end.

Definition Qlt_bool (a b : Q) : bool := negb (Qle_bool b a).

(** [a || b] on two strings. *)
Definition or_string (a : option string) (b : string) : string :=
  match a with
  | Some s => if String.eqb s "" then b else s
  | None => b
  end.

Definition or_string_opt (a b : option string) : option string :=
  if truthy_string a then a else b.

(** [String.prototype.toLowerCase] on the ASCII letters of a wallet
    address. *)
Definition lower_ascii (c : Ascii.ascii) : Ascii.ascii :=
  let n := Ascii.nat_of_ascii c in
  if (Nat.leb 65 n && Nat.leb n 90)%bool then Ascii.ascii_of_nat (n + 32) else c.

Fixpoint toLowerCase (s : string) : string :=
  match s with
  | EmptyString => EmptyString
  | String c rest => String (lower_ascii c) (toLowerCase rest)
  end.

(** ** Numbers

    A number of JavaScript is a finite value, NaN or an infinity.  A
    DECIMAL column of PostgreSQL holds a finite value or NaN; the driver
    hands it over as text, and takes a number as the text JavaScript
    prints it as. *)

Inductive JsNumber : Set := Fin (q : Q) | NaN | PosInf | NegInf.

Inductive Numeric : Set := Num (q : Q) | NumNaN.

(** A number field of a JSON body as it arrives: a number, or a string
    (the ad form of the repository posts the text of its input fields).
    Of the other JSON values, [false] and [null] are falsy as an absent
    field is; [true], arrays and objects are outside the model. *)
Inductive JsValue : Set := JNum (q : Q) | JStr (s : string).

Definition truthy_value (o : option JsValue) : bool :=
  match o with
  | Some (JNum q) => negb (Qeq_bool q 0)
  | Some (JStr s) => negb (String.eqb s "")
  | None => false
  end.

(** Truthiness of a number: every number but 0 and NaN. *)
Definition truthy_number (o : option JsNumber) : bool :=
  match o with
  | Some (Fin q) => negb (Qeq_bool q 0)
  | Some NaN => false
  | Some _ => true
  | None => false
  end.

(** *** [Number(s)] on a string *)

(** The value of a digit of a literal in base [base] (2, 8, 10 or 16). *)
Definition digit_of (base : Z) (c : Ascii.ascii) : option Z :=
  let n := Z.of_nat (Ascii.nat_of_ascii c) in
  let v := if (48 <=? n) && (n <=? 57) then Some (n - 48)
           else if (97 <=? n) && (n <=? 102) then Some (n - 87)
           else if (65 <=? n) && (n <=? 70) then Some (n - 55)
           else None in
  match v with
  | Some d => if d <? base then Some d else None
  | None => None
  end.

(** A run of digits: its value after [acc], how many there are, and what
    follows. *)
Fixpoint read_digits (base : Z) (s : string) (acc : Z) (count : nat)
    : Z * nat * string :=
  match s with
  | String c rest =>
      match digit_of base c with
      | Some d => read_digits base rest (base * acc + d) (S count)
      | None => (acc, count, s)
      end
  | EmptyString => (acc, count, s)
  end.

(** [StrWhiteSpaceChar]: the white space and the line terminators of
    ECMAScript (TAB, LF, VT, FF, CR, SP, U+00A0, U+1680, U+2000..U+200A,
    U+2028, U+2029, U+202F, U+205F, U+3000, U+FEFF), in UTF-8. *)
Fixpoint skip_white (s : string) : string :=
  match s with
  | String c1 rest1 =>
      let n1 := Ascii.nat_of_ascii c1 in
      if (Nat.eqb n1 9 || Nat.eqb n1 10 || Nat.eqb n1 11 || Nat.eqb n1 12
          || Nat.eqb n1 13 || Nat.eqb n1 32)%bool
      then skip_white rest1
      else
        match rest1 with
        | String c2 rest2 =>
            let n2 := Ascii.nat_of_ascii c2 in
            if (Nat.eqb n1 194 && Nat.eqb n2 160)%bool then skip_white rest2
            else
              match rest2 with
              | String c3 rest3 =>
                  let n3 := Ascii.nat_of_ascii c3 in
                  if ((Nat.eqb n1 225 && Nat.eqb n2 154 && Nat.eqb n3 128)
                      || (Nat.eqb n1 226 && Nat.eqb n2 128
                          && ((Nat.leb 128 n3 && Nat.leb n3 138)
                              || Nat.eqb n3 168 || Nat.eqb n3 169
                              || Nat.eqb n3 175))
                      || (Nat.eqb n1 226 && Nat.eqb n2 129 && Nat.eqb n3 159)
                      || (Nat.eqb n1 227 && Nat.eqb n2 128 && Nat.eqb n3 128)
                      || (Nat.eqb n1 239 && Nat.eqb n2 187 && Nat.eqb n3 191))%bool
                  then skip_white rest3
                  else s
              | EmptyString => s
              end
        | EmptyString => s
        end
  | EmptyString => s
  end.

Definition only_white (s : string) : bool :=
  match skip_white s with
  | EmptyString => true
  | _ => false
  end.

(** What is left of [s] after the prefix [p], when it starts with it. *)
Fixpoint strip_prefix (p s : string) : option string :=
  match p with
  | EmptyString => Some s
  | String a p' =>
      match s with
      | String b s' => if Ascii.eqb a b then strip_prefix p' s' else None
      | EmptyString => None
      end
  end.

Definition strip_either (p q s : string) : option string :=
  match strip_prefix p s with
  | Some rest => Some rest
  | None => strip_prefix q s
  end.

(** A sign, when there is one, and what follows it. *)
Definition read_sign (s : string) : bool * string :=
  match strip_prefix "-" s with
  | Some rest => (true, rest)
  | None => (false, default s (strip_prefix "+" s))
  end.

(** [ExponentPart], when there is one: the exponent and what follows.
    [None] is an exponent indicator that no digit follows. *)
Definition read_exponent (s : string) : option (Z * string) :=
  match strip_either "e" "E" s with
  | Some rest =>
      let '(negative, digits) := read_sign rest in
      let '(e, n, after) := read_digits 10 digits 0 0 in
      match n with
      | O => None
      | S _ => Some (if negative then - e else e, after)
      end
  | None => Some (0, s)
  end.

(** [StrUnsignedDecimalLiteral] other than [Infinity]: digits, a point
    and digits, either run possibly empty but not both, and an exponent. *)
Definition read_decimal (s : string) : option (Q * string) :=
  let '(i, ni, after_i) := read_digits 10 s 0 0 in
  let '(f, nf, after_f) :=
    match strip_prefix "." after_i with
    | Some rest => read_digits 10 rest 0 0
    | None => (0, O, after_i)
    end in
  if Nat.eqb (ni + nf) 0 then None
  else
    match read_exponent after_f with
    | Some (e, rest) =>
        Some (((inject_Z i + inject_Z f / inject_Z (10 ^ Z.of_nat nf))
               * Qpower 10 e)%Q, rest)
    | None => None
    end.

(** The literal read, nothing but white space may follow. *)
Definition finish (v : JsNumber) (rest : string) : JsNumber :=
  if only_white rest then v else NaN.

(** [StrDecimalLiteral]: a sign, then [Infinity] or a decimal literal. *)
Definition read_signed (t : string) : JsNumber :=
  let '(negative, u) := read_sign t in
  match strip_prefix "Infinity" u with
  | Some rest => finish (if negative then NegInf else PosInf) rest
  | None =>
      match read_decimal u with
      | Some (q, rest) => finish (Fin (if negative then (- q)%Q else q)) rest
      | None => NaN
      end
  end.

(** [NonDecimalIntegerLiteral] after its prefix. *)
Definition read_based (base : Z) (body : string) : JsNumber :=
  let '(v, n, rest) := read_digits base body 0 0 in
  match n with
  | O => NaN
  | S _ => finish (Fin (inject_Z v)) rest
  end.

(** [StringToNumber]: white space around the literal is dropped, the
    empty string reads as 0, and a text that is no numeric literal as
    NaN. *)
Definition StringToNumber (s : string) : JsNumber :=
  let t := skip_white s in
  if String.eqb t "" then Fin 0
  else
    match strip_either "0x" "0X" t, strip_either "0o" "0O" t,
          strip_either "0b" "0B" t with
    | Some body, _, _ => read_based 16 body
    | _, Some body, _ => read_based 8 body
    | _, _, Some body => read_based 2 body
    | None, None, None => read_signed t
    end.
(** [Number(v)], and the conversion the comparisons with a number make. *)
Definition ToNumber (v : JsValue) : JsNumber :=
  match v with
  | JNum q => Fin q
  | JStr s => StringToNumber s
  end.

(** *** Comparison and product of numbers *)

(** [a < b]: false as soon as one side is NaN. *)
Definition number_lt (a b : JsNumber) : bool :=
  match a, b with
  | Fin x, Fin y => Qlt_bool x y
  | Fin _, PosInf | NegInf, Fin _ | NegInf, PosInf => true
  | _, _ => false
  end.

(** [a <= b]: [b < a] is false and neither side is NaN. *)
Definition number_le (a b : JsNumber) : bool :=
  match a, b with
  | NaN, _ | _, NaN => false
  | _, _ => negb (number_lt b a)
  end.

Definition number_sign (a : JsNumber) : Z :=
  match a with
  | Fin q => Z.sgn (Qnum q)
  | PosInf => 1
  | NegInf => -1
  | NaN => 0
  end.

(** [a * b] *)
Definition number_mul (a b : JsNumber) : JsNumber :=
  match a, b with
  | NaN, _ | _, NaN => NaN
  | Fin x, Fin y => Fin (x * y)
  | _, _ =>
      match number_sign a * number_sign b with
      | Z0 => NaN
      | Zpos _ => PosInf
      | Zneg _ => NegInf
      end
  end.

(** [a < b] on two values of a body: two strings are compared as
    strings, unit by unit, anything else as numbers. *)
Definition value_lt (a b : JsValue) : bool :=
  match a, b with
  | JStr s, JStr t => String.ltb s t
  | _, _ => number_lt (ToNumber a) (ToNumber b)
  end.

(** *** DECIMAL columns *)

(** SQL [ROUND] on a numeric: to the nearest integer, halves away from
    zero. *)
Definition sql_round (q : Q) : Z :=
  if Qle_bool 0 q then Qfloor (q + (1 # 2)) else - Qfloor (- q + (1 # 2)).

Definition scale_unit (scale : nat) : Z := 10 ^ Z.of_nat scale.

(** [q] at [scale] decimals, as a column of that scale takes it: rounded,
    halves away from zero. *)
Definition to_scale (scale : nat) (q : Q) : Q :=
  Qred (inject_Z (sql_round (q * inject_Z (scale_unit scale)))
        / inject_Z (scale_unit scale)).

(** What a DECIMAL(precision, scale) column makes of a number it is
    given: the value at the scale of the column; NaN stays NaN; [None] is
    the error raised for an infinity and for a value with more than
    [precision - scale] digits before the point. *)
Definition decimal_in (precision scale : nat) (n : JsNumber) : option Numeric :=
  match n with
  | Fin q =>
      let r := to_scale scale q in
      if Qlt_bool (Qabs r) (inject_Z (scale_unit (precision - scale)))
      then Some (Num r) else None
  | NaN => Some NumNaN
  | PosInf | NegInf => None
  end.

(** [v > 0] and [a >= b] in the CHECK constraints: NaN is greater than
    every other value and equal to itself. *)
Definition numeric_positive (v : Numeric) : bool :=
  match v with
  | Num q => Qlt_bool 0 q
  | NumNaN => true
  end.

Definition numeric_ge (a b : Numeric) : bool :=
  match a, b with
  | NumNaN, _ => true
  | Num _, NumNaN => false
  | Num x, Num y => Qle_bool y x
  end.

Definition digits_text (n : Z) : string :=
  NilZero.string_of_uint (N.to_uint (Z.to_N n)).

Fixpoint zeros (n : nat) : string :=
  match n with
  | O => ""
  | S k => "0" ++ zeros k
  end.

(** The text of a DECIMAL column of scale [scale], which is what the
    driver hands to JavaScript: sign, integer digits, point and [scale]
    decimals, or [NaN]. *)
Definition numeric_text (scale : nat) (v : Numeric) : string :=
  match v with
  | NumNaN => "NaN"
  | Num q =>
      let k := sql_round (q * inject_Z (scale_unit scale)) in
      let frac := digits_text (Z.abs k mod scale_unit scale) in
      (if k <? 0 then "-" else "")
      ++ digits_text (Z.abs k / scale_unit scale)
      ++ match scale with
         | O => ""
         | S _ => "." ++ zeros (scale - String.length frac) ++ frac
         end
  end.

(** The number JavaScript reads that text as: the value of the column. *)
Definition column_number (v : Numeric) : JsNumber :=
  match v with
  | Num q => Fin q
  | NumNaN => NaN
  end.

(** [amount < column] and [amount > column], for a value of the body
    and a column of scale 8: a string is compared with the text of the
    column as a string, a number with its value. *)
Definition lt_column (amount : JsValue) (column : Numeric) : bool :=
  match amount with
  | JStr s => String.ltb s (numeric_text 8 column)
  | JNum q => number_lt (Fin q) (column_number column)
  end.

Definition gt_column (amount : JsValue) (column : Numeric) : bool :=
  match amount with
  | JStr s => String.ltb (numeric_text 8 column) s
  | JNum q => number_lt (column_number column) (Fin q)
  end.

(** ** Rows *)

Inductive DealStatus : Set :=
| initiated | funded | payment_sent | completed | disputed | cancelled | expired.

Definition DealStatus_eqb (a b : DealStatus) : bool :=
  match a, b with
  | initiated, initiated | funded, funded | payment_sent, payment_sent
  | completed, completed | disputed, disputed | cancelled, cancelled
  | expired, expired => true
  | _, _ => false
  end.

(** The CHECK constraint of [deals.status]: the seven admissible texts. *)
Definition status_of_string (s : string) : option DealStatus :=
  if String.eqb s "initiated" then Some initiated
  else if String.eqb s "funded" then Some funded
  else if String.eqb s "payment_sent" then Some payment_sent
  else if String.eqb s "completed" then Some completed
  else if String.eqb s "disputed" then Some disputed
  else if String.eqb s "cancelled" then Some cancelled
  else if String.eqb s "expired" then Some expired
  else None.

Inductive AdType : Set := buy | sell.
Inductive AdStatus : Set := ad_active | ad_paused | ad_completed | ad_cancelled.

Record User : Set := mkUser {
  user_id_of : string;             (* id *)
  wallet_address : string;
  username : option string;
  reputation_score : Z;
  total_trades : Z;
  successful_trades : Z
}.

(** The columns of [ads] the deal routes read; the free-text columns
    play no part. *)
Record Ad : Set := mkAd {
  ad_id_of : string;               (* id *)
  ad_user_id : string;             (* user_id *)
  asset : string;
  ad_type : AdType;                (* type *)
  ad_amount : Numeric;             (* amount DECIMAL(18,8) *)
  ad_price : Numeric;              (* price DECIMAL(12,2) *)
  min_amount : option Numeric;     (* DECIMAL(18,8) *)
  max_amount : option Numeric;     (* DECIMAL(18,8) *)
  ad_payment_method : string;      (* payment_method *)
  ad_upi_id : option string;       (* upi_id *)
  ad_status : AdStatus             (* status *)
}.

Record Deal : Set := mkDeal {
  id : string;
  ad_id : string;
  buyer_id : string;
  seller_id : string;
  amount : Numeric;                (* DECIMAL(18,8) *)
  price : Numeric;                 (* DECIMAL(12,2) *)
  total_inr : Numeric;             (* DECIMAL(12,2) *)
  escrow_contract_address : option string;
  transaction_hash : option string;
  deal_id_on_chain : option Z;
  status : DealStatus;
  payment_method : string;
  payment_details : option string; (* JSONB, as the text written *)
  upi_id : option string;
  buyer_rating : option Z;
  seller_rating : option Z;
  buyer_feedback : option string;
  seller_feedback : option string;
  created_at : Z;
  updated_at : Z;
  funded_at : option Z;
  payment_sent_at : option Z;
  completed_at : option Z;
  expires_at : Z
}.

(** The text of a notification: a literal, or one of the templates of
    the routes with the values they interpolate: the amount as the body
    has it, the price as the column has it. *)
Inductive Message : Set :=
| Text (s : string)
| DealCreatedFor (amount : JsValue) (asset : string) (price : Numeric)
| SomeoneWantsTo (verb : string) (amount : JsValue) (asset : string)
| YourAdIsLive (type : string) (amount : JsValue) (asset : string).

Record Notification : Set := mkNotification {
  n_id : string;
  n_user_id : string;
  n_title : string;
  n_message : Message;
  n_type : string;
  n_related_id : option string;
  n_is_read : bool;
  n_created_at : Z
}.

(** The four tables, each a list of rows in insertion order. *)
Record Tables : Set := mkTables {
  users : list User;
  ads : list Ad;
  deals : list Deal;
  notifications : list Notification
}.

Definition with_deals (ds : list Deal) (db : Tables) : Tables :=
  mkTables (users db) (ads db) ds (notifications db).

Definition with_users (us : list User) (db : Tables) : Tables :=
  mkTables us (ads db) (deals db) (notifications db).

Definition with_notifications (ns : list Notification) (db : Tables) : Tables :=
  mkTables (users db) (ads db) (deals db) ns.

Definition set_deal_status (s : DealStatus) (d : Deal) : Deal :=
  mkDeal (id d) (ad_id d) (buyer_id d) (seller_id d) (amount d) (price d)
    (total_inr d) (escrow_contract_address d) (transaction_hash d)
    (deal_id_on_chain d) s (payment_method d) (payment_details d) (upi_id d)
    (buyer_rating d) (seller_rating d) (buyer_feedback d) (seller_feedback d)
    (created_at d) (updated_at d) (funded_at d) (payment_sent_at d)
    (completed_at d) (expires_at d).

(** The tables with the status column of the rows of one deal id set
    to [s]: the same deal, found in another state. *)
Definition with_stored_status (dealId : string) (s : DealStatus) (db : Tables)
    : Tables :=
  with_deals (map (fun d => if String.eqb (id d) dealId
                            then set_deal_status s d else d)
                  (deals db)) db.

(** ** Queries of [SwapSathiDB] *)

Definition getUserByWallet (db : Tables) (walletAddress : string) : option User :=
  List.find (fun u => String.eqb (wallet_address u) (toLowerCase walletAddress))
            (users db).

Definition getDealById (db : Tables) (dealId : string) : option Deal :=
  List.find (fun d => String.eqb (id d) dealId) (deals db).

Definition ad_is_active (a : Ad) : bool :=
  match ad_status a with ad_active => true | _ => false end.

(** [SELECT a.* ... FROM ads a JOIN users u ON a.user_id = u.id
     WHERE a.id = $1 AND a.status = 'active'], first row. *)
Definition getAdById (db : Tables) (adId : string) : option Ad :=
  List.find (fun a => String.eqb (ad_id_of a) adId && ad_is_active a
                      && existsb (fun u => String.eqb (user_id_of u) (ad_user_id a))
                                 (users db))%bool
            (ads db).

(** ** [updateUserReputation] *)

(** [x >= 4] on a nullable INTEGER: NULL compares to nothing. *)
Definition rating_ge4 (r : option Z) : bool :=
  match r with
  | Some z => 4 <=? z
  | None => false
  end.

(** The WHERE clause of [reputation_calc]. *)
Definition reputation_row (userId : string) (d : Deal) : bool :=
  ((String.eqb (buyer_id d) userId || String.eqb (seller_id d) userId)
   && DealStatus_eqb (status d) completed)%bool.

(** The CASE of [positive_ratings]. *)
Definition positive_row (userId : string) (d : Deal) : bool :=
  ((String.eqb (buyer_id d) userId && rating_ge4 (seller_rating d))
   || (String.eqb (seller_id d) userId && rating_ge4 (buyer_rating d)))%bool.

(** One pass over [deals], as the aggregate runs: the pair
    (total_completed_deals, positive_ratings). *)
Fixpoint reputation_calc (userId : string) (ds : list Deal) : Z * Z :=
  match ds with
  | [] => (0, 0)
  | d :: rest =>
      let '(total, pos) := reputation_calc userId rest in
      if reputation_row userId d
      then (total + 1, if positive_row userId d then pos + 1 else pos)
      else (total, pos)
  end.

Definition reputation_of_counts (total pos : Z) : Z :=
  if total =? 0 then 0
  else sql_round (inject_Z pos / inject_Z total * 100).

Definition set_reputation (score total pos : Z) (u : User) : User :=
  mkUser (user_id_of u) (wallet_address u) (username u) score total pos.

(** The statement updates the rows of [users] with the given id and
    returns [rows[0]?.reputation_score || 0]. *)
Definition updateUserReputation (userId : string) (db : Tables) : Z * Tables :=
  let '(total, pos) := reputation_calc userId (deals db) in
  let score := reputation_of_counts total pos in
  let hit := fun u => String.eqb (user_id_of u) userId in
  let users' := map (fun u => if hit u then set_reputation score total pos u else u)
                    (users db) in
  (match List.find hit users' with
   | Some u => reputation_score u
   | None => 0
   end,
   with_users users' db).

(** The score the statement computes for a user from a deals table. *)
Definition derived_score (userId : string) (ds : list Deal) : Z :=
  let '(total, pos) := reputation_calc userId ds in
  reputation_of_counts total pos.

(** The stored score of every row of a user agrees with the deals. *)
Definition score_current (db : Tables) (userId : string) : Prop :=
  Forall (fun u => user_id_of u = userId ->
                   reputation_score u = derived_score userId (deals db))
         (users db).

(** ** [updateDealStatus] *)

(** [paymentDetails] of a request.  An object or an array is given by
    the text [JSON.stringify] makes of it.  A string is given with what the
    JSONB column decides of it, whether it reads as JSON: the input
    function of PostgreSQL is not modelled.  A number or [true] is written
    as the string of its text would be, and reads as JSON. *)
Inductive PaymentDetails : Set :=
| PdObject (json : string)
| PdString (s : string) (reads_as_json : bool).

Definition truthy_details (o : option PaymentDetails) : bool :=
  match o with
  | Some (PdObject _) => true
  | Some (PdString s _) => negb (String.eqb s "")
  | None => false
  end.

(** [typeof value === "object" ? JSON.stringify(value) : value] *)
Definition details_param (p : PaymentDetails) : string :=
  match p with
  | PdObject json => json
  | PdString s _ => s
  end.

Definition details_reads_as_json (p : PaymentDetails) : bool :=
  match p with
  | PdObject _ => true
  | PdString _ b => b
  end.

(** [additionalData] as the PUT handler fills it; [None] is a key that
    is absent. *)
Record UpdateData : Set := mkUpdateData {
  upd_transaction_hash : option string;
  upd_escrow_contract_address : option string;
  upd_deal_id_on_chain : option Z;
  upd_payment_details : option PaymentDetails;
  upd_seller_rating : option Z;
  upd_seller_feedback : option string;
  upd_buyer_rating : option Z;
  upd_buyer_feedback : option string
}.

(** A column named in the SET list takes the new value, any other keeps
    its own. *)
Definition assign {A : Type} (new old : option A) : option A :=
  match new with
  | Some v => Some v
  | None => old
  end.

(** The SET list applied to one row at time [now]. *)
Definition apply_update (now : Z) (st : DealStatus) (data : UpdateData)
    (d : Deal) : Deal :=
  mkDeal (id d) (ad_id d) (buyer_id d) (seller_id d) (amount d) (price d)
    (total_inr d)
    (assign (upd_escrow_contract_address data) (escrow_contract_address d))
    (assign (upd_transaction_hash data) (transaction_hash d))
    (assign (upd_deal_id_on_chain data) (deal_id_on_chain d))
    st
    (payment_method d)
    (assign (details_param <$> upd_payment_details data) (payment_details d))
    (upi_id d)
    (assign (upd_buyer_rating data) (buyer_rating d))
    (assign (upd_seller_rating data) (seller_rating d))
    (assign (upd_buyer_feedback data) (buyer_feedback d))
    (assign (upd_seller_feedback data) (seller_feedback d))
    (created_at d)
    now
    (match st with funded => Some now | _ => funded_at d end)
    (match st with payment_sent => Some now | _ => payment_sent_at d end)
    (match st with completed => Some now | _ => completed_at d end)
    (expires_at d).

(** The CHECK constraints of the rating columns. *)
Definition rating_check (r : option Z) : bool :=
  match r with
  | Some z => (1 <=? z) && (z <=? 5)
  | None => true
  end.

Definition deal_checks (d : Deal) : bool :=
  rating_check (buyer_rating d) && rating_check (seller_rating d).

(** The range of an INTEGER column. *)
Definition int4 (o : option Z) : bool :=
  match o with
  | Some z => (- 2 ^ 31 <=? z) && (z <? 2 ^ 31)
  | None => true
  end.

(** The parameters of the statement the server can read for the type
    of their column: an INTEGER within its range, a JSONB that is JSON. *)
Definition update_parameters_ok (data : UpdateData) : bool :=
  int4 (upd_deal_id_on_chain data)
  && int4 (upd_seller_rating data) && int4 (upd_buyer_rating data)
  && match upd_payment_details data with
     | Some p => details_reads_as_json p
     | None => true
     end.

(** [UPDATE deals SET ... WHERE id = $1 RETURNING *] and [result[0]].
    [None] is the exception the query raises: for a parameter the server
    cannot read for its column, whether or not a row has the id; and when
    a written row breaks a CHECK constraint: a status text outside the
    seven values, a rating outside 1..5.  The row is found by its id
    alone. *)
Definition updateDealStatus (now : Z) (dealId status : string)
    (additionalData : UpdateData) (db : Tables) : option (option Deal * Tables) :=
  let hit := fun d => String.eqb (id d) dealId in
  if negb (update_parameters_ok additionalData) then None
  else if negb (existsb hit (deals db)) then Some (None, db)
  else
    match status_of_string status with
    | None => None
    | Some st =>
        let deals' := map (fun d => if hit d then apply_update now st additionalData d
                                    else d) (deals db) in
        if forallb (fun d => negb (hit d) || deal_checks d) deals'
        then Some (List.find hit deals', with_deals deals' db)
        else None
    end.

(** ** [createNotification], [createDeal], [expireOldDeals] *)

Record NotificationData : Set := mkNotificationData {
  nd_user_id : string;
  nd_title : string;
  nd_message : Message;
  nd_type : string;
  nd_related_id : option string
}.

Definition createNotification (now : Z) (fresh : string)
    (nd : NotificationData) (db : Tables) : Notification * Tables :=
  let n := mkNotification fresh (nd_user_id nd) (nd_title nd) (nd_message nd)
             (nd_type nd) (or_string_opt (nd_related_id nd) None) false now in
  (n, with_notifications (notifications db ++ [n]) db).

Definition DAY : Z := 24 * 3600.

(** [dealData] as the creation route fills it: [amount] and [total_inr]
    are numbers of JavaScript, [price] is the column of the ad as the
    driver handed it over. *)
Record DealData : Set := mkDealData {
  dd_ad_id : string;
  dd_buyer_id : string;
  dd_seller_id : string;
  dd_amount : JsNumber;
  dd_price : Numeric;
  dd_total_inr : JsNumber;
  dd_payment_method : string;
  dd_upi_id : option string
}.

(** [INSERT INTO deals (...) RETURNING *]: the nine listed columns, the
    defaults of the schema for the rest.  [amount] is taken at the eight
    decimals of its column and [total_inr] at the two of its own; [price]
    is the text of a column of the same type and is stored as it is.
    [None] is the exception the statement raises: a number a column cannot
    hold, or a row that breaks one of the three CHECK constraints
    [amount > 0], [price > 0], [total_inr > 0]. *)
Definition createDeal (now : Z) (fresh : string) (dd : DealData)
    (db : Tables) : option (Deal * Tables) :=
  match decimal_in 18 8 (dd_amount dd), decimal_in 12 2 (dd_total_inr dd) with
  | Some amount, Some total_inr =>
      let d := mkDeal fresh (dd_ad_id dd) (dd_buyer_id dd) (dd_seller_id dd)
                 amount (dd_price dd) total_inr
                 None None None initiated (dd_payment_method dd) None
                 (or_string_opt (dd_upi_id dd) None)
                 None None None None now now None None None (now + DAY) in
      if numeric_positive amount && numeric_positive (dd_price dd)
         && numeric_positive total_inr
      then Some (d, with_deals (deals db ++ [d]) db)
      else None
  | _, _ => None
  end.

(** The WHERE clause of the expiry sweep. *)
Definition expirable (now : Z) (d : Deal) : bool :=
  (match status d with
   | initiated | funded | payment_sent => true
   | _ => false
   end) && (expires_at d <? now).

Definition expireOldDeals (now : Z) (db : Tables) : Tables :=
  with_deals (map (fun d => if expirable now d then set_deal_status expired d else d)
                  (deals db)) db.

(** ** The route handlers of app/api/deals *)

(** The [error] text of a failure response: a literal, or one of the
    three templates of the amount checks. *)
Inductive ErrorText : Set :=
| Literal (s : string)
| MinimumAmountIs (column : Numeric) (asset : string)
| MaximumAmountIs (column : Numeric) (asset : string)
| AvailableAmountIsOnly (column : Numeric) (asset : string).

Inductive Response : Set :=
| Json (deal : option Deal) (message : string)
| Failure (http_status : Z) (error : ErrorText).

Definition internal_error : Response :=
  Failure 500 (Literal "Internal server error").

(** *** PUT /api/deals/[id] *)

(** The body of the request: the text fields as strings, [dealIdOnChain]
    and [rating] as whole numbers. *)
Record PutBody : Set := mkPutBody {
  b_status : option string;
  b_walletAddress : option string;
  b_transactionHash : option string;
  b_escrowContractAddress : option string;
  b_dealIdOnChain : option Z;
  b_paymentDetails : option PaymentDetails;
  b_rating : option Z;
  b_feedback : option string
}.

Definition if_truthy_string (o : option string) : option string :=
  if truthy_string o then o else None.

Definition if_truthy_int (o : option Z) : option Z :=
  if truthy_int o then o else None.

Definition if_truthy_details (o : option PaymentDetails) : option PaymentDetails :=
  if truthy_details o then o else None.

(** [updateData] as the handler prepares it. *)
Definition PUT_updateData (user : User) (currentDeal : Deal) (body : PutBody)
    : UpdateData :=
  let rated := truthy_int (b_rating body) && truthy_string (b_feedback body) in
  let by_buyer := String.eqb (user_id_of user) (buyer_id currentDeal) in
  mkUpdateData
    (if_truthy_string (b_transactionHash body))
    (if_truthy_string (b_escrowContractAddress body))
    (if_truthy_int (b_dealIdOnChain body))
    (if_truthy_details (b_paymentDetails body))
    (if rated && by_buyer then b_rating body else None)
    (if rated && by_buyer then b_feedback body else None)
    (if rated && negb by_buyer then b_rating body else None)
    (if rated && negb by_buyer then b_feedback body else None).

(** The [switch (status)] that picks the notification text. *)
Definition notificationMessage (status : string) : string :=
  if String.eqb status "funded" then "Deal has been funded with escrow contract"
  else if String.eqb status "payment_sent"
       then "Payment has been sent. Please confirm receipt."
  else if String.eqb status "completed" then "Deal completed successfully!"
  else if String.eqb status "disputed"
       then "Deal has been disputed. Arbitrator will review."
  else if String.eqb status "cancelled" then "Deal has been cancelled"
  else "".

(** The writing half of the handler, from [updateDealStatus] on.  It
    works from the rows [currentDeal] and [user] read earlier and runs
    against the tables as they are when it writes.  Each statement is
    committed on its own, so the result lists the tables after each of
    them, in order. *)
Definition PUT_write (now : Z) (fresh : string) (params_id status : string)
    (body : PutBody) (currentDeal : Deal) (user : User) (db : Tables)
    : Response * list Tables :=
  match updateDealStatus now params_id status
          (PUT_updateData user currentDeal body) db with
  | None => (internal_error, [])
  | Some (updatedDeal, db1) =>
      let otherUserId :=
        if String.eqb (user_id_of user) (buyer_id currentDeal)
        then seller_id currentDeal else buyer_id currentDeal in
      let reputations :=
        if String.eqb status "completed" then
          let db2 := snd (updateUserReputation (buyer_id currentDeal) db1) in
          let db3 := snd (updateUserReputation (seller_id currentDeal) db2) in
          [db2; db3]
        else [] in
      let db_r := List.last reputations db1 in
      let message := notificationMessage status in
      let notified :=
        if negb (String.eqb message "") then
          [snd (createNotification now fresh
                  (mkNotificationData otherUserId "Deal Update" (Text message)
                     "deal" (Some params_id)) db_r)]
        else [] in
      (Json updatedDeal "Deal updated successfully",
       db1 :: reputations ++ notified)
  end.

Definition PUT_trace (now : Z) (fresh : string) (db : Tables)
    (params_id : string) (body : PutBody) : Response * list Tables :=
  if negb (truthy_string (b_walletAddress body))
     || negb (truthy_string (b_status body))
  then (Failure 400 (Literal "Wallet address and status are required"), [])
  else
    match b_walletAddress body, b_status body with
    | Some walletAddress, Some status =>
        match getDealById db params_id with
        | None => (Failure 404 (Literal "Deal not found"), [])
        | Some currentDeal =>
            match getUserByWallet db walletAddress with
            | None => (Failure 404 (Literal "User not found"), [])
            | Some user =>
                if negb (String.eqb (user_id_of user) (buyer_id currentDeal))
                   && negb (String.eqb (user_id_of user) (seller_id currentDeal))
                then (Failure 403 (Literal "Unauthorized to update this deal"), [])
                else PUT_write now fresh params_id status body currentDeal user db
            end
        end
    | _, _ => (Failure 400 (Literal "Wallet address and status are required"), [])
    end.

(** The handler as a whole: its response and the tables it leaves. *)
Definition PUT (now : Z) (fresh : string) (db : Tables)
    (params_id : string) (body : PutBody) : Response * Tables :=
  let '(r, trace) := PUT_trace now fresh db params_id body in
  (r, List.last trace db).

(** *** POST /api/deals *)

Record PostBody : Set := mkPostBody {
  p_adId : option string;
  p_buyerWallet : option string;
  p_amount : option JsValue;
  p_paymentMethod : option string;
  p_upiId : option string
}.

(** [ad.min_amount && amount < ad.min_amount]: a column that is not
    NULL arrives as a text, which is truthy whatever its value. *)
Definition below_min (ad : Ad) (amount : JsValue) : bool :=
  match min_amount ad with
  | Some m => lt_column amount m
  | None => false
  end.

(** [ad.max_amount && amount > ad.max_amount] *)
Definition above_max (ad : Ad) (amount : JsValue) : bool :=
  match max_amount ad with
  | Some m => gt_column amount m
  | None => false
  end.

(** The handler tests the amount as the body has it and converts it
    with [Number] only where it fills [dealData]. *)
Definition POST (now : Z) (fresh_deal fresh_n1 fresh_n2 : string)
    (db : Tables) (body : PostBody) : Response * Tables :=
  match p_adId body, p_buyerWallet body, p_amount body with
  | Some adId, Some buyerWallet, Some amount =>
      if String.eqb adId "" || String.eqb buyerWallet ""
         || negb (truthy_value (Some amount))
      then (Failure 400 (Literal "Missing required fields"), db)
      else if number_le (ToNumber amount) (Fin 0)
      then (Failure 400 (Literal "Amount must be positive"), db)
      else
        match getAdById db adId with
        | None => (Failure 404 (Literal "Ad not found"), db)
        | Some ad =>
            match getUserByWallet db buyerWallet with
            | None =>
                (Failure 404
                   (Literal "Buyer not found. Please connect your wallet first."),
                 db)
            | Some buyer =>
                if String.eqb (ad_user_id ad) (user_id_of buyer)
                then (Failure 400 (Literal "Cannot trade with yourself"), db)
                else if below_min ad amount
                then (Failure 400
                        (MinimumAmountIs (default NumNaN (min_amount ad)) (asset ad)),
                      db)
                else if above_max ad amount
                then (Failure 400
                        (MaximumAmountIs (default NumNaN (max_amount ad)) (asset ad)),
                      db)
                else if gt_column amount (ad_amount ad)
                then (Failure 400 (AvailableAmountIsOnly (ad_amount ad) (asset ad)),
                      db)
                else
                  let buyerId := match ad_type ad with
                                 | sell => user_id_of buyer
                                 | buy => ad_user_id ad
                                 end in
                  let sellerId := match ad_type ad with
                                  | sell => ad_user_id ad
                                  | buy => user_id_of buyer
                                  end in
                  let dealData :=
                    mkDealData adId buyerId sellerId (ToNumber amount) (ad_price ad)
                      (number_mul (ToNumber amount) (column_number (ad_price ad)))
                      (or_string (p_paymentMethod body) (ad_payment_method ad))
                      (or_string_opt (p_upiId body) (ad_upi_id ad)) in
                  match createDeal now fresh_deal dealData db with
                  | None => (internal_error, db)
                  | Some (deal, db1) =>
                      let '(_, db2) :=
                        createNotification now fresh_n1
                          (mkNotificationData buyerId "Deal Created"
                             (DealCreatedFor amount (asset ad) (ad_price ad))
                             "deal" (Some (id deal))) db1 in
                      let '(_, db3) :=
                        createNotification now fresh_n2
                          (mkNotificationData sellerId "New Deal Request"
                             (SomeoneWantsTo
                                (match ad_type ad with
                                 | sell => "buy"
                                 | buy => "sell"
                                 end)
                                amount (asset ad))
                             "deal" (Some (id deal))) db2 in
                      (Json (Some deal) "Deal created successfully", db3)
                  end
            end
        end
  | _, _, _ => (Failure 400 (Literal "Missing required fields"), db)
  end.
(** The [dealData] the route fills for an amount, an ad and the user of
    the requesting wallet. *)
Definition POST_dealData (body : PostBody) (adId : string) (amount : JsValue)
    (ad : Ad) (buyer : User) : DealData :=
  mkDealData adId
    (match ad_type ad with sell => user_id_of buyer | buy => ad_user_id ad end)
    (match ad_type ad with sell => ad_user_id ad | buy => user_id_of buyer end)
    (ToNumber amount) (ad_price ad)
    (number_mul (ToNumber amount) (column_number (ad_price ad)))
    (or_string (p_paymentMethod body) (ad_payment_method ad))
    (or_string_opt (p_upiId body) (ad_upi_id ad)).

(** ** [createAd] *)

(** [adData] as the ads route fills it. *)
Record AdData : Set := mkAdData {
  adn_user_id : string;
  adn_asset : string;
  adn_type : string;
  adn_amount : JsNumber;
  adn_price : JsNumber;
  adn_min_amount : option JsNumber;
  adn_max_amount : option JsNumber;
  adn_payment_method : string;
  adn_upi_id : option string
}.

Definition if_truthy_number (o : option JsNumber) : option JsNumber :=
  if truthy_number o then o else None.

(** A nullable DECIMAL column: NULL is taken as it is. *)
Definition decimal_in_opt (precision scale : nat) (o : option JsNumber)
    : option (option Numeric) :=
  match o with
  | Some n => Some <$> decimal_in precision scale n
  | None => Some None
  end.

(** The CHECK constraint of [ads.type]. *)
Definition type_of_string (s : string) : option AdType :=
  if String.eqb s "buy" then Some buy
  else if String.eqb s "sell" then Some sell
  else None.

(** The CHECK constraints of [ads] on the columns of the record:
    [amount > 0], [price > 0], [min_amount > 0] and
    [max_amount >= min_amount]; a constraint on a NULL holds. *)
Definition ad_checks (a : Ad) : bool :=
  numeric_positive (ad_amount a) && numeric_positive (ad_price a)
  && match min_amount a with
     | Some m => numeric_positive m
     | None => true
     end
  && match min_amount a, max_amount a with
     | Some m, Some x => numeric_ge x m
     | _, _ => true
     end.

(** [INSERT INTO ads (...) RETURNING *]: [min_amount] and [max_amount]
    are written as [value || null], every number is taken at the scale of
    its column, [status] takes its default.  [None] is the exception the
    statement raises: a number a column cannot hold, a type other than
    buy and sell, or a row that breaks a CHECK constraint. *)
Definition createAd (fresh : string) (adData : AdData) (db : Tables)
    : option (Ad * Tables) :=
  match type_of_string (adn_type adData),
        decimal_in 18 8 (adn_amount adData),
        decimal_in 12 2 (adn_price adData),
        decimal_in_opt 18 8 (if_truthy_number (adn_min_amount adData)),
        decimal_in_opt 18 8 (if_truthy_number (adn_max_amount adData)) with
  | Some ty, Some amount, Some price, Some min, Some max =>
      let a := mkAd fresh (adn_user_id adData) (adn_asset adData) ty
                 amount price min max (adn_payment_method adData)
                 (or_string_opt (adn_upi_id adData) None) ad_active in
      if ad_checks a
      then Some (a, mkTables (users db) (ads db ++ [a]) (deals db)
                      (notifications db))
      else None
  | _, _, _, _, _ => None
  end.

(** ** The specification's words, for comparison with the code *)

(** Section 4.1: the edges of the transition graph. *)
Definition spec_edge (from to : DealStatus) : bool :=
  match from, to with
  | initiated, funded
  | funded, payment_sent
  | payment_sent, completed
  | funded, disputed | payment_sent, disputed
  | disputed, completed
  | initiated, cancelled
  | funded, cancelled
  | initiated, expired | funded, expired | payment_sent, expired => true
  | _, _ => false
  end.

Definition spec_terminal (s : DealStatus) : bool :=
  match s with
  | completed | cancelled | expired => true
  | _ => false
  end.

(** Section 3: the completed deals of a user, the rating of the
    counterpart in one of them, and the two counts. *)
Definition spec_completed_deals (userId : string) (ds : list Deal) : list Deal :=
  List.filter (fun d => DealStatus_eqb (status d) completed
                        && (String.eqb (buyer_id d) userId
                            || String.eqb (seller_id d) userId)) ds.

Definition spec_counterpart_rating (userId : string) (d : Deal) : option Z :=
  if String.eqb (buyer_id d) userId then seller_rating d else buyer_rating d.

Definition spec_completed (userId : string) (ds : list Deal) : Z :=
  Z.of_nat (length (spec_completed_deals userId ds)).

(** "counterpart rating >= 4": there is a rating and it is 4 or more. *)
Definition spec_rated_positive (userId : string) (d : Deal) : bool :=
  match spec_counterpart_rating userId d with
  | Some stars => 4 <=? stars
  | None => false
  end.

Definition spec_positive (userId : string) (ds : list Deal) : Z :=
  Z.of_nat (length (List.filter (spec_rated_positive userId)
                      (spec_completed_deals userId ds))).

(** [r] is [x] rounded to [scale] decimals, a half going away from
    zero: [r] is a whole number [k] of units of the scale, [x] lies at most
    half a unit from it, and exactly half a unit only on the side of
    zero. *)
Definition rounded_to (scale : nat) (x r : Q) : Prop :=
  exists k : Z,
    (r == inject_Z k / inject_Z (10 ^ Z.of_nat scale))%Q
    /\ (0 <= x ->
        inject_Z k - (1 # 2) <= x * inject_Z (10 ^ Z.of_nat scale)
        /\ x * inject_Z (10 ^ Z.of_nat scale) < inject_Z k + (1 # 2))%Q
    /\ (x < 0 ->
        inject_Z k - (1 # 2) < x * inject_Z (10 ^ Z.of_nat scale)
        /\ x * inject_Z (10 ^ Z.of_nat scale) <= inject_Z k + (1 # 2))%Q.

(** [s] is [num / den] rounded to the nearest integer, a half going up. *)
Definition nearest_integer (num den s : Z) : Prop :=
  2 * den * s - den <= 2 * num < 2 * den * s + den.

(** Section 4.4: the deals the sweep is to expire. *)
Definition spec_stale (now : Z) (d : Deal) : Prop :=
  (status d = initiated \/ status d = funded \/ status d = payment_sent)
  /\ expires_at d < now.

(** Two rows that agree on every column but the status. *)
Definition spec_same_but_status (d d' : Deal) : Prop :=
  id d' = id d /\ ad_id d' = ad_id d
  /\ buyer_id d' = buyer_id d /\ seller_id d' = seller_id d
  /\ amount d' = amount d /\ price d' = price d /\ total_inr d' = total_inr d
  /\ escrow_contract_address d' = escrow_contract_address d
  /\ transaction_hash d' = transaction_hash d
  /\ deal_id_on_chain d' = deal_id_on_chain d
  /\ payment_method d' = payment_method d
  /\ payment_details d' = payment_details d
  /\ upi_id d' = upi_id d
  /\ buyer_rating d' = buyer_rating d /\ seller_rating d' = seller_rating d
  /\ buyer_feedback d' = buyer_feedback d
  /\ seller_feedback d' = seller_feedback d
  /\ created_at d' = created_at d /\ updated_at d' = updated_at d
  /\ funded_at d' = funded_at d /\ payment_sent_at d' = payment_sent_at d
  /\ completed_at d' = completed_at d /\ expires_at d' = expires_at d.

(** ** Sample tables

    Three users; Bob's ad sells up to 1000 USDT at 84, between 10 and 500
    a deal. *)

Definition alice : User := mkUser "u1" "0xaa" (Some "alice") 0 0 0.
Definition bob : User := mkUser "u2" "0xbb" (Some "bob") 0 0 0.
Definition carol : User := mkUser "u3" "0xcc" None 0 0 0.

Definition sample_ad : Ad :=
  mkAd "a1" "u2" "USDT" sell (Num 1000) (Num 84) (Some (Num 10))
       (Some (Num 500)) "UPI" (Some "bob@upi") ad_active.

Definition sample_tables : Tables :=
  mkTables [alice; bob; carol] [sample_ad] [] [].

Definition sample_post (wallet : string) (amount : Q) : PostBody :=
  mkPostBody (Some "a1") (Some wallet) (Some (JNum amount)) None None.

(** The same request with the amount as a JSON string. *)
Definition sample_post_text (wallet amount : string) : PostBody :=
  mkPostBody (Some "a1") (Some wallet) (Some (JStr amount)) None None.




Definition sample_put (wallet status : string) : PutBody :=
  mkPutBody (Some status) (Some wallet) None None None None None None.

Definition sample_rate (wallet status : string) (rating : Z) : PutBody :=
  mkPutBody (Some status) (Some wallet) None None None None (Some rating)
            (Some "smooth trade").

(** Alice takes 100 USDT of Bob's ad at time 1000: deal "d1". *)
Definition sample_created : Tables :=
  snd (POST 1000 "d1" "n1" "n2" sample_tables (sample_post "0xAA" 100)).

(** Scenario A: funded, paid, confirmed; then each party rates the
    other with five stars. *)
Definition sample_funded : Tables :=
  snd (PUT 1100 "n3" sample_created "d1" (sample_put "0xAA" "funded")).

(** The row of deal "d1" in [sample_funded]. *)
Definition sample_funded_row : Deal :=
  mkDeal "d1" "a1" "u1" "u2" (Num 100) (Num 84) (Num 8400) None None None
         funded "UPI" None
         (Some "bob@upi") None None None None 1000 1100 (Some 1100) None None
         87400.

Definition sample_paid : Tables :=
  snd (PUT 1200 "n4" sample_funded "d1" (sample_put "0xAA" "payment_sent")).

Definition sample_completed : Tables :=
  snd (PUT 1300 "n5" sample_paid "d1" (sample_put "0xBB" "completed")).

Definition sample_rated : Tables :=
  snd (PUT 1500 "n7" (snd (PUT 1400 "n6" sample_completed "d1"
                             (sample_rate "0xAA" "completed" 5)))
           "d1" (sample_rate "0xBB" "completed" 5)).

(** A second deal between the two, paid and waiting for Bob. *)
Definition sample_second : Tables :=
  snd (PUT 1800 "n11"
         (snd (PUT 1700 "n10"
                 (snd (POST 1600 "d2" "n8" "n9" sample_rated
                         (sample_post "0xAA" 50)))
                 "d2" (sample_put "0xAA" "funded")))
         "d2" (sample_put "0xAA" "payment_sent")).

(** Completed deals of Alice (buyer) and Bob (seller) with ratings on
    both sides of the threshold, and one deal not completed. *)
Definition sample_rated_row (id : string) (st : DealStatus)
    (buyer_rating seller_rating : option Z) : Deal :=
  mkDeal id "a1" "u1" "u2" (Num 100) (Num 84) (Num 8400) None None None st
         "UPI" None (Some "bob@upi") buyer_rating seller_rating None None
         1000 1100 None None None 87400.

Definition sample_ratings : Tables :=
  mkTables [alice; bob; carol] [sample_ad]
    [sample_rated_row "r1" completed (Some 3) (Some 4);
     sample_rated_row "r2" completed (Some 5) (Some 3);
     sample_rated_row "r3" completed None (Some 5);
     sample_rated_row "r4" funded (Some 5) (Some 5)] [].

(** ** More of [SwapSathiDB] and of the routes

    What follows models the operations the deal routes do not reach
    through: the user upsert, the listing of a user's deals, the ads
    route, and the reputation function of the second persistence layer. *)

(** The terms of a deal row: what no status update names. *)
Definition same_deal_terms (d d' : Deal) : Prop :=
  id d' = id d /\ ad_id d' = ad_id d /\ buyer_id d' = buyer_id d
  /\ seller_id d' = seller_id d /\ amount d' = amount d /\ price d' = price d
  /\ total_inr d' = total_inr d /\ payment_method d' = payment_method d
  /\ upi_id d' = upi_id d /\ created_at d' = created_at d
  /\ expires_at d' = expires_at d.

(** *** [createOrUpdateUser] and the users route *)

Record UserData : Set := mkUserData {
  ud_username : option string
}.

(** [INSERT INTO users ... ON CONFLICT (wallet_address) DO UPDATE SET
    username = COALESCE($2, users.username), ... RETURNING *], with the
    wallet in lower case and [username || null] for [$2].  The email and
    the three timestamps the statement also writes are columns the
    [User] record leaves out. *)
Definition createOrUpdateUser (fresh : string) (walletAddress : string)
    (userData : UserData) (db : Tables) : User * Tables :=
  let wallet := toLowerCase walletAddress in
  let name := if_truthy_string (ud_username userData) in
  let hit := fun u => String.eqb (wallet_address u) wallet in
  let upd := fun u => mkUser (user_id_of u) (wallet_address u)
                        (assign name (username u)) (reputation_score u)
                        (total_trades u) (successful_trades u) in
  match List.find hit (users db) with
  | Some u =>
      (upd u, with_users (map (fun u => if hit u then upd u else u) (users db)) db)
  | None =>
      let u := mkUser fresh wallet name 0 0 0 in
      (u, with_users (users db ++ [u]) db)
  end.

Inductive UserResponse : Set :=
| UserJson (user : User) (message : string)
| UserFailure (http_status : Z) (error : string).

(** [userData] of a body: absent, [null], or any other value, given by
    the [username] it carries. *)
Inductive UserDataField : Set :=
| UdAbsent
| UdNull
| UdValue (userData : UserData).

(** The body of a request to the users route. *)
Record UserBody : Set := mkUserBody {
  ub_walletAddress : option string;
  ub_signature : option string;
  ub_message : option string;
  ub_userData : UserDataField
}.

(** What [createOrUpdateUser] works on: the default [{}] of the
    destructuring pattern and of the parameter replaces an absent
    [userData] and no other, so for [null] the read of [userData.username]
    throws, which is [None]. *)
Definition userData_read (f : UserDataField) : option UserData :=
  match f with
  | UdAbsent => Some (mkUserData None)
  | UdNull => None
  | UdValue d => Some d
  end.

Definition user_error : UserResponse :=
  UserFailure 500 "Internal server error".

(** [verifyWalletSignature] of lib/auth.ts.  [verifyMessage] stands for
    [ethers.verifyMessage]: the address it recovers from the message and
    the signature, or [None] when it throws. *)
Definition verifyWalletSignature (verifyMessage : string -> string -> option string)
    (walletAddress signature message : string) : bool :=
  match verifyMessage message signature with
  | Some recoveredAddress =>
      String.eqb (toLowerCase recoveredAddress) (toLowerCase walletAddress)
  | None => false
  end.

(** POST /api/users.  [signature_ok] is what [verifyWalletSignature]
    answers for the wallet, signature and message of the body. *)
Definition users_POST (now : Z) (fresh_user fresh_n : string)
    (signature_ok : bool) (db : Tables) (body : UserBody)
    : UserResponse * Tables :=
  if negb (truthy_string (ub_walletAddress body))
     || negb (truthy_string (ub_signature body))
     || negb (truthy_string (ub_message body))
  then (UserFailure 400 "Wallet address, signature, and message are required", db)
  else if negb signature_ok
  then (UserFailure 401 "Invalid wallet signature", db)
  else
    match userData_read (ub_userData body) with
    | None => (user_error, db)
    | Some userData =>
        let '(user, db1) :=
          createOrUpdateUser fresh_user (default "" (ub_walletAddress body))
            userData db in
        let db2 :=
          if total_trades user =? 0 then
            snd (createNotification now fresh_n
                   (mkNotificationData (user_id_of user) "Welcome to SwapSathi!"
                      (Text "Start trading crypto securely with our P2P platform. Your first trade awaits!")
                      "system" None) db1)
          else db1 in
        (UserJson user "User authenticated successfully", db2)
    end.


(** *** [getUserDeals] and GET /api/deals *)








(** *** POST /api/ads *)

Record AdBody : Set := mkAdBody {
  a_walletAddress : option string;
  a_asset : option string;
  a_type : option string;
  a_amount : option JsValue;
  a_price : option JsValue;
  a_minAmount : option JsValue;
  a_maxAmount : option JsValue;
  a_paymentMethod : option string;
  a_upiId : option string;
  a_chain : option string
}.

Inductive AdResponse : Set :=
| AdJson (ad : Ad) (message : string)
| AdFailure (http_status : Z) (error : string).

(** [bound && bound > amount], on the values as the body has them. *)
Definition exceeds (bound : option JsValue) (amount : JsValue) : bool :=
  match bound with
  | Some b => truthy_value bound && value_lt amount b
  | None => false
  end.

(** [bound ? Number(bound) : undefined] *)
Definition number_if_truthy (bound : option JsValue) : option JsNumber :=
  match bound with
  | Some b => if truthy_value bound then Some (ToNumber b) else None
  | None => None
  end.

(** POST /api/ads.  The handler tests the numbers as the body has them
    and converts them with [Number] only where it fills [adData]. *)
Definition ads_POST (now : Z) (fresh_ad fresh_n : string) (db : Tables)
    (body : AdBody) : AdResponse * Tables :=
  if negb (truthy_string (a_walletAddress body))
     || negb (truthy_string (a_asset body))
     || negb (truthy_string (a_type body))
     || negb (truthy_value (a_amount body))
     || negb (truthy_value (a_price body))
     || negb (truthy_string (a_paymentMethod body))
     || negb (truthy_string (a_chain body))
  then (AdFailure 400 "Missing required fields", db)
  else
    match a_amount body, a_price body with
    | Some amount, Some price =>
        if number_le (ToNumber amount) (Fin 0) || number_le (ToNumber price) (Fin 0)
        then (AdFailure 400 "Amount and price must be positive", db)
        else if exceeds (a_minAmount body) amount
        then (AdFailure 400 "Minimum amount cannot be greater than total amount",
              db)
        else if exceeds (a_maxAmount body) amount
        then (AdFailure 400 "Maximum amount cannot be greater than total amount",
              db)
        else
          match getUserByWallet db (default "" (a_walletAddress body)) with
          | None =>
              (AdFailure 404 "User not found. Please connect your wallet first.",
               db)
          | Some user =>
              let adData :=
                mkAdData (user_id_of user) (default "" (a_asset body))
                  (default "" (a_type body)) (ToNumber amount) (ToNumber price)
                  (number_if_truthy (a_minAmount body))
                  (number_if_truthy (a_maxAmount body))
                  (default "" (a_paymentMethod body)) (a_upiId body) in
              match createAd fresh_ad adData db with
              | None => (AdFailure 500 "Internal server error", db)
              | Some (ad, db1) =>
                  let db2 :=
                    snd (createNotification now fresh_n
                           (mkNotificationData (user_id_of user)
                              "Ad Posted Successfully"
                              (YourAdIsLive (default "" (a_type body)) amount
                                 (default "" (a_asset body)))
                              "system" (Some (ad_id_of ad))) db1) in
                  (AdJson ad "Ad created successfully", db2)
              end
          end
    | _, _ => (AdFailure 400 "Missing required fields", db)
    end.

(** *** The reputation function of the second persistence layer *)

(** [calculate_user_reputation(user_uuid)] of the Neon schema, which
    [NeonDB.updateUserReputation] selects: two counts, each a query of its
    own, the rounded ratio, the update and the returned score. *)
Definition calculate_user_reputation (user_uuid : string) (db : Tables)
    : Z * Tables :=
  let total_completed_deals :=
    Z.of_nat (length (List.filter
      (fun d => (String.eqb (buyer_id d) user_uuid
                 || String.eqb (seller_id d) user_uuid)
                && DealStatus_eqb (DB.status d) completed) (deals db))) in
  let positive_ratings :=
    Z.of_nat (length (List.filter
      (fun d => ((String.eqb (buyer_id d) user_uuid && rating_ge4 (seller_rating d))
                 || (String.eqb (seller_id d) user_uuid
                     && rating_ge4 (buyer_rating d)))
                && DealStatus_eqb (DB.status d) completed) (deals db))) in
  let reputation :=
    if total_completed_deals =? 0 then 0
    else sql_round (inject_Z positive_ratings / inject_Z total_completed_deals * 100) in
  (reputation,
   with_users (map (fun u => if String.eqb (user_id_of u) user_uuid
                             then set_reputation reputation total_completed_deals
                                    positive_ratings u
                             else u) (users db)) db).

(** *** Sample requests to the users and ads routes *)

(** Dave signs in for the first time. *)
Definition sample_user_body : UserBody :=
  mkUserBody (Some "0xDD") (Some "signature") (Some "message")
             (UdValue (mkUserData (Some "dave"))).

(** Carol offers 200 USDT at 85, between 10 and 100 a deal. *)
Definition sample_ad_body : AdBody :=
  mkAdBody (Some "0xCC") (Some "USDT") (Some "sell") (Some (JNum 200))
           (Some (JNum 85)) (Some (JNum 10)) (Some (JNum 100)) (Some "UPI")
           (Some "carol@upi") (Some "BSC").

(** The same offer with no minimum and a maximum of -5. *)
Definition sample_dead_ad_body : AdBody :=
  mkAdBody (Some "0xCC") (Some "USDT") (Some "sell") (Some (JNum 200))
           (Some (JNum 85)) None (Some (JNum (-5))) (Some "UPI")
           (Some "carol@upi") (Some "BSC").

(** An offer as the form of the repository posts it, the numbers as the
    texts of its input fields: 200 USDT at 85, a minimum of 1000. *)
Definition sample_form_ad_body : AdBody :=
  mkAdBody (Some "0xCC") (Some "USDT") (Some "sell") (Some (JStr "200"))
           (Some (JStr "85")) (Some (JStr "1000")) None (Some "UPI")
           (Some "carol@upi") (Some "BSC").
End DB.

(* ===================================================================== *)
(** * Part III: facts about the escrow contract                           *)
(* ===================================================================== *)

Module EscrowFacts.
Import Escrow.
Local Open Scope N_scope.
Local Open Scope tx_scope.

(** ** Running and inverting the monad *)

Lemma bind_run {A B} (m : M A) (k : A -> M B) w a w1 e1 :
  m w = Ok (a, w1, e1) ->
  bind m k w = match k a w1 with
               | Revert r => Revert r
               | Ok (b, w2, e2) => Ok (b, w2, e1 ++ e2)
               end.
Proof. intros H. unfold bind. now rewrite H. Qed.

Lemma bind_inv {A B} (m : M A) (k : A -> M B) w b w2 es :
  bind m k w = Ok (b, w2, es) ->
  exists a w1 e1 e2,
    m w = Ok (a, w1, e1) /\ k a w1 = Ok (b, w2, e2) /\ es = e1 ++ e2.
Proof.
  unfold bind. destruct (m w) as [[[a w1] e1]|]; [|discriminate].
  destruct (k a w1) as [[[b' w2'] e2]|] eqn:Hk; [|discriminate].
  intros [= <- <- <-]. now exists a, w1, e1, e2.
Qed.

Lemma ret_inv {A} (a : A) w b w' es :
  ret a w = Ok (b, w', es) -> b = a /\ w' = w /\ es = [].
Proof. unfold ret. now intros [= <- <- <-]. Qed.

Lemma require_inv cond reason w u w' es :
  require cond reason w = Ok (u, w', es) -> cond = true /\ w' = w /\ es = [].
Proof.
  unfold require, ret, revert. destruct cond; [|discriminate].
  now intros [= <- <- <-].
Qed.

Lemma nonpayable_inv c w u w' es :
  nonpayable c w = Ok (u, w', es) -> msg_value c = 0 /\ w' = w /\ es = [].
Proof.
  unfold nonpayable. intros H. apply require_inv in H.
  destruct H as (H & -> & ->). apply N.eqb_eq in H. auto.
Qed.

Lemma emit_inv e w u w' es :
  emit e w = Ok (u, w', es) -> w' = w /\ es = [Emit e].
Proof. unfold emit. now intros [= <- <- <-]. Qed.

Lemma get_storage_inv w s w' es :
  get_storage w = Ok (s, w', es) -> s = storage w /\ w' = w /\ es = [].
Proof. unfold get_storage. now intros [= <- <- <-]. Qed.

Lemma put_storage_inv s w u w' es :
  put_storage s w = Ok (u, w', es) -> w' = mkWorld s (ledger w) /\ es = [].
Proof. unfold put_storage. now intros [= <- <- <-]. Qed.

Lemma load_deal_inv id w d w' es :
  load_deal id w = Ok (d, w', es) ->
  d = default zeroDeal (deals (storage w) !! id) /\ w' = w /\ es = [].
Proof. unfold load_deal, bind, get_storage, ret. now intros [= <- <- <-]. Qed.

Lemma store_deal_inv id d w u w' es :
  store_deal id d w = Ok (u, w', es) ->
  w' = mkWorld (mkStorage (<[id := d]> (deals (storage w)))
                  (userReputation (storage w)) (nextDealId (storage w))
                  (arbitrator (storage w)) (feeRecipient (storage w))
                  (platformFeePercent (storage w))) (ledger w)
  /\ es = [].
Proof. unfold store_deal, bind, get_storage, put_storage. now intros [= <- <- <-]. Qed.

Lemma checked_add_inv a b w r w' es :
  checked_add a b w = Ok (r, w', es) ->
  r = a + b /\ a + b <= MAX_UINT256 /\ w' = w /\ es = [].
Proof.
  unfold checked_add, ret, revert.
  destruct (N.leb_spec (a + b) MAX_UINT256); [|discriminate].
  now intros [= <- <- <-].
Qed.

Lemma checked_sub_inv a b w r w' es :
  checked_sub a b w = Ok (r, w', es) ->
  r = a - b /\ b <= a /\ w' = w /\ es = [].
Proof.
  unfold checked_sub, ret, revert.
  destruct (N.leb_spec b a); [|discriminate].
  now intros [= <- <- <-].
Qed.

Lemma checked_mul_inv a b w r w' es :
  checked_mul a b w = Ok (r, w', es) ->
  r = a * b /\ a * b <= MAX_UINT256 /\ w' = w /\ es = [].
Proof.
  unfold checked_mul, ret, revert.
  destruct (N.leb_spec (a * b) MAX_UINT256); [|discriminate].
  now intros [= <- <- <-].
Qed.

Lemma safeTransfer_inv c tok to amt w u w' es :
  safeTransfer c tok to amt w = Ok (u, w', es) ->
  amt <= balanceOf (ledger w) tok (this c)
  /\ storage w' = storage w
  /\ es = [Transfer tok (this c) to amt].
Proof.
  unfold safeTransfer.
  destruct (N.leb_spec amt (balanceOf (ledger w) tok (this c))); [|discriminate].
  now intros [= <- <- <-].
Qed.

Lemma safeTransferFrom_inv c tok from to amt w u w' es :
  safeTransferFrom c tok from to amt w = Ok (u, w', es) ->
  storage w' = storage w /\ es = [Transfer tok from to amt].
Proof.
  unfold safeTransferFrom.
  destruct (negb _); [discriminate|]. destruct (negb _); [discriminate|].
  now intros [= <- <- <-].
Qed.

Lemma bump_reputation_inv who w u w' es :
  bump_reputation who w = Ok (u, w', es) ->
  deals (storage w') = deals (storage w)
  /\ platformFeePercent (storage w') = platformFeePercent (storage w)
  /\ ledger w' = ledger w
  /\ es = [].
Proof.
  unfold bump_reputation, bind, get_storage, checked_add, ret, revert, put_storage.
  destruct (_ <=? _); [|discriminate].
  now intros [= <- <- <-].
Qed.

(** Take a successful run apart, statement by statement. *)
Ltac tx_step :=
  match goal with
  | H : bind _ _ _ = Ok _ |- _ =>
      apply bind_inv in H; destruct H as (? & ? & ? & ? & ? & H & ?)
  | H : ret _ _ = Ok _ |- _ => apply ret_inv in H; destruct H as (? & ? & ?)
  | H : require _ _ _ = Ok _ |- _ =>
      apply require_inv in H; destruct H as (? & ? & ?)
  | H : nonpayable _ _ = Ok _ |- _ =>
      let Hv := fresh "Hvalue" in
      apply nonpayable_inv in H; destruct H as (Hv & ? & ?)
  | H : emit _ _ = Ok _ |- _ => apply emit_inv in H; destruct H as (? & ?)
  | H : get_storage _ = Ok _ |- _ =>
      apply get_storage_inv in H; destruct H as (? & ? & ?)
  | H : put_storage _ _ = Ok _ |- _ =>
      apply put_storage_inv in H; destruct H as (? & ?)
  | H : load_deal _ _ = Ok _ |- _ =>
      apply load_deal_inv in H; destruct H as (? & ? & ?)
  | H : store_deal _ _ _ = Ok _ |- _ =>
      apply store_deal_inv in H; destruct H as (? & ?)
  | H : checked_add _ _ _ = Ok _ |- _ =>
      apply checked_add_inv in H; destruct H as (? & ? & ? & ?)
  | H : checked_sub _ _ _ = Ok _ |- _ =>
      apply checked_sub_inv in H; destruct H as (? & ? & ? & ?)
  | H : checked_mul _ _ _ = Ok _ |- _ =>
      apply checked_mul_inv in H; destruct H as (? & ? & ? & ?)
  | H : bump_reputation _ _ = Ok _ |- _ =>
      apply bump_reputation_inv in H; destruct H as (? & ? & ? & ?)
  end.

Ltac tx_inv := repeat (tx_step; subst).

(** ** The ledger under one transfer *)

Lemma balance_after_transfer c tok to amt w w' es :
  safeTransfer c tok to amt w = Ok (tt, w', es) ->
  forall tok' who,
    balanceOf (ledger w') tok' who =
      if decide ((tok', who) = (tok, to)) then
        (if decide (to = this c) then balanceOf (ledger w) tok to
         else balanceOf (ledger w) tok to + amt)
      else if decide ((tok', who) = (tok, this c)) then
        balanceOf (ledger w) tok (this c) - amt
      else balanceOf (ledger w) tok' who.
Proof.
  unfold safeTransfer.
  destruct (N.leb_spec amt (balanceOf (ledger w) tok (this c))) as [Hle|]; [|discriminate].
  intros [= <-] tok' who. unfold balanceOf in *. cbn.
  destruct (decide ((tok', who) = (tok, to))) as [[= -> ->]|Hne].
  - rewrite lookup_insert_eq. cbn.
    destruct (decide (to = this c)) as [->|Hto].
    + rewrite lookup_insert_eq. cbn. lia.
    + rewrite lookup_insert_ne by congruence. reflexivity.
  - rewrite lookup_insert_ne by congruence.
    destruct (decide ((tok', who) = (tok, this c))) as [[= -> ->]|Hne'].
    + now rewrite lookup_insert_eq.
    + now rewrite lookup_insert_ne by congruence.
Qed.

(** ** Running a call forward *)

Lemma require_run cond reason w :
  cond = true -> require cond reason w = Ok (tt, w, []).
Proof. now intros ->. Qed.

Lemma nonpayable_run c w :
  msg_value c = 0 -> nonpayable c w = Ok (tt, w, []).
Proof. intros H. unfold nonpayable. now rewrite H. Qed.

Lemma load_deal_run id w d :
  deals (storage w) !! id = Some d -> load_deal id w = Ok (d, w, []).
Proof. intros H. unfold load_deal, bind, get_storage, ret. now rewrite H. Qed.

Lemma safeTransfer_run c tok to amt w :
  amt <= balanceOf (ledger w) tok (this c) ->
  safeTransfer c tok to amt w =
    Ok (tt, after_transfer c tok to amt w, [Transfer tok (this c) to amt]).
Proof.
  intros H. unfold safeTransfer, after_transfer.
  now destruct (N.leb_spec amt (balanceOf (ledger w) tok (this c))); [|lia].
Qed.

Lemma checked_mul_run a b w :
  a * b <= MAX_UINT256 -> checked_mul a b w = Ok (a * b, w, []).
Proof.
  intros H. unfold checked_mul.
  now destruct (N.leb_spec (a * b) MAX_UINT256); [|lia].
Qed.

Lemma checked_sub_run a b w :
  b <= a -> checked_sub a b w = Ok (a - b, w, []).
Proof.
  intros H. unfold checked_sub.
  now destruct (N.leb_spec b a); [|lia].
Qed.

Lemma checked_add_run a b w :
  a + b <= MAX_UINT256 -> checked_add a b w = Ok (a + b, w, []).
Proof.
  intros H. unfold checked_add.
  now destruct (N.leb_spec (a + b) MAX_UINT256); [|lia].
Qed.

(** Run the leading statement of a sequence, its side condition solved by
    [tac]. *)
Ltac tx_run tac :=
  erewrite bind_run by tac;
  cbv beta iota;
  cbn [storage ledger deals userReputation nextDealId arbitrator feeRecipient
       platformFeePercent after_transfer app].

(** C4.  A disputed deal resolved by the arbitrator in favour of the
    buyer: the call, which carries no value as the function is not
    payable, succeeds as soon as the contract holds the deal's amount of
    the token; its only transfer sends the whole [amount] of the deal to
    the buyer, nothing goes to the fee recipient, and the deal is stored
    as [Completed].  A call that carries value reverts. *)
Theorem resolveDispute_favor_buyer_refunds_principal c w id d :
  deals (storage w) !! id = Some d ->
  status d = Disputed ->
  msg_sender c = arbitrator (storage w) ->
  amount d <= balanceOf (ledger w) (token d) (this c) ->
  (msg_value c <> 0 -> resolveDispute c id true w = Revert "")
  /\ (msg_value c = 0 ->
      exists w',
        resolveDispute c id true w =
          Ok (tt, w', [Transfer (token d) (this c) (buyer d) (amount d);
                       Emit (DealCompleted id)])
        /\ deals (storage w') !! id = Some (set_status Completed d)
        /\ (buyer d <> this c ->
            balanceOf (ledger w') (token d) (buyer d)
            = balanceOf (ledger w) (token d) (buyer d) + amount d)
        /\ (forall who, who <> buyer d -> who <> this c ->
            balanceOf (ledger w') (token d) who
            = balanceOf (ledger w) (token d) who)).
Proof.
  intros Hd Hs Ha Hb. split.
  { intros Hv. unfold resolveDispute, nonpayable, bind, require.
    apply N.eqb_neq in Hv. now rewrite Hv. }
  intros Hv.
  pose proof (safeTransfer_run c (token d) (buyer d) (amount d) w Hb) as Ht.
  pose proof (balance_after_transfer _ _ _ _ _ _ _ Ht) as Hbal.
  eexists. split; [|split; [|split]].
  - unfold resolveDispute, onlyArbitrator.
    tx_run ltac:(apply nonpayable_run; assumption).
    tx_run ltac:(erewrite bind_run by reflexivity; cbv beta iota;
                 rewrite require_run by (rewrite Ha; apply N.eqb_refl);
                 reflexivity).
    tx_run ltac:(apply load_deal_run; eassumption).
    tx_run ltac:(apply require_run; rewrite Hs; reflexivity).
    tx_run ltac:(apply safeTransfer_run; assumption).
    tx_run ltac:(reflexivity).
    reflexivity.
  - cbn. apply lookup_insert_eq.
  - intros Hne. cbn [ledger]. fold (after_transfer c (token d) (buyer d) (amount d) w).
    rewrite Hbal. rewrite decide_True by reflexivity.
    now rewrite decide_False by assumption.
  - intros who Hw1 Hw2. cbn [ledger].
    fold (after_transfer c (token d) (buyer d) (amount d) w).
    rewrite Hbal. rewrite decide_False by congruence.
    now rewrite decide_False by congruence.
Qed.

(** ** Payouts *)

Lemma release_to_seller_inv c d w u w' es :
  release_to_seller c d w = Ok (u, w', es) ->
  let fee := fee_of (platformFeePercent (storage w)) (amount d) in
  fee <= amount d
  /\ storage w' = storage w
  /\ es = Transfer (token d) (this c) (seller d) (amount d - fee)
          :: (if 0 <? fee
              then [Transfer (token d) (this c) (feeRecipient (storage w)) fee]
              else []).
Proof.
  unfold release_to_seller, fee_of. intros H. tx_inv.
  match goal with H : safeTransfer _ _ _ _ _ = _ |- _ =>
    apply safeTransfer_inv in H; destruct H as (_ & Hs1 & ->) end.
  cbn zeta. split; [assumption|].
  destruct (0 <? _).
  - match goal with H : safeTransfer _ _ _ _ _ = _ |- _ =>
      apply safeTransfer_inv in H; destruct H as (_ & Hs2 & ->) end.
    split; [congruence|]. reflexivity.
  - tx_inv. split; [assumption|]. reflexivity.
Qed.

Lemma fee_within_cap pct amt :
  pct <= 500 -> 20 * fee_of pct amt <= amt.
Proof.
  intros Hp. unfold fee_of.
  pose proof (N.Div0.mul_div_le (amt * pct) 10000) as H.
  nia.
Qed.

(** C9.  Whatever way a deal is settled, the transfers of the call add
    up to the deal's amount: the buyer receives all of it when the
    arbitrator favours the buyer; otherwise the seller receives the amount
    less the fee, the fee being [amount * platformFeePercent / 10000]
    rounded down, and the fee recipient receives the fee in a second
    transfer that is left out when the fee is zero.  With the fee percent
    at most 500 the fee is at most a twentieth of the amount. *)
Theorem settlement_pays_out_the_deposit how c w id d w' es :
  deals (storage w) !! id = Some d ->
  platformFeePercent (storage w) <= 500 ->
  settle how c id w = Ok (tt, w', es) ->
  let fee := fee_of (platformFeePercent (storage w)) (amount d) in
  transferred es = amount d
  /\ transfers_of es =
       match how with
       | ByArbitration true =>
           [Transfer (token d) (this c) (buyer d) (amount d)]
       | _ =>
           Transfer (token d) (this c) (seller d) (amount d - fee)
           :: (if 0 <? fee
               then [Transfer (token d) (this c) (feeRecipient (storage w)) fee]
               else [])
       end
  /\ 20 * fee <= amount d
  /\ status <$> deals (storage w') !! id = Some Completed.
Proof.
  intros Hd Hcap Hrun fee.
  pose proof (fee_within_cap _ (amount d) Hcap) as Hfee. fold fee in Hfee.
  destruct how as [|[|]]; cbn [settle] in Hrun.
  - unfold confirmPaymentReceived in Hrun. tx_inv.
    rewrite Hd in *. cbn [default from_option Datatypes.id] in *.
    match goal with H : release_to_seller _ _ _ = _ |- _ =>
      apply release_to_seller_inv in H; cbn [storage platformFeePercent amount
        set_sellerConfirmed token seller feeRecipient] in H;
      destruct H as (Hle & Hst & ->) end.
    fold fee. fold fee in Hle.
    repeat split.
    + destruct (N.ltb_spec 0 fee); cbn; lia.
    + destruct (0 <? fee); reflexivity.
    + assumption.
    + rewrite H, H5. cbn [storage deals]. now rewrite lookup_insert_eq.
  - unfold resolveDispute, onlyArbitrator in Hrun. tx_inv.
    rewrite Hd in *. cbn [default from_option Datatypes.id] in *.
    match goal with H : safeTransfer _ _ _ _ _ = _ |- _ =>
      apply safeTransfer_inv in H; destruct H as (_ & Hst & ->) end.
    repeat split.
    + cbn. lia.
    + assumption.
    + cbn [storage deals]. now rewrite lookup_insert_eq.
  - unfold resolveDispute, onlyArbitrator in Hrun. tx_inv.
    rewrite Hd in *. cbn [default from_option Datatypes.id] in *.
    match goal with H : release_to_seller _ _ _ = _ |- _ =>
      apply release_to_seller_inv in H; destruct H as (Hle & Hst & ->) end.
    fold fee. fold fee in Hle.
    repeat split.
    + destruct (N.ltb_spec 0 fee); cbn; lia.
    + destruct (0 <? fee); reflexivity.
    + assumption.
    + cbn [storage deals]. now rewrite lookup_insert_eq.
Qed.

Lemma sample_disputed_deal :
  deals (storage sample_disputed) !! 1 = Some (sample_deal Disputed false).
Proof. vm_compute. reflexivity. Qed.

Lemma sample_payment_sent_deal :
  deals (storage sample_payment_sent) !! 1 = Some (sample_deal PaymentSent true).
Proof. vm_compute. reflexivity. Qed.

Lemma resolveDispute_favor_buyer_witness :
  exists w',
    resolveDispute (sample_ctx 99 0) 1 true sample_disputed =
      Ok (tt, w', [Transfer 77 500 10 1000; Emit (DealCompleted 1)])
    /\ deals (storage w') !! 1 = Some (sample_deal Completed false)
    /\ (10 <> 500 ->
        balanceOf (ledger w') 77 10 = balanceOf (ledger sample_disputed) 77 10 + 1000)
    /\ (forall who, who <> 10 -> who <> 500 ->
        balanceOf (ledger w') 77 who = balanceOf (ledger sample_disputed) 77 who).
Proof.
  refine (proj2 (resolveDispute_favor_buyer_refunds_principal
                   (sample_ctx 99 0) sample_disputed 1 (sample_deal Disputed false)
                   sample_disputed_deal eq_refl eq_refl _) eq_refl).
  vm_compute. discriminate.
Defined.

Lemma settlement_witness :
  exists w' es,
    settle ByConfirmation (sample_ctx 20 0) 1 sample_payment_sent = Ok (tt, w', es)
    /\ transferred es = 1000
    /\ transfers_of es = [Transfer 77 500 20 995; Transfer 77 500 98 5]
    /\ status <$> deals (storage w') !! 1 = Some Completed.
Proof.
  destruct (settle ByConfirmation (sample_ctx 20 0) 1 sample_payment_sent)
    as [[[[] w'] es]|] eqn:Hrun; [|vm_compute in Hrun; discriminate].
  exists w', es. split; [reflexivity|].
  destruct (settlement_pays_out_the_deposit ByConfirmation (sample_ctx 20 0)
              sample_payment_sent 1 (sample_deal PaymentSent true) w' es
              sample_payment_sent_deal) as (H1 & H2 & _ & H4).
  - vm_compute. discriminate.
  - exact Hrun.
  - repeat split; assumption.
Defined.

(** Scenario B, run on the sample deployment: create, fund, dispute,
    resolve for the buyer.  The buyer's 1000 units go into the contract
    and come back whole; the fee recipient receives nothing. *)
Example scenario_B :
  let '(w, es) :=
    run_calls (sample_opening
                 ++ [ (sample_ctx 10 DISPUTE_FEE, CallInitiateDispute 1);
                      (sample_ctx 99 0, CallResolveDispute 1 true) ])
              sample_genesis in
  transfers_of es = [Transfer 77 10 500 1000; Transfer 77 500 10 1000]
  /\ status <$> deals (storage w) !! 1 = Some Completed
  /\ balanceOf (ledger w) 77 10 = 1000
  /\ balanceOf (ledger w) 77 500 = 0
  /\ balanceOf (ledger w) 77 98 = 0.
Proof. vm_compute. repeat split. Qed.

(** Scenario A on the chain side: create, fund, payment sent, payment
    confirmed.  At the initial 0.5% the seller receives 995 and the fee
    recipient 5. *)
Example scenario_A_on_chain :
  let '(w, es) :=
    run_calls (sample_opening
                 ++ [ (sample_ctx 10 0, CallConfirmPaymentSent 1);
                      (sample_ctx 20 0, CallConfirmPaymentReceived 1) ])
              sample_genesis in
  transfers_of es = [Transfer 77 10 500 1000; Transfer 77 500 20 995;
                     Transfer 77 500 98 5]
  /\ status <$> deals (storage w) !! 1 = Some Completed
  /\ balanceOf (ledger w) 77 500 = 0.
Proof. vm_compute. repeat split. Qed.

(** ** The fee cap *)

Ltac tx_frame :=
  repeat first
    [ tx_step; subst
    | match goal with
      | H : safeTransfer _ _ _ _ _ = Ok _ |- _ =>
          apply safeTransfer_inv in H; destruct H as (_ & ? & ?)
      | H : safeTransferFrom _ _ _ _ _ _ = Ok _ |- _ =>
          apply safeTransferFrom_inv in H; destruct H as (? & ?)
      | H : release_to_seller _ _ _ = Ok _ |- _ =>
          apply release_to_seller_inv in H; destruct H as (_ & ? & ?)
      | H : (if ?b then _ else _) _ = Ok _ |- _ => destruct b
      end ].

Lemma fee_cap_preserved c f w u w' es :
  platformFeePercent (storage w) <= 500 ->
  call c f w = Ok (u, w', es) ->
  platformFeePercent (storage w') <= 500.
Proof.
  intros Hcap Hrun.
  destruct f; cbn [call] in Hrun;
    unfold createDeal, fundDeal, confirmPaymentSent, confirmPaymentReceived,
      initiateDispute, resolveDispute, cancelDeal, emergencyRefund,
      updatePlatformFee, getDeal, getter_deals, onlyDealParticipant,
      onlyArbitrator in Hrun;
    tx_frame; cbn [storage platformFeePercent] in *;
    try (repeat match goal with
                | H : storage _ = _ |- _ => rewrite H in *
                | H : platformFeePercent _ = _ |- _ => rewrite H in *
                end; cbn [storage platformFeePercent] in *; assumption).
  now apply N.leb_le.
Qed.

(** From deployment on, whatever transactions are sent, the fee percent
    stays at or below 500. *)
Lemma fee_cap_invariant txs w :
  platformFeePercent (storage w) <= 500 ->
  platformFeePercent (storage (fst (run_calls txs w))) <= 500.
Proof.
  revert w. induction txs as [|[c f] txs IH]; intros w Hcap; cbn [run_calls].
  - assumption.
  - destruct (call c f w) as [[[u w1] es]|r] eqn:Hcall.
    + specialize (IH w1 (fee_cap_preserved _ _ _ _ _ _ Hcap Hcall)).
      now destruct (run_calls txs w1).
    + now apply IH.
Qed.

Lemma fee_cap_after_deployment _arbitrator _feeRecipient l txs :
  platformFeePercent
    (storage (fst (run_calls txs (mkWorld (constructor _arbitrator _feeRecipient) l))))
  <= 500.
Proof. apply fee_cap_invariant. cbn. lia. Qed.

(** ** Deal creation on chain *)

(** [createDeal] refuses a caller who names itself as seller; the deal
    it stores otherwise has the caller as buyer and somebody else as
    seller. *)
Lemma createDeal_parties c _seller _token _amount _inrAmount w :
  (_seller = msg_sender c ->
   createDeal c _seller _token _amount _inrAmount w
   = Revert "Cannot trade with yourself")
  /\ (forall id w' es,
        createDeal c _seller _token _amount _inrAmount w = Ok (id, w', es) ->
        exists d, deals (storage w') !! id = Some d
                  /\ buyer d = msg_sender c /\ seller d = _seller
                  /\ buyer d <> seller d).
Proof.
  split.
  - intros ->. unfold createDeal, bind, require. now rewrite N.eqb_refl.
  - intros id w' es H. unfold createDeal in H. tx_inv.
    eexists. split; [cbn; apply lookup_insert_eq|]. cbn.
    repeat split.
    match goal with H : negb _ = true |- _ =>
      apply negb_true_iff, N.eqb_neq in H end.
    congruence.
Qed.

(** ** Settlement goes through *)

Lemma release_to_seller_run c d w :
  amount d * platformFeePercent (storage w) <= MAX_UINT256 ->
  platformFeePercent (storage w) <= 10000 ->
  amount d <= balanceOf (ledger w) (token d) (this c) ->
  exists w' es,
    release_to_seller c d w = Ok (tt, w', es) /\ storage w' = storage w.
Proof.
  intros Hmul Hpct Hbal. unfold release_to_seller.
  set (pct := platformFeePercent (storage w)) in *.
  assert (Hfee : amount d * pct / 10000 <= amount d).
  { apply N.Div0.div_le_upper_bound. nia. }
  tx_run ltac:(reflexivity).
  tx_run ltac:(apply checked_mul_run; assumption).
  tx_run ltac:(apply checked_sub_run; assumption).
  fold pct. set (fee := amount d * pct / 10000) in *.
  assert (Hfirst : amount d - fee <= balanceOf (ledger w) (token d) (this c)) by lia.
  pose proof (safeTransfer_run c (token d) (seller d) _ w Hfirst) as Ht.
  pose proof (balance_after_transfer _ _ _ _ _ _ _ Ht (token d) (this c)) as Hafter.
  tx_run ltac:(exact Ht).
  destruct (0 <? fee).
  - assert (Hsecond : fee <= balanceOf (ledger (after_transfer c (token d) (seller d)
                                                  (amount d - fee) w))
                                       (token d) (this c)).
    { rewrite Hafter.
      repeat case_decide; try congruence; try lia.
      replace (seller d) with (this c) by congruence. lia. }
    rewrite (safeTransfer_run _ _ _ _ _ Hsecond).
    eexists _, _. split; reflexivity.
  - eexists _, _. split; reflexivity.
Qed.

(** The arbitrator can always settle a disputed deal for the seller
    while the contract holds the deal's amount and the fee product does
    not overflow. *)
Lemma resolveDispute_for_seller_succeeds c w id d :
  deals (storage w) !! id = Some d ->
  status d = Disputed ->
  msg_sender c = arbitrator (storage w) ->
  msg_value c = 0 ->
  platformFeePercent (storage w) <= 500 ->
  amount d * platformFeePercent (storage w) <= MAX_UINT256 ->
  amount d <= balanceOf (ledger w) (token d) (this c) ->
  exists w' es, resolveDispute c id false w = Ok (tt, w', es).
Proof.
  intros Hd Hs Ha Hv Hcap Hmul Hbal.
  destruct (release_to_seller_run c d w Hmul ltac:(lia) Hbal) as (w1 & es1 & Hrel & Hst).
  unfold resolveDispute, onlyArbitrator.
  tx_run ltac:(apply nonpayable_run; assumption).
  tx_run ltac:(erewrite bind_run by reflexivity; cbv beta iota;
               rewrite require_run by (rewrite Ha; apply N.eqb_refl);
               reflexivity).
  tx_run ltac:(apply load_deal_run; eassumption).
  tx_run ltac:(apply require_run; rewrite Hs; reflexivity).
  tx_run ltac:(exact Hrel).
  tx_run ltac:(reflexivity).
  eexists _, _. reflexivity.
Qed.

(** ** What is in escrow *)

(** Funding moves exactly the deal's amount from the buyer to the
    contract and makes the deal [Funded]. *)
Lemma fundDeal_escrows_amount c w id d w' es :
  deals (storage w) !! id = Some d ->
  fundDeal c id w = Ok (tt, w', es) ->
  status d = Created
  /\ msg_sender c = buyer d
  /\ es = [Transfer (token d) (buyer d) (this c) (amount d);
           Emit (DealFunded id (buyer d))]
  /\ deals (storage w') !! id = Some (set_status Funded d).
Proof.
  intros Hd H. unfold fundDeal in H. tx_inv.
  rewrite Hd in *. cbn [default from_option Datatypes.id] in *.
  match goal with H : safeTransferFrom _ _ _ _ _ _ = _ |- _ =>
    apply safeTransferFrom_inv in H; destruct H as (Hst & ->) end.
  match goal with H : (buyer d =? msg_sender c) = true |- _ =>
    apply N.eqb_eq in H; rewrite <- H end.
  repeat split.
  - now destruct (status d).
  - cbn [storage deals]. rewrite Hst. now rewrite lookup_insert_eq.
Qed.

(** A dispute is opened on a funded or paid deal only, by one of its
    parties, and makes it [Disputed]. *)
Lemma initiateDispute_from_escrow c w id d w' es :
  deals (storage w) !! id = Some d ->
  initiateDispute c id w = Ok (tt, w', es) ->
  (status d = Funded \/ status d = PaymentSent)
  /\ (msg_sender c = buyer d \/ msg_sender c = seller d)
  /\ DISPUTE_FEE <= msg_value c
  /\ deals (storage w') !! id = Some (set_status Disputed d).
Proof.
  intros Hd H. unfold initiateDispute, onlyDealParticipant in H. tx_inv.
  rewrite Hd in *. cbn [default from_option Datatypes.id] in *.
  repeat split.
  - destruct (status d); cbn in *; auto; discriminate.
  - match goal with H : (_ =? _) || (_ =? _) = true |- _ =>
      apply orb_true_iff in H; destruct H as [H|H]; apply N.eqb_eq in H; auto end.
  - now apply N.leb_le.
  - cbn [storage deals]. now rewrite lookup_insert_eq.
Qed.

Lemma bump_reputation_run who w :
  default 0 (userReputation (storage w) !! who) + 1 <= MAX_UINT256 ->
  bump_reputation who w
  = Ok (tt,
        mkWorld (mkStorage (deals (storage w))
                   (<[who := default 0 (userReputation (storage w) !! who) + 1]>
                      (userReputation (storage w)))
                   (nextDealId (storage w)) (arbitrator (storage w))
                   (feeRecipient (storage w)) (platformFeePercent (storage w)))
                (ledger w),
        []).
Proof.
  intros H. unfold bump_reputation.
  tx_run ltac:(reflexivity).
  tx_run ltac:(apply checked_add_run; assumption).
  reflexivity.
Qed.

(** The seller can always confirm a paid deal while the contract holds
    the deal's amount, the fee product does not overflow and the two
    reputation counters have room. *)
Lemma confirmPaymentReceived_succeeds c w id d :
  deals (storage w) !! id = Some d ->
  seller d = msg_sender c ->
  msg_value c = 0 ->
  status d = PaymentSent ->
  platformFeePercent (storage w) <= 500 ->
  amount d * platformFeePercent (storage w) <= MAX_UINT256 ->
  amount d <= balanceOf (ledger w) (token d) (this c) ->
  default 0 (userReputation (storage w) !! buyer d) + 2 <= MAX_UINT256 ->
  default 0 (userReputation (storage w) !! seller d) + 2 <= MAX_UINT256 ->
  exists w' es, confirmPaymentReceived c id w = Ok (tt, w', es).
Proof.
  intros Hd Hsel Hv Hs Hcap Hmul Hbal Hrb Hrs.
  unfold confirmPaymentReceived.
  tx_run ltac:(apply nonpayable_run; assumption).
  tx_run ltac:(apply load_deal_run; eassumption).
  tx_run ltac:(apply require_run; rewrite Hsel; apply N.eqb_refl).
  tx_run ltac:(apply require_run; rewrite Hs; reflexivity).
  tx_run ltac:(reflexivity).
  match goal with |- context [bind (release_to_seller c ?d1) _ ?w0] =>
    destruct (release_to_seller_run c d1 w0) as (w1 & es1 & Hrel & Hst);
      [exact Hmul | cbn [storage platformFeePercent]; lia | exact Hbal |]
  end.
  cbn [storage] in Hst.
  tx_run ltac:(exact Hrel).
  tx_run ltac:(reflexivity).
  cbn [set_sellerConfirmed buyer seller].
  tx_run ltac:(apply bump_reputation_run; cbn [storage userReputation];
               rewrite Hst; cbn [userReputation]; lia).
  rewrite Hst. cbn [userReputation deals nextDealId arbitrator feeRecipient
                    platformFeePercent].
  tx_run ltac:(apply bump_reputation_run; cbn [storage userReputation];
               destruct (decide (buyer d = seller d)) as [E|E];
               [rewrite E, lookup_insert_eq; cbn; lia
               |rewrite lookup_insert_ne by exact E; lia]).
  tx_run ltac:(reflexivity).
  eexists _, _. reflexivity.
Qed.

End EscrowFacts.

(* ===================================================================== *)
(** * Part IV: facts about the deal store                                 *)
(* ===================================================================== *)

Module DBFacts.
Import DB.
Local Open Scope string_scope.
Local Open Scope Z_scope.

(** ** Comparisons *)

Lemma Qlt_bool_true a b : Qlt_bool a b = true <-> (a < b)%Q.
Proof.
  unfold Qlt_bool. rewrite negb_true_iff.
  split.
  - intros H. apply Qnot_le_lt. intros Hle.
    apply Qle_bool_iff in Hle. congruence.
  - intros H. destruct (Qle_bool b a) eqn:E; [|reflexivity].
    apply Qle_bool_iff in E. exfalso. exact (Qlt_not_le _ _ H E).
Qed.

Lemma Qlt_bool_false a b : Qlt_bool a b = false <-> (b <= a)%Q.
Proof.
  unfold Qlt_bool. rewrite negb_false_iff. apply Qle_bool_iff.
Qed.

Lemma Qle_bool_false a b : Qle_bool a b = false <-> (b < a)%Q.
Proof.
  rewrite <- Qlt_bool_true. unfold Qlt_bool. now rewrite negb_true_iff.
Qed.

(** ** The expiry sweep *)

Lemma expirable_spec now d : expirable now d = true <-> spec_stale now d.
Proof.
  unfold expirable, spec_stale. rewrite andb_true_iff, Z.ltb_lt.
  destruct (status d); intuition (try discriminate; try reflexivity).
Qed.

Lemma expirable_expired now d :
  expirable now (set_deal_status expired d) = false.
Proof. reflexivity. Qed.

(** C8.  The sweep at time [now] rewrites exactly the rows that are
    initiated, funded or payment_sent with [expires_at < now]: each of
    them comes out with status expired and with every other column as it
    was.  Every other row, so every row already completed, cancelled or
    expired and every row not yet due, stays as it is, as do the other
    tables; no row is added, dropped or moved.  A second sweep at the same
    time changes nothing more, and a later sweep after an earlier one
    leaves what the later one alone would leave. *)
Theorem expireOldDeals_frame now db :
  Forall2 (fun d d' =>
             (spec_stale now d ->
              status d' = expired /\ spec_same_but_status d d')
             /\ (~ spec_stale now d -> d' = d)
             /\ (spec_terminal (status d) = true -> d' = d))
          (deals db) (deals (expireOldDeals now db))
  /\ users (expireOldDeals now db) = users db
  /\ ads (expireOldDeals now db) = ads db
  /\ notifications (expireOldDeals now db) = notifications db
  /\ expireOldDeals now (expireOldDeals now db) = expireOldDeals now db
  /\ (forall later, now <= later ->
        expireOldDeals later (expireOldDeals now db) = expireOldDeals later db).
Proof.
  destruct db as [us as_ ds ns]. unfold expireOldDeals, with_deals. cbn.
  assert (Hlater : forall later, now <= later ->
            map (fun d => if expirable later d then set_deal_status expired d else d)
                (map (fun d => if expirable now d then set_deal_status expired d else d) ds)
            = map (fun d => if expirable later d then set_deal_status expired d else d) ds).
  { intros later Hle. rewrite map_map. apply map_ext. intros d.
    destruct (expirable now d) eqn:E.
    - rewrite expirable_expired.
      assert (expirable later d = true) as ->; [|reflexivity].
      apply expirable_spec in E. apply expirable_spec.
      destruct E as [Hs Ht]. split; [assumption|lia].
    - reflexivity. }
  split; [|repeat split].
  - clear Hlater. induction ds as [|d ds IH]; cbn; [constructor|].
    constructor; [|exact IH].
    split; [|split].
    + intros H. apply expirable_spec in H. rewrite H.
      split; [reflexivity|]. unfold spec_same_but_status. cbn. repeat split.
    + intros H. destruct (expirable now d) eqn:E; [|reflexivity].
      apply expirable_spec in E. contradiction.
    + intros H. unfold expirable.
      destruct (status d); try discriminate H; reflexivity.
  - f_equal. apply Hlater. lia.
  - intros later Hle. f_equal. now apply Hlater.
Qed.

(** On the sample tables at time 90000: the first deal, completed,
    stays as it is; the second, paid and due at 88000, comes out
    expired, with its other columns as they were. *)
Lemma expireOldDeals_frame_witness :
  exists d1 d2 d2',
    deals sample_second = [d1; d2]
    /\ deals (expireOldDeals 90000 sample_second) = [d1; d2']
    /\ status d1 = completed /\ status d2 = payment_sent
    /\ status d2' = expired /\ spec_same_but_status d2 d2'
    /\ expireOldDeals 90000 (expireOldDeals 90000 sample_second)
       = expireOldDeals 90000 sample_second.
Proof.
  destruct (expireOldDeals_frame 90000 sample_second)
    as (Hrows & _ & _ & _ & Hsame & _).
  assert (Hbefore : exists d1 d2,
             deals sample_second = [d1; d2]
             /\ status d1 = completed
             /\ status d2 = payment_sent /\ expires_at d2 = 88000).
  { vm_compute. eexists _, _. repeat split. }
  destruct Hbefore as (d1 & d2 & Hds & Hs1 & Hs2 & Hx2).
  assert (Hafter : exists e1 e2,
             deals (expireOldDeals 90000 sample_second) = [e1; e2]).
  { vm_compute. eexists _, _. reflexivity. }
  destruct Hafter as (e1 & e2 & Hes).
  assert (H1 : e1 = d1).
  { refine (proj2 (proj2 (Forall2_lookup_lr _ _ _ 0%nat d1 e1 Hrows _ _)) _);
      [now rewrite Hds|now rewrite Hes|now rewrite Hs1]. }
  assert (H2 : status e2 = expired /\ spec_same_but_status d2 e2).
  { refine (proj1 (Forall2_lookup_lr _ _ _ 1%nat d2 e2 Hrows _ _) _);
      [now rewrite Hds|now rewrite Hes|].
    split; [right; right; exact Hs2|rewrite Hx2; reflexivity]. }
  subst e1. destruct H2 as [Hst Hrest].
  exists d1, d2, e2.
  exact (conj Hds (conj Hes (conj Hs1 (conj Hs2 (conj Hst (conj Hrest Hsame)))))).
Defined.

(** On the sample tables at time 90000: the completed first deal stays
    as it is, the second, paid and due at 88000, becomes expired. *)
Example sweep_on_sample :
  map (fun d => (id d, DB.status d)) (deals (expireOldDeals 90000 sample_second))
  = [("d1", completed); ("d2", expired)].
Proof. vm_compute. reflexivity. Qed.

(** ** Deal creation *)

(** The row [createDeal] inserts, when the statement goes through. *)
Lemma createDeal_row now fresh dd db d db' :
  createDeal now fresh dd db = Some (d, db') ->
  exists amount total,
    decimal_in 18 8 (dd_amount dd) = Some amount
    /\ decimal_in 12 2 (dd_total_inr dd) = Some total
    /\ numeric_positive amount = true
    /\ numeric_positive (dd_price dd) = true
    /\ numeric_positive total = true
    /\ d = mkDeal fresh (dd_ad_id dd) (dd_buyer_id dd) (dd_seller_id dd)
             amount (dd_price dd) total
             None None None initiated (dd_payment_method dd) None
             (or_string_opt (dd_upi_id dd) None)
             None None None None now now None None None (now + DAY)
    /\ db' = with_deals (deals db ++ [d]) db.
Proof.
  unfold createDeal.
  destruct (decimal_in 18 8 (dd_amount dd)) as [amount|]; [|discriminate].
  destruct (decimal_in 12 2 (dd_total_inr dd)) as [total|]; [|discriminate].
  destruct (numeric_positive amount) eqn:Ha; [|discriminate].
  destruct (numeric_positive (dd_price dd)) eqn:Hp; [|discriminate].
  destruct (numeric_positive total) eqn:Ht; [|discriminate].
  cbn [andb]. intros [= <- <-]. exists amount, total. repeat split; assumption.
Qed.


(** The deal row the route inserts for a request it accepts. *)
Lemma POST_success now f1 f2 f3 db body r msg db' :
  POST now f1 f2 f3 db body = (Json r msg, db') ->
  exists adId wallet amount ad buyer d,
    p_adId body = Some adId /\ p_buyerWallet body = Some wallet
    /\ p_amount body = Some amount
    /\ getAdById db adId = Some ad /\ getUserByWallet db wallet = Some buyer
    /\ number_le (ToNumber amount) (Fin 0) = false
    /\ String.eqb (ad_user_id ad) (user_id_of buyer) = false
    /\ below_min ad amount = false /\ above_max ad amount = false
    /\ gt_column amount (ad_amount ad) = false
    /\ createDeal now f1 (POST_dealData body adId amount ad buyer) db
       = Some (d, with_deals (deals db ++ [d]) db)
    /\ r = Some d /\ msg = "Deal created successfully"
    /\ deals db' = (deals db ++ [d])%list
    /\ users db' = users db /\ ads db' = ads db.
Proof.
  unfold POST.
  destruct (p_adId body) as [adId|]; [|discriminate].
  destruct (p_buyerWallet body) as [wallet|]; [|discriminate].
  destruct (p_amount body) as [amount|]; [|discriminate].
  destruct (_ || _ || _); [discriminate|].
  destruct (number_le (ToNumber amount) (Fin 0)) eqn:Hpos; [discriminate|].
  destruct (getAdById db adId) as [ad|] eqn:Had; [|discriminate].
  destruct (getUserByWallet db wallet) as [buyer|] eqn:Hu; [|discriminate].
  destruct (String.eqb (ad_user_id ad) (user_id_of buyer)) eqn:Hself; [discriminate|].
  destruct (below_min ad amount) eqn:Hmin; [discriminate|].
  destruct (above_max ad amount) eqn:Hmax; [discriminate|].
  destruct (gt_column amount (ad_amount ad)) eqn:Hav; [discriminate|].
  fold (POST_dealData body adId amount ad buyer).
  destruct (createDeal now f1 (POST_dealData body adId amount ad buyer) db)
    as [[d db1]|] eqn:Hc; [|discriminate].
  destruct (createDeal_row _ _ _ _ _ _ Hc) as (a & t & _ & _ & _ & _ & _ & _ & ->).
  cbn. intros [= <- <- <-].
  exists adId, wallet, amount, ad, buyer, d. cbn.
  repeat split; first [assumption | reflexivity].
Qed.

(** A request the route turns down leaves the tables as they were. *)
Lemma POST_failure now f1 f2 f3 db body code err db' :
  POST now f1 f2 f3 db body = (Failure code err, db') -> db' = db.
Proof.
  unfold POST, internal_error.
  destruct (p_adId body) as [adId|]; [|now intros [= _ _ <-]].
  destruct (p_buyerWallet body) as [wallet|]; [|now intros [= _ _ <-]].
  destruct (p_amount body) as [amount|]; [|now intros [= _ _ <-]].
  destruct (_ || _ || _); [now intros [= _ _ <-]|].
  destruct (number_le _ _); [now intros [= _ _ <-]|].
  destruct (getAdById db adId) as [ad|]; [|now intros [= _ _ <-]].
  destruct (getUserByWallet db wallet) as [buyer|]; [|now intros [= _ _ <-]].
  destruct (String.eqb _ _); [now intros [= _ _ <-]|].
  destruct (below_min ad amount); [now intros [= _ _ <-]|].
  destruct (above_max ad amount); [now intros [= _ _ <-]|].
  destruct (gt_column amount (ad_amount ad)); [now intros [= _ _ <-]|].
  destruct (createDeal _ _ _ _) as [[d db1]|]; [|now intros [= _ _ <-]].
  cbn. discriminate.
Qed.

(** A deal the creation route returns has a buyer other than its
    seller; a request by the owner of the ad is turned down and leaves the
    tables, so the deals, as they were. *)
Lemma POST_parties now f1 f2 f3 db body :
  (forall d msg db',
      POST now f1 f2 f3 db body = (Json (Some d) msg, db') ->
      buyer_id d <> seller_id d /\ deals db' = (deals db ++ [d])%list)
  /\ (forall adId wallet ad requester,
        p_adId body = Some adId -> p_buyerWallet body = Some wallet ->
        getAdById db adId = Some ad ->
        getUserByWallet db wallet = Some requester ->
        ad_user_id ad = user_id_of requester ->
        exists code err,
          POST now f1 f2 f3 db body = (Failure code err, db)).
Proof.
  split.
  - intros d msg db' H.
    apply POST_success in H.
    destruct H as (adId & wallet & amount & ad & buyer & d0 & _ & _ & _ & _ & _ & _
                   & Hself & _ & _ & _ & Hc & Hd & _ & Hdeals & _).
    injection Hd as ->. split; [|exact Hdeals].
    destruct (createDeal_row _ _ _ _ _ _ Hc) as (a & t & _ & _ & _ & _ & _ & -> & _).
    cbn. apply String.eqb_neq in Hself.
    destruct (ad_type ad); congruence.
  - intros adId wallet ad requester HadId Hwallet Had Hu Hown.
    destruct (POST now f1 f2 f3 db body) as [[r msg|code err] db'] eqn:H.
    + apply POST_success in H.
      destruct H as (adId' & wallet' & amount & ad' & buyer & d0 & E1 & E2 & _ & E4
                     & E5 & _ & Hself & _).
      rewrite HadId in E1. injection E1 as <-.
      rewrite Hwallet in E2. injection E2 as <-.
      rewrite Had in E4. injection E4 as <-.
      rewrite Hu in E5. injection E5 as <-.
      rewrite Hown, String.eqb_refl in Hself. discriminate.
    + pose proof (POST_failure _ _ _ _ _ _ _ _ _ H) as ->. now exists code, err.
Qed.

(** C6.  Deal creation never pairs a user with itself.  Off chain, a
    deal the creation route returns has a buyer other than its seller,
    and a request by the owner of the ad is turned down and leaves the
    tables, so the deals, as they were.  On chain, [createDeal] reverts
    for a caller who names itself as seller, and the deal it stores
    otherwise has a buyer other than its seller. *)
Theorem deal_creation_buyer_is_not_seller
    now f1 f2 f3 db body c _seller _token _amount _inrAmount w :
  (forall d msg db',
      POST now f1 f2 f3 db body = (Json (Some d) msg, db') ->
      buyer_id d <> seller_id d /\ deals db' = (deals db ++ [d])%list)
  /\ (forall adId wallet ad requester,
        p_adId body = Some adId -> p_buyerWallet body = Some wallet ->
        getAdById db adId = Some ad ->
        getUserByWallet db wallet = Some requester ->
        ad_user_id ad = user_id_of requester ->
        exists code err,
          POST now f1 f2 f3 db body = (Failure code err, db))
  /\ (_seller = Escrow.msg_sender c ->
      Escrow.createDeal c _seller _token _amount _inrAmount w
      = Escrow.Revert "Cannot trade with yourself")
  /\ (forall id w' es,
        Escrow.createDeal c _seller _token _amount _inrAmount w
        = Escrow.Ok (id, w', es) ->
        exists d, Escrow.deals (Escrow.storage w') !! id = Some d
                  /\ Escrow.buyer d <> Escrow.seller d).
Proof.
  destruct (POST_parties now f1 f2 f3 db body) as [Hok Hown].
  destruct (EscrowFacts.createDeal_parties c _seller _token _amount _inrAmount w)
    as [Hself Hchain].
  split; [exact Hok|]. split; [exact Hown|]. split; [exact Hself|].
  intros id w' es H. destruct (Hchain id w' es H) as (d & Hd & _ & _ & Hne).
  now exists d.
Qed.

Lemma deal_creation_buyer_is_not_seller_witness :
  (exists d msg db',
      POST 1000 "d1" "n1" "n2" sample_tables (sample_post "0xAA" 100)
      = (Json (Some d) msg, db')
      /\ buyer_id d <> seller_id d)
  /\ (exists code err,
        POST 1000 "d1" "n1" "n2" sample_tables (sample_post "0xBB" 100)
        = (Failure code err, sample_tables))
  /\ Escrow.createDeal (Escrow.sample_ctx 10%N 0%N) 10%N 77%N 1000%N 300000%N
        Escrow.sample_genesis
      = Escrow.Revert "Cannot trade with yourself".
Proof.
  split; [|split].
  - destruct (POST 1000 "d1" "n1" "n2" sample_tables (sample_post "0xAA" 100))
      as [[[d|] msg|code err] db'] eqn:H; try (vm_compute in H; discriminate).
    exists d, msg, db'. split; [reflexivity|].
    exact (proj1 (proj1 (deal_creation_buyer_is_not_seller 1000 "d1" "n1" "n2"
                           sample_tables (sample_post "0xAA" 100)
                           (Escrow.sample_ctx 10%N 0%N) 10%N 77%N 1000%N 300000%N
                           Escrow.sample_genesis) d msg db' H)).
  - exact (proj1 (proj2 (deal_creation_buyer_is_not_seller 1000 "d1" "n1" "n2"
                           sample_tables (sample_post "0xBB" 100)
                           (Escrow.sample_ctx 10%N 0%N) 10%N 77%N 1000%N 300000%N
                           Escrow.sample_genesis))
             "a1" "0xBB" sample_ad bob eq_refl eq_refl eq_refl eq_refl eq_refl).
  - exact (proj1 (proj2 (proj2 (deal_creation_buyer_is_not_seller 1000 "d1" "n1" "n2"
                                  sample_tables (sample_post "0xBB" 100)
                                  (Escrow.sample_ctx 10%N 0%N) 10%N 77%N 1000%N 300000%N
                                  Escrow.sample_genesis))) eq_refl).
Defined.


Lemma getAdById_In db adId ad :
  getAdById db adId = Some ad -> In ad (ads db).
Proof. unfold getAdById. intros H. now apply find_some in H. Qed.

(** C7.  The bounds of the ad are not kept for an amount that arrives
    as a string.  Bob's ad offers 1000 USDT, between 10 and 500 a deal.
    Alice's request with the amount as the JSON string "1000" is
    compared with the texts of the three columns as a string, passes all
    three tests and creates a deal of 1000, twice the maximum; the same
    amount sent as the number 1000 is turned down with status 400, and the
    tables stay as they were. *)
Theorem POST_text_amount_passes_the_bounds :
  min_amount sample_ad = Some (Num 10)
  /\ max_amount sample_ad = Some (Num 500)
  /\ ad_amount sample_ad = Num 1000
  /\ getAdById sample_tables "a1" = Some sample_ad
  /\ (exists d db',
        POST 1000 "d1" "n1" "n2" sample_tables (sample_post_text "0xAA" "1000")
        = (Json (Some d) "Deal created successfully", db')
        /\ ad_id d = "a1"
        /\ amount d = Num 1000
        /\ getDealById db' "d1" = Some d)
  /\ POST 1000 "d1" "n1" "n2" sample_tables (sample_post "0xAA" 1000)
     = (Failure 400 (MaximumAmountIs (Num 500) "USDT"), sample_tables).
Proof.
  repeat split; try reflexivity.
  eexists _, _. vm_compute. repeat split; reflexivity.
Qed.

(** *** Rounding at the scale of a column *)

Lemma sql_round_half y :
  (0 <= y ->
   inject_Z (sql_round y) - (1 # 2) <= y /\ y < inject_Z (sql_round y) + (1 # 2))%Q
  /\ (y < 0 ->
      inject_Z (sql_round y) - (1 # 2) < y
      /\ y <= inject_Z (sql_round y) + (1 # 2))%Q.
Proof.
  unfold sql_round. split; intros Hy.
  - rewrite (proj2 (Qle_bool_iff 0 y) Hy).
    pose proof (Qfloor_le (y + (1 # 2))) as Hlo.
    pose proof (Qlt_floor (y + (1 # 2))) as Hhi.
    rewrite inject_Z_plus in Hhi. change (inject_Z 1) with 1%Q in Hhi.
    split; lra.
  - destruct (Qle_bool 0 y) eqn:E;
      [apply Qle_bool_iff in E; exfalso; exact (Qlt_not_le _ _ Hy E)|].
    pose proof (Qfloor_le (- y + (1 # 2))) as Hlo.
    pose proof (Qlt_floor (- y + (1 # 2))) as Hhi.
    rewrite inject_Z_plus in Hhi. change (inject_Z 1) with 1%Q in Hhi.
    rewrite inject_Z_opp. split; lra.
Qed.

Lemma to_scale_rounded scale q : rounded_to scale q (to_scale scale q).
Proof.
  exists (sql_round (q * inject_Z (scale_unit scale))).
  unfold to_scale, scale_unit.
  split; [apply Qred_correct|].
  assert (Hu : (0 < inject_Z (10 ^ Z.of_nat scale))%Q).
  { change 0%Q with (inject_Z 0). rewrite <- Zlt_Qlt.
    apply Z.pow_pos_nonneg; lia. }
  destruct (sql_round_half (q * inject_Z (10 ^ Z.of_nat scale))) as [Hnn Hneg].
  split; intros Hq.
  - apply Hnn. apply Qmult_le_0_compat; [exact Hq|now apply Qlt_le_weak].
  - apply Hneg.
    pose proof (Qmult_lt_compat_r q 0 _ Hu Hq) as Hlt.
    now rewrite Qmult_0_l in Hlt.
Qed.

Lemma decimal_in_Fin precision scale q v :
  decimal_in precision scale (Fin q) = Some v ->
  v = Num (to_scale scale q).
Proof.
  unfold decimal_in. destruct (Qlt_bool _ _); [|discriminate].
  now intros [= <-].
Qed.






(** ** Reputation *)

Lemma sql_round_nearest p c :
  0 <= p -> 0 < c ->
  nearest_integer (100 * p) c (sql_round (inject_Z p / inject_Z c * 100)).
Proof.
  intros Hp Hc. destruct c as [|c|c]; try lia.
  unfold sql_round.
  assert (E : (inject_Z p / inject_Z (Z.pos c) * 100)%Q = ((p * 1 * 100) # (1 * c * 1)))
    by reflexivity.
  rewrite E. clear E.
  assert (Hnn : Qle_bool 0 ((p * 1 * 100) # (1 * c * 1)) = true).
  { apply Qle_bool_iff. unfold Qle. cbn. lia. }
  rewrite Hnn.
  unfold Qplus, Qfloor. cbn [Qnum Qden].
  rewrite Pos.mul_1_l, Pos.mul_1_r, Pos2Z.inj_mul.
  pose proof (Z.mul_div_le (p * 1 * 100 * 2 + 1 * Z.pos c) (Z.pos c * 2)
                ltac:(lia)) as Hlo.
  pose proof (Z.mul_succ_div_gt (p * 1 * 100 * 2 + 1 * Z.pos c) (Z.pos c * 2)
                ltac:(lia)) as Hhi.
  unfold nearest_integer.
  set (s := (p * 1 * 100 * 2 + 1 * Z.pos c) `div` (Z.pos c * 2)) in *.
  lia.
Qed.

Lemma positive_row_counterpart userId d :
  buyer_id d <> seller_id d ->
  reputation_row userId d = true ->
  positive_row userId d = spec_rated_positive userId d.
Proof.
  unfold reputation_row, positive_row, spec_rated_positive,
    spec_counterpart_rating, rating_ge4.
  intros Hne Hrow.
  destruct (String.eqb_spec (buyer_id d) userId) as [Hb|Hb];
    destruct (String.eqb_spec (seller_id d) userId) as [Hs|Hs];
    cbn in *; try congruence.
  now rewrite orb_false_r.
Qed.

Lemma spec_completed_deals_cons userId d ds :
  spec_completed_deals userId (d :: ds) =
    if reputation_row userId d then d :: spec_completed_deals userId ds
    else spec_completed_deals userId ds.
Proof.
  unfold spec_completed_deals, reputation_row. cbn [List.filter].
  now rewrite andb_comm.
Qed.

Lemma reputation_calc_spec userId ds :
  Forall (fun d => buyer_id d <> seller_id d) ds ->
  reputation_calc userId ds = (spec_completed userId ds, spec_positive userId ds).
Proof.
  unfold spec_completed, spec_positive.
  induction 1 as [|d ds Hd _ IH]; [reflexivity|].
  cbn [reputation_calc]. rewrite IH, spec_completed_deals_cons.
  destruct (reputation_row userId d) eqn:Hrow; [|reflexivity].
  cbn [List.filter length].
  rewrite <- (positive_row_counterpart userId d Hd Hrow).
  destruct (positive_row userId d); cbn [length]; f_equal; lia.
Qed.

Lemma spec_positive_le_completed userId ds :
  0 <= spec_positive userId ds <= spec_completed userId ds.
Proof.
  unfold spec_positive, spec_completed.
  pose proof (List.filter_length_le (spec_rated_positive userId)
                (spec_completed_deals userId ds)).
  lia.
Qed.

Lemma find_updated_row (hit : User -> bool) (f : User -> User) us :
  (forall u, hit (f u) = hit u) ->
  List.find hit (map (fun u => if hit u then f u else u) us)
  = option_map f (List.find hit us).
Proof.
  intros Hf. induction us as [|u us IH]; [reflexivity|].
  cbn [map List.find]. destruct (hit u) eqn:E.
  - now rewrite Hf, E.
  - now rewrite E.
Qed.

(** C3.  For a user of the table, with every deal between two different
    users, [updateUserReputation] returns and stores the score of the
    specification: 0 when the user has no completed deal, and otherwise
    [positive / completed * 100] rounded to the nearest integer, where
    [completed] counts the completed deals the user is buyer or seller of
    and [positive] those among them whose counterpart rating is 4 or
    more.  The two counts are stored with it; other users and the deals
    are left alone. *)
Theorem updateUserReputation_matches_spec userId db :
  Forall (fun d => buyer_id d <> seller_id d) (deals db) ->
  (exists u, In u (users db) /\ user_id_of u = userId) ->
  let n_completed := spec_completed userId (deals db) in
  let n_positive := spec_positive userId (deals db) in
  let '(score, db') := updateUserReputation userId db in
  (n_completed = 0 -> score = 0)
  /\ (n_completed <> 0 ->
      score = sql_round (inject_Z n_positive / inject_Z n_completed * 100)
      /\ nearest_integer (100 * n_positive) n_completed score)
  /\ 0 <= score <= 100
  /\ Forall2 (fun u u' =>
                if String.eqb (user_id_of u) userId
                then u' = set_reputation score n_completed n_positive u
                else u' = u)
             (users db) (users db')
  /\ deals db' = deals db.
Proof.
  intros Hne (u0 & Hin & Hid) n_completed n_positive.
  unfold updateUserReputation.
  rewrite (reputation_calc_spec userId (deals db) Hne).
  fold n_completed n_positive.
  set (score := reputation_of_counts n_completed n_positive).
  rewrite (find_updated_row (fun u => String.eqb (user_id_of u) userId)
             (set_reputation score n_completed n_positive))
    by reflexivity.
  assert (Hfound : exists u1, List.find (fun u => String.eqb (user_id_of u) userId)
                                 (users db) = Some u1).
  { destruct (List.find _ (users db)) as [u1|] eqn:E; [now exists u1|].
    exfalso. pose proof (find_none _ _ E u0 Hin) as Hno. cbn in Hno.
    rewrite Hid, String.eqb_refl in Hno. discriminate. }
  destruct Hfound as [u1 ->]. cbn [option_map set_reputation reputation_score].
  pose proof (spec_positive_le_completed userId (deals db)) as Hrange.
  fold n_completed n_positive in Hrange.
  assert (Hzero : n_completed = 0 -> score = 0).
  { intros Hz. unfold score, reputation_of_counts. now rewrite Hz. }
  assert (Hround : n_completed <> 0 ->
            score = sql_round (inject_Z n_positive / inject_Z n_completed * 100)
            /\ nearest_integer (100 * n_positive) n_completed score).
  { intros Hnz. unfold score, reputation_of_counts.
    rewrite (proj2 (Z.eqb_neq _ _) Hnz). split; [reflexivity|].
    apply sql_round_nearest; lia. }
  split; [exact Hzero|]. split; [exact Hround|]. split; [|split; [|reflexivity]].
  - destruct (Z.eq_dec n_completed 0) as [Hz|Hnz]; [rewrite (Hzero Hz); lia|].
    destruct (Hround Hnz) as [_ [Hlo Hhi]]. nia.
  - cbn [users with_users]. clear. induction (users db) as [|u us IH]; cbn [map].
    + constructor.
    + constructor; [|exact IH]. now destruct (String.eqb (user_id_of u) userId).
Qed.

Lemma sample_second_has_alice :
  exists u, In u (users sample_second) /\ user_id_of u = "u1".
Proof. exists (mkUser "u1" "0xaa" (Some "alice") 100 1 1). vm_compute. auto. Qed.

Lemma sample_ratings_parties :
  Forall (fun d => buyer_id d <> seller_id d) (deals sample_ratings).
Proof. repeat constructor; discriminate. Qed.

Lemma sample_ratings_has user :
  In user [alice; bob] ->
  exists u, In u (users sample_ratings) /\ user_id_of u = user_id_of user.
Proof. intros H. exists user. split; [|reflexivity]. cbn in *. tauto. Qed.

(** On the sample: of Alice's three completed deals the counterpart
    ratings are 4, 3 and 5, so two count and the score is 67; of Bob's
    they are 3, 5 and none, so one counts and the score is 33.  The fourth
    deal, rated 5 on both sides, is not completed and counts for
    neither. *)
Lemma updateUserReputation_matches_spec_witness :
  (spec_completed "u1" (deals sample_ratings) = 3
   /\ spec_positive "u1" (deals sample_ratings) = 2
   /\ fst (updateUserReputation "u1" sample_ratings) = 67)
  /\ (spec_completed "u2" (deals sample_ratings) = 3
      /\ spec_positive "u2" (deals sample_ratings) = 1
      /\ fst (updateUserReputation "u2" sample_ratings) = 33).
Proof.
  split.
  - pose proof (updateUserReputation_matches_spec "u1" sample_ratings
                  sample_ratings_parties
                  (sample_ratings_has alice ltac:(cbn; auto))) as H.
    cbv zeta in H.
    destruct (updateUserReputation "u1" sample_ratings) as [score db'].
    destruct H as (_ & Hround & _).
    assert (Hc : spec_completed "u1" (deals sample_ratings) = 3) by reflexivity.
    assert (Hp : spec_positive "u1" (deals sample_ratings) = 2) by reflexivity.
    rewrite Hc, Hp in Hround |- *.
    destruct (Hround ltac:(discriminate)) as [-> _].
    repeat split.
  - pose proof (updateUserReputation_matches_spec "u2" sample_ratings
                  sample_ratings_parties
                  (sample_ratings_has bob ltac:(cbn; auto))) as H.
    cbv zeta in H.
    destruct (updateUserReputation "u2" sample_ratings) as [score db'].
    destruct H as (_ & Hround & _).
    assert (Hc : spec_completed "u2" (deals sample_ratings) = 3) by reflexivity.
    assert (Hp : spec_positive "u2" (deals sample_ratings) = 1) by reflexivity.
    rewrite Hc, Hp in Hround |- *.
    destruct (Hround ltac:(discriminate)) as [-> _].
    repeat split.
Defined.

(** ** Status updates *)

Lemma status_of_string_nonempty s st :
  status_of_string s = Some st -> String.eqb s "" = false.
Proof. destruct s; [discriminate|reflexivity]. Qed.

Lemma rating_check_assign new old :
  rating_check new = true -> rating_check old = true ->
  rating_check (assign new old) = true.
Proof. now destruct new. Qed.

Lemma find_map_rows (hit : Deal -> bool) (f : Deal -> Deal) ds :
  (forall d, hit (f d) = hit d) ->
  List.find hit (map (fun d => if hit d then f d else d) ds)
  = option_map f (List.find hit ds).
Proof.
  intros Hf. induction ds as [|d ds IH]; [reflexivity|].
  cbn [map List.find]. destruct (hit d) eqn:E.
  - now rewrite Hf, E.
  - now rewrite E.
Qed.

(** The update statement goes through whatever the row holds: with
    parameters the server can read, a status text of the CHECK list and
    ratings within 1..5, every row of the given id is rewritten, and the
    first of them is returned. *)
Lemma updateDealStatus_applies now dealId status st data db stored :
  update_parameters_ok data = true ->
  status_of_string status = Some st ->
  getDealById db dealId = Some stored ->
  Forall (fun d => deal_checks d = true) (deals db) ->
  rating_check (upd_buyer_rating data) = true ->
  rating_check (upd_seller_rating data) = true ->
  updateDealStatus now dealId status data db
  = Some (Some (apply_update now st data stored),
          with_deals (map (fun d => if String.eqb (id d) dealId
                                    then apply_update now st data d else d)
                          (deals db)) db).
Proof.
  intros Hok Hst Hstored Hchecks Hb Hs. unfold updateDealStatus, getDealById in *.
  rewrite Hok. cbn [negb].
  assert (Hex : existsb (fun d => String.eqb (id d) dealId) (deals db) = true).
  { apply existsb_exists. apply find_some in Hstored. now exists stored. }
  rewrite Hex, Hst. cbn [negb].
  rewrite (find_map_rows (fun d => String.eqb (id d) dealId)
             (apply_update now st data)) by reflexivity.
  rewrite Hstored. cbn [option_map].
  assert (Hall : forallb (fun d => negb (String.eqb (id d) dealId) || deal_checks d)
                   (map (fun d => if String.eqb (id d) dealId
                                  then apply_update now st data d else d)
                        (deals db)) = true).
  { apply forallb_forall. intros d' Hin. apply in_map_iff in Hin.
    destruct Hin as (d & <- & Hin).
    rewrite Forall_forall in Hchecks.
    specialize (Hchecks d (proj2 (list_elem_of_In _ _) Hin)).
    apply andb_true_iff in Hchecks. destruct Hchecks as [Hcb Hcs].
    destruct (String.eqb (id d) dealId) eqn:E.
    - cbn [apply_update id]. rewrite E. cbn [negb orb].
      unfold deal_checks. cbn [apply_update buyer_rating seller_rating].
      now rewrite !rating_check_assign.
    - rewrite E. reflexivity. }
  now rewrite Hall.
Qed.

(** The tables a status write leaves. *)
Lemma updateDealStatus_inv now dealId status data db r db1 d :
  getDealById db dealId = Some d ->
  updateDealStatus now dealId status data db = Some (r, db1) ->
  exists st,
    status_of_string status = Some st
    /\ r = Some (apply_update now st data d)
    /\ deal_checks (apply_update now st data d) = true
    /\ db1 = with_deals (map (fun x => if String.eqb (id x) dealId
                                       then apply_update now st data x else x)
                             (deals db)) db
    /\ update_parameters_ok data = true.
Proof.
  intros Hd. unfold updateDealStatus, getDealById in *.
  destruct (update_parameters_ok data) eqn:Hok; [|discriminate]. cbn [negb].
  assert (Hex : existsb (fun x => String.eqb (id x) dealId) (deals db) = true).
  { apply existsb_exists. apply find_some in Hd. now exists d. }
  rewrite Hex. cbn [negb].
  destruct (status_of_string status) as [st|]; [|discriminate].
  rewrite (find_map_rows (fun x => String.eqb (id x) dealId)
             (apply_update now st data)) by reflexivity.
  rewrite Hd. cbn [option_map].
  destruct (forallb _ _) eqn:Hall; [|discriminate].
  intros [= <- <-]. exists st. repeat split; auto.
  rewrite forallb_forall in Hall.
  apply find_some in Hd. destruct Hd as [Hin Hid].
  specialize (Hall (apply_update now st data d)).
  cbn [apply_update id] in Hall. rewrite Hid in Hall. cbn [negb orb] in Hall.
  apply Hall. apply in_map_iff. exists d. now rewrite Hid.
Qed.

Lemma PUT_updateData_ratings user currentDeal body :
  rating_check (b_rating body) = true ->
  rating_check (upd_buyer_rating (PUT_updateData user currentDeal body)) = true
  /\ rating_check (upd_seller_rating (PUT_updateData user currentDeal body)) = true.
Proof.
  intros H. unfold PUT_updateData. cbn [upd_buyer_rating upd_seller_rating].
  split.
  - now destruct (_ && _ && negb _).
  - now destruct (_ && _ && _).
Qed.

Lemma updateUserReputation_deals userId db :
  deals (snd (updateUserReputation userId db)) = deals db.
Proof. unfold updateUserReputation. now destruct (reputation_calc _ _). Qed.

Lemma updateUserReputation_users userId db :
  users (snd (updateUserReputation userId db))
  = map (fun u => if String.eqb (user_id_of u) userId
                  then set_reputation (derived_score userId (deals db))
                         (fst (reputation_calc userId (deals db)))
                         (snd (reputation_calc userId (deals db))) u
                  else u)
        (users db).
Proof.
  unfold updateUserReputation, derived_score.
  now destruct (reputation_calc _ _).
Qed.

(** What the handler does from [updateDealStatus] on, when it answers
    with a deal: the stored row of the id has been rewritten with the
    requested status, and is the row of the id in the tables it
    leaves. *)
Lemma PUT_write_Json now fresh params_id status body currentDeal user db stored
    r msg trace :
  getDealById db params_id = Some stored ->
  PUT_write now fresh params_id status body currentDeal user db
  = (Json r msg, trace) ->
  exists st,
    status_of_string status = Some st
    /\ r = Some (apply_update now st (PUT_updateData user currentDeal body) stored)
    /\ msg = "Deal updated successfully"
    /\ trace <> []
    /\ getDealById (List.last trace db) params_id = r.
Proof.
  intros Hstored. unfold PUT_write.
  destruct (updateDealStatus _ _ _ _ _) as [[updatedDeal db1]|] eqn:Hup;
    [|discriminate].
  destruct (updateDealStatus_inv _ _ _ _ _ _ _ _ Hstored Hup)
    as (st & Hst & -> & _ & -> & _).
  intros [= <- <- <-]. exists st.
  split; [exact Hst|]. split; [reflexivity|]. split; [reflexivity|].
  split; [discriminate|].
  set (db1 := with_deals _ db).
  assert (H1 : getDealById db1 params_id
               = Some (apply_update now st (PUT_updateData user currentDeal body) stored)).
  { unfold db1, getDealById. cbn [deals with_deals].
    rewrite (find_map_rows (fun d => String.eqb (id d) params_id)
               (apply_update now st (PUT_updateData user currentDeal body)))
      by reflexivity.
    unfold getDealById in Hstored. now rewrite Hstored. }
  destruct (String.eqb status "completed");
    destruct (negb (String.eqb (notificationMessage status) ""));
    cbn [List.last app]; unfold getDealById in *;
    cbn [createNotification snd deals with_notifications];
    rewrite ?updateUserReputation_deals; exact H1.
Qed.

Lemma PUT_write_Failure now fresh params_id status body currentDeal user db
    code err trace :
  PUT_write now fresh params_id status body currentDeal user db
  = (Failure code err, trace) ->
  code = 500 /\ trace = [].
Proof.
  unfold PUT_write, internal_error.
  destruct (updateDealStatus _ _ _ _ _) as [[updatedDeal db1]|]; [discriminate|].
  now intros [= <- _ <-].
Qed.

(** The handler turns a request down in four ways only, and then
    writes nothing. *)
Lemma PUT_failure now fresh db params_id body code err db' :
  PUT now fresh db params_id body = (Failure code err, db') ->
  db' = db /\ (code = 400 \/ code = 403 \/ code = 404 \/ code = 500).
Proof.
  unfold PUT, PUT_trace, PUT_write, internal_error.
  repeat match goal with
         | |- context [match ?x with _ => _ end] =>
             lazymatch x with
             | context [match _ with _ => _ end] => fail
             | _ => destruct x
             end
         end; cbn [List.last]; intros [= <- <- <-]; auto.
Qed.

(** *** The stored status plays no part *)

Lemma last_nonempty {A} (l : list A) a b :
  l <> [] -> List.last l a = List.last l b.
Proof.
  induction l as [|x [|y l] IH]; [contradiction|reflexivity|].
  intros _. change (List.last (y :: l) a = List.last (y :: l) b).
  now apply IH.
Qed.

Lemma existsb_map_rows (hit : Deal -> bool) (f : Deal -> Deal) ds :
  (forall d, hit (f d) = hit d) ->
  existsb hit (map (fun d => if hit d then f d else d) ds) = existsb hit ds.
Proof.
  intros Hf. induction ds as [|d ds IH]; [reflexivity|].
  cbn [map existsb]. rewrite IH. f_equal.
  destruct (hit d) eqn:E; [now rewrite Hf|exact E].
Qed.

Lemma map_map_rows (hit : Deal -> bool) (f g : Deal -> Deal) ds :
  (forall d, hit (f d) = hit d) -> (forall d, g (f d) = g d) ->
  map (fun d => if hit d then g d else d) (map (fun d => if hit d then f d else d) ds)
  = map (fun d => if hit d then g d else d) ds.
Proof.
  intros Hf Hg. rewrite map_map. apply map_ext. intros d.
  destruct (hit d) eqn:E; [now rewrite Hf, E, Hg|now rewrite E].
Qed.

Lemma getDealById_with_stored_status dealId s db :
  getDealById (with_stored_status dealId s db) dealId
  = option_map (set_deal_status s) (getDealById db dealId).
Proof.
  unfold getDealById, with_stored_status. cbn [deals with_deals].
  now rewrite (find_map_rows (fun d => String.eqb (id d) dealId) (set_deal_status s)).
Qed.

Lemma updateDealStatus_status_blind now dealId status data s db :
  existsb (fun d => String.eqb (id d) dealId) (deals db) = true ->
  updateDealStatus now dealId status data (with_stored_status dealId s db)
  = updateDealStatus now dealId status data db.
Proof.
  intros Hex. unfold updateDealStatus, with_stored_status.
  cbn [deals with_deals].
  destruct (negb (update_parameters_ok data)); [reflexivity|].
  rewrite (existsb_map_rows (fun d => String.eqb (id d) dealId) (set_deal_status s))
    by reflexivity.
  rewrite Hex. cbn [negb].
  destruct (status_of_string status) as [st|]; [|reflexivity].
  rewrite (map_map_rows (fun d => String.eqb (id d) dealId) (set_deal_status s)
             (apply_update now st data)) by reflexivity.
  reflexivity.
Qed.

Lemma PUT_trace_status_blind now fresh db params_id body s :
  PUT_trace now fresh (with_stored_status params_id s db) params_id body
  = PUT_trace now fresh db params_id body.
Proof.
  unfold PUT_trace.
  destruct (_ || _); [reflexivity|].
  destruct (b_walletAddress body) as [wallet|]; [|reflexivity].
  destruct (b_status body) as [status|]; [|reflexivity].
  rewrite getDealById_with_stored_status.
  destruct (getDealById db params_id) as [d|] eqn:Hd; [|reflexivity].
  cbn [option_map].
  change (getUserByWallet (with_stored_status params_id s db) wallet)
    with (getUserByWallet db wallet).
  destruct (getUserByWallet db wallet) as [user|]; [|reflexivity].
  change (buyer_id (set_deal_status s d)) with (buyer_id d).
  change (seller_id (set_deal_status s d)) with (seller_id d).
  destruct (_ && _); [reflexivity|].
  unfold PUT_write.
  change (PUT_updateData user (set_deal_status s d) body)
    with (PUT_updateData user d body).
  rewrite updateDealStatus_status_blind; [reflexivity|].
  apply existsb_exists. unfold getDealById in Hd. apply find_some in Hd.
  now exists d.
Qed.

(** C1, as the code has it.  The handler never looks at the status a
    deal has.  Had the deal of the request been stored in any other status
    [s], the answer would have been the same; and where the request is
    accepted, the tables left would have been the same too: the answer
    carries the updated deal, whose status is the requested one, and that
    is the row stored afterwards.  Whether the pair (current, requested)
    is an edge of the transition graph, and whether the current status is
    terminal, plays no part.  The requests the handler turns down are
    answered 400, 403, 404 or 500 and leave the tables as they were. *)
Theorem PUT_ignores_the_stored_status now fresh db params_id body s :
  fst (PUT now fresh (with_stored_status params_id s db) params_id body)
  = fst (PUT now fresh db params_id body)
  /\ (forall r msg db',
        PUT now fresh db params_id body = (Json r msg, db') ->
        PUT now fresh (with_stored_status params_id s db) params_id body
        = (Json r msg, db')
        /\ exists status st d',
             b_status body = Some status /\ status_of_string status = Some st
             /\ r = Some d' /\ DB.status d' = st
             /\ getDealById db' params_id = Some d')
  /\ (forall code err db',
        PUT now fresh db params_id body = (Failure code err, db') ->
        db' = db /\ (code = 400 \/ code = 403 \/ code = 404 \/ code = 500)).
Proof.
  split; [|split].
  - unfold PUT. rewrite PUT_trace_status_blind.
    now destruct (PUT_trace now fresh db params_id body).
  - intros r msg db' H.
    unfold PUT in *. rewrite PUT_trace_status_blind.
    destruct (PUT_trace now fresh db params_id body) as [r0 trace] eqn:Ht.
    injection H as -> <-.
    unfold PUT_trace in Ht.
    destruct (_ || _); [discriminate|].
    destruct (b_walletAddress body) as [wallet|]; [|discriminate].
    destruct (b_status body) as [status|]; [|discriminate].
    destruct (getDealById db params_id) as [d|] eqn:Hd; [|discriminate].
    destruct (getUserByWallet db wallet) as [user|]; [|discriminate].
    destruct (_ && _); [discriminate|].
    destruct (PUT_write_Json _ _ _ _ _ _ _ _ _ _ _ _ Hd Ht)
      as (st & Hst & -> & _ & Hne & Hlast).
    split.
    + f_equal. now apply last_nonempty.
    + exists status, st, (apply_update now st (PUT_updateData user d body) d).
      repeat split; [exact Hst|exact Hlast].
  - intros code err db'. apply PUT_failure.
Qed.

Lemma PUT_ignores_the_stored_status_witness :
  exists d' db',
    PUT 2000 "n9" sample_completed "d1" (sample_put "0xAA" "initiated")
    = (Json (Some d') "Deal updated successfully", db')
    /\ PUT 2000 "n9" (with_stored_status "d1" funded sample_completed) "d1"
         (sample_put "0xAA" "initiated")
       = (Json (Some d') "Deal updated successfully", db')
    /\ DB.status d' = initiated
    /\ getDealById db' "d1" = Some d'.
Proof.
  destruct (PUT 2000 "n9" sample_completed "d1" (sample_put "0xAA" "initiated"))
    as [[[d'|] msg|code err] db'] eqn:H; try (vm_compute in H; discriminate).
  assert (Hmsg : msg = "Deal updated successfully")
    by (vm_compute in H; now injection H as _ <- _).
  subst msg.
  destruct (proj1 (proj2 (PUT_ignores_the_stored_status 2000 "n9" sample_completed
                            "d1" (sample_put "0xAA" "initiated") funded))
              _ _ _ H)
    as (Hs & status & st & d0 & Hb & Hst & Hr & Hd & Hstored).
  injection Hb as <-. injection Hst as <-. injection Hr as <-.
  exists d', db'. repeat split; assumption.
Defined.

(** C1 as stated fails: the sample deal is completed, (completed,
    initiated) is no edge of the graph, and the buyer's request to set it
    to initiated is accepted and stored. *)
Lemma completed_deal_is_reopened :
  DB.status <$> getDealById sample_completed "d1" = Some completed
  /\ spec_terminal completed = true
  /\ spec_edge completed initiated = false
  /\ (exists d',
        fst (PUT 2000 "n9" sample_completed "d1" (sample_put "0xAA" "initiated"))
        = Json (Some d') "Deal updated successfully"
        /\ DB.status d' = initiated)
  /\ DB.status <$> getDealById
                     (snd (PUT 2000 "n9" sample_completed "d1"
                             (sample_put "0xAA" "initiated"))) "d1"
     = Some initiated.
Proof.
  vm_compute. repeat split. eexists. split; reflexivity.
Qed.

(** C2, as the code has it.  The write of a status update is keyed by
    the deal id alone and is not conditional on anything the handler read.
    Whatever row the handler read earlier ([currentDeal]) and whatever
    row is stored under the id when it writes ([stored]), the two are
    never compared and no conflict is answered: the write either goes
    through, and then puts the requested status and the time of the write
    into the stored row and leaves its terms as they are, or it is
    answered 500 with nothing written.  Of the row read, only the two
    party columns are used. *)
Theorem PUT_write_is_unconditional
    now fresh params_id status body currentDeal user db stored :
  getDealById db params_id = Some stored ->
  (forall r msg trace,
      PUT_write now fresh params_id status body currentDeal user db
      = (Json r msg, trace) ->
      exists st d',
        status_of_string status = Some st
        /\ r = Some d'
        /\ DB.status d' = st
        /\ updated_at d' = now
        /\ same_deal_terms stored d'
        /\ trace <> []
        /\ getDealById (List.last trace db) params_id = Some d')
  /\ (forall code err trace,
        PUT_write now fresh params_id status body currentDeal user db
        = (Failure code err, trace) ->
        code = 500 /\ trace = [])
  /\ (forall read,
        buyer_id read = buyer_id currentDeal ->
        seller_id read = seller_id currentDeal ->
        PUT_write now fresh params_id status body read user db
        = PUT_write now fresh params_id status body currentDeal user db).
Proof.
  intros Hstored. split; [|split].
  - intros r msg trace H.
    destruct (PUT_write_Json _ _ _ _ _ _ _ _ _ _ _ _ Hstored H)
      as (st & Hst & -> & _ & Hne & Hlast).
    exists st, (apply_update now st (PUT_updateData user currentDeal body) stored).
    repeat split; try reflexivity; assumption.
  - intros code err trace. apply PUT_write_Failure.
  - intros read Hb Hs. unfold PUT_write, PUT_updateData. now rewrite Hb, Hs.
Qed.

Lemma sample_funded_row_read :
  getDealById sample_funded "d1" = Some sample_funded_row.
Proof. vm_compute. reflexivity. Qed.

Lemma PUT_write_is_unconditional_witness :
  exists d' trace,
    PUT_write 1200 "n5" "d1" "payment_sent" (sample_put "0xAA" "payment_sent")
      sample_funded_row alice
      (snd (PUT 1150 "n4" sample_funded "d1" (sample_put "0xBB" "disputed")))
    = (Json (Some d') "Deal updated successfully", trace)
    /\ DB.status d' = payment_sent
    /\ updated_at d' = 1200.
Proof.
  assert (Hd : exists d,
             getDealById (snd (PUT 1150 "n4" sample_funded "d1"
                                 (sample_put "0xBB" "disputed"))) "d1" = Some d).
  { vm_compute. eexists. reflexivity. }
  destruct Hd as (stored & Hstored).
  destruct (PUT_write 1200 "n5" "d1" "payment_sent" (sample_put "0xAA" "payment_sent")
              sample_funded_row alice
              (snd (PUT 1150 "n4" sample_funded "d1" (sample_put "0xBB" "disputed"))))
    as [[r msg|code err] trace] eqn:H; [|vm_compute in H; discriminate].
  assert (Hmsg : msg = "Deal updated successfully")
    by (vm_compute in H; now injection H as _ <- _).
  subst msg.
  destruct (proj1 (PUT_write_is_unconditional 1200 "n5" "d1" "payment_sent"
                     (sample_put "0xAA" "payment_sent") sample_funded_row alice _
                     stored Hstored) r _ trace H)
    as (st & d' & Hst & -> & Hs & Ht & _).
  injection Hst as <-.
  exists d', trace. repeat split; assumption.
Defined.

(** C2 as stated fails.  Alice's handler reads the funded sample deal;
    before it writes, Bob's request sets the deal to disputed, so the
    stored row is no longer the row Alice's handler read.  Alice's write
    is applied all the same: no conflict is reported and the deal ends
    as payment_sent. *)
Lemma stale_write_is_applied :
  let db1 := snd (PUT 1150 "n4" sample_funded "d1" (sample_put "0xBB" "disputed")) in
  let write := PUT_write 1200 "n5" "d1" "payment_sent"
                 (sample_put "0xAA" "payment_sent") sample_funded_row alice db1 in
  getDealById sample_funded "d1" = Some sample_funded_row
  /\ getUserByWallet sample_funded "0xAA" = Some alice
  /\ getDealById db1 "d1" <> Some sample_funded_row
  /\ DB.status <$> getDealById db1 "d1" = Some disputed
  /\ updated_at <$> getDealById db1 "d1" = Some 1150
  /\ (exists d', fst write = Json (Some d') "Deal updated successfully"
                 /\ DB.status d' = payment_sent)
  /\ DB.status <$> getDealById (List.last (snd write) db1) "d1" = Some payment_sent.
Proof.
  vm_compute. repeat split; try discriminate. eexists. split; reflexivity.
Qed.

(** ** Reputation and the completed transition *)

Lemma score_current_after_update userId db :
  score_current (snd (updateUserReputation userId db)) userId.
Proof.
  unfold score_current.
  rewrite updateUserReputation_deals, updateUserReputation_users.
  apply Forall_forall. intros u' Hin Hid.
  apply list_elem_of_In, in_map_iff in Hin. destruct Hin as (u & <- & _).
  destruct (String.eqb_spec (user_id_of u) userId) as [E|E].
  - reflexivity.
  - contradiction.
Qed.

Lemma score_current_kept other userId db :
  score_current db userId ->
  score_current (snd (updateUserReputation other db)) userId.
Proof.
  unfold score_current. intros H.
  rewrite updateUserReputation_deals, updateUserReputation_users.
  apply Forall_forall. intros u' Hin Hid.
  apply list_elem_of_In, in_map_iff in Hin. destruct Hin as (u & <- & Hin).
  destruct (String.eqb_spec (user_id_of u) other) as [E|E].
  - cbn in Hid. cbn [set_reputation reputation_score]. congruence.
  - rewrite Forall_forall in H. apply H; [now apply list_elem_of_In|assumption].
Qed.

Lemma score_current_notified ns db userId :
  score_current db userId -> score_current (with_notifications ns db) userId.
Proof. intros H. exact H. Qed.

Lemma updateDealStatus_users now dealId status data db r db1 :
  updateDealStatus now dealId status data db = Some (r, db1) ->
  users db1 = users db.
Proof.
  unfold updateDealStatus.
  destruct (negb (update_parameters_ok data)); [discriminate|].
  destruct (negb _); [now intros [= <- <-]|].
  destruct (status_of_string status); [|discriminate].
  destruct (forallb _ _); [|discriminate].
  now intros [= <- <-].
Qed.

(** C5, as the code has it.  A request the handler accepts first
    writes the status, a statement that leaves the users alone.  When
    the requested status is completed, two further statements follow
    it, recomputing the reputation of the deal's buyer and then of its
    seller, and in the tables the handler leaves the stored score of
    both agrees with the deals.  For any other status no statement of
    the handler touches the users. *)
Theorem PUT_reputation_follows_completed now fresh db params_id body r msg trace :
  PUT_trace now fresh db params_id body = (Json r msg, trace) ->
  exists currentDeal status db1 rest,
    getDealById db params_id = Some currentDeal
    /\ b_status body = Some status
    /\ trace = db1 :: rest
    /\ users db1 = users db
    /\ (status = "completed" ->
        exists notified,
          rest = snd (updateUserReputation (buyer_id currentDeal) db1)
                 :: snd (updateUserReputation (seller_id currentDeal)
                           (snd (updateUserReputation (buyer_id currentDeal) db1)))
                 :: notified
          /\ score_current (List.last trace db) (buyer_id currentDeal)
          /\ score_current (List.last trace db) (seller_id currentDeal))
    /\ (status <> "completed" ->
        Forall (fun t => users t = users db) trace).
Proof.
  unfold PUT_trace.
  destruct (negb (truthy_string (b_walletAddress body))
            || negb (truthy_string (b_status body))); [discriminate|].
  destruct (b_walletAddress body) as [wallet|]; [|discriminate].
  destruct (b_status body) as [status|]; [|discriminate].
  destruct (getDealById db params_id) as [currentDeal|]; [|discriminate].
  destruct (getUserByWallet db wallet) as [user|]; [|discriminate].
  destruct (negb _ && negb _); [discriminate|].
  unfold PUT_write.
  destruct (updateDealStatus now params_id status
              (PUT_updateData user currentDeal body) db)
    as [[updated db1]|] eqn:Hupd; [|discriminate].
  apply updateDealStatus_users in Hupd.
  intros [= <- <- <-].
  exists currentDeal, status, db1. eexists.
  split; [reflexivity|]. split; [reflexivity|]. split; [reflexivity|].
  split; [exact Hupd|]. split.
  - intros ->. cbn [String.eqb Ascii.eqb Bool.eqb notificationMessage negb
                    List.last app].
    eexists. split; [reflexivity|].
    split; apply score_current_notified.
    + apply score_current_kept, score_current_after_update.
    + apply score_current_after_update.
  - intros Hne. rewrite (proj2 (String.eqb_neq _ _) Hne). cbn [app List.last].
    constructor; [exact Hupd|].
    destruct (negb _); constructor; [exact Hupd|constructor].
Qed.

Lemma PUT_reputation_follows_completed_witness :
  exists r msg trace,
    PUT_trace 1900 "n12" sample_second "d2" (sample_put "0xBB" "completed")
    = (Json r msg, trace)
    /\ score_current (List.last trace sample_second) "u1"
    /\ score_current (List.last trace sample_second) "u2".
Proof.
  destruct (PUT_trace 1900 "n12" sample_second "d2" (sample_put "0xBB" "completed"))
    as [[r msg|code err] trace] eqn:H; [|vm_compute in H; discriminate].
  exists r, msg, trace. split; [reflexivity|].
  destruct (PUT_reputation_follows_completed _ _ _ _ _ _ _ _ H)
    as (currentDeal & status & db1 & rest & Hd & Hs & _ & _ & Hdone & _).
  injection Hs as <-.
  destruct (Hdone eq_refl) as (notified & _ & Hb & Hsl).
  vm_compute in Hd. injection Hd as <-.
  split; assumption.
Defined.

(** C5 as stated fails on atomicity.  Bob confirms the second sample
    deal.  In the tables as the status write leaves them, the first
    state other requests can read, the deal is completed while Alice's
    stored score is still 100; the deals now give her 50. *)
Lemma reputation_lags_behind_status_write :
  match snd (PUT_trace 1900 "n12" sample_second "d2"
               (sample_put "0xBB" "completed")) with
  | db1 :: _ =>
      DB.status <$> getDealById db1 "d2" = Some completed
      /\ reputation_score <$> getUserByWallet db1 "0xAA" = Some 100
      /\ derived_score "u1" (deals db1) = 50
      /\ ~ score_current db1 "u1"
  | [] => False
  end.
Proof.
  vm_compute. repeat split.
  intros H. inversion H as [|u us Hu Hrest]; subst.
  specialize (Hu eq_refl). discriminate.
Qed.

(** ** The scenarios of the specification, off chain *)

(** Scenario A: 1.0 unit at 300000, funded, paid, confirmed. *)
Example scenario_A_off_chain :
  let ad := mkAd "a9" "u2" "BTC" sell (Num 2) (Num 300000) None None "UPI" None
              ad_active in
  let db0 := mkTables [alice; bob] [ad] [] [] in
  let db1 := snd (POST 10 "d9" "m1" "m2" db0
                    (mkPostBody (Some "a9") (Some "0xAA") (Some (JNum 1)) None
                       None)) in
  let db2 := snd (PUT 20 "m3" db1 "d9" (sample_put "0xAA" "funded")) in
  let db3 := snd (PUT 30 "m4" db2 "d9" (sample_put "0xAA" "payment_sent")) in
  let db4 := snd (PUT 40 "m5" db3 "d9" (sample_put "0xBB" "completed")) in
  (fun d => (DB.status d, total_inr d, completed_at d)) <$> getDealById db4 "d9"
  = Some (completed, Num 300000, Some 40)
  /\ map total_trades (users db4) = [1; 1]
  /\ map reputation_score (users db4) = [0; 0].
Proof. vm_compute. repeat split. Qed.

(** Scenario C, as far as the code goes: the sweep expires a deal left
    initiated past its time; a later request to fund it is accepted all
    the same. *)
Example scenario_C_off_chain :
  let swept := expireOldDeals 90000 sample_created in
  DB.status <$> getDealById swept "d1" = Some expired
  /\ DB.status <$> getDealById
                     (snd (PUT 90100 "n3" swept "d1" (sample_put "0xAA" "funded")))
                     "d1"
     = Some funded.
Proof. vm_compute. repeat split. Qed.

End DBFacts.

(* ===================================================================== *)
(** * Part V: more about the escrow contract                              *)
(* ===================================================================== *)

Module EscrowMore.
Import Escrow EscrowFacts.
Local Open Scope N_scope.
Local Open Scope tx_scope.

(** ** Each external function, taken apart *)

Lemma safeTransfer_world c tok to amt w u w' es :
  safeTransfer c tok to amt w = Ok (u, w', es) ->
  amt <= balanceOf (ledger w) tok (this c)
  /\ w' = after_transfer c tok to amt w
  /\ es = [Transfer tok (this c) to amt].
Proof.
  unfold safeTransfer, after_transfer.
  destruct (N.leb_spec amt (balanceOf (ledger w) tok (this c))); [|discriminate].
  now intros [= <- <- <-].
Qed.

Lemma createDeal_inv c _seller _token _amount _inrAmount w id w' es :
  createDeal c _seller _token _amount _inrAmount w = Ok (id, w', es) ->
  _seller <> msg_sender c /\ 0 < _amount /\ 0 < _inrAmount
  /\ id = nextDealId (storage w)
  /\ block_timestamp c + DEAL_TIMEOUT <= MAX_UINT256
  /\ storage w'
     = store id (mkDeal id (msg_sender c) _seller _token _amount _inrAmount
                   Created (block_timestamp c)
                   (block_timestamp c + DEAL_TIMEOUT) false false)
         (mkStorage (deals (storage w)) (userReputation (storage w)) (id + 1)
            (arbitrator (storage w)) (feeRecipient (storage w))
            (platformFeePercent (storage w)))
  /\ ledger w' = ledger w
  /\ es = [Emit (DealCreated id (msg_sender c) _seller _token _amount _inrAmount)].
Proof.
  intros H. unfold createDeal in H. tx_inv.
  repeat match goal with
         | H : negb _ = true |- _ => apply negb_true_iff, N.eqb_neq in H
         | H : (_ <? _) = true |- _ => apply N.ltb_lt in H
         end.
  repeat split; auto.
Qed.


Lemma call_createDeal_inv c _seller _token _amount _inrAmount w u w' es :
  call c (CallCreateDeal _seller _token _amount _inrAmount) w = Ok (u, w', es) ->
  msg_value c = 0
  /\ exists id, createDeal c _seller _token _amount _inrAmount w = Ok (id, w', es).
Proof.
  cbn [call]. intros H.
  apply bind_inv in H. destruct H as (u0 & w0 & e0 & e0' & Hv & H & ->).
  apply nonpayable_inv in Hv. destruct Hv as (Hv & -> & ->).
  apply bind_inv in H. destruct H as (id & w1 & e1 & e2 & H & Hret & ->).
  apply ret_inv in Hret. destruct Hret as (_ & -> & ->).
  split; [exact Hv|]. exists id. now rewrite app_nil_r.
Qed.

Lemma getDeal_inv c id w d w' es :
  getDeal c id w = Ok (d, w', es) ->
  msg_value c = 0 /\ d = default zeroDeal (deals (storage w) !! id)
  /\ w' = w /\ es = [].
Proof.
  unfold getDeal. intros H.
  apply bind_inv in H. destruct H as (u0 & w0 & e0 & e0' & Hv & H & ->).
  apply nonpayable_inv in Hv. destruct Hv as (Hv & -> & ->).
  apply load_deal_inv in H. destruct H as (-> & -> & ->). auto.
Qed.

Lemma call_getDeal_inv c id w u w' es :
  call c (CallGetDeal id) w = Ok (u, w', es) ->
  msg_value c = 0 /\ w' = w /\ es = [].
Proof.
  cbn [call]. intros H.
  apply bind_inv in H. destruct H as (d & w1 & e1 & e2 & H & Hret & ->).
  apply ret_inv in Hret. destruct Hret as (_ & -> & ->).
  apply getDeal_inv in H. destruct H as (Hv & _ & -> & ->). auto.
Qed.

Lemma call_deals_inv c id w u w' es :
  call c (CallDeals id) w = Ok (u, w', es) ->
  msg_value c = 0 /\ w' = w /\ es = [].
Proof. exact (call_getDeal_inv c id w u w' es). Qed.

Lemma safeTransferFrom_world c tok from to amt w u w' es :
  safeTransferFrom c tok from to amt w = Ok (u, w', es) ->
  amt <= allowance (ledger w) tok from (this c)
  /\ amt <= balanceOf (ledger w) tok from
  /\ storage w' = storage w
  /\ (forall tok' who,
        balanceOf (ledger w') tok' who =
          if decide ((tok', who) = (tok, to)) then
            (if decide (from = to) then balanceOf (ledger w) tok' who
             else balanceOf (ledger w) tok' who + amt)
          else if decide ((tok', who) = (tok, from)) then
            balanceOf (ledger w) tok' who - amt
          else balanceOf (ledger w) tok' who)
  /\ es = [Transfer tok from to amt].
Proof.
  unfold safeTransferFrom.
  destruct (N.leb_spec amt (allowance (ledger w) tok from (this c))) as [Ha|];
    [|discriminate].
  destruct (N.leb_spec amt (balanceOf (ledger w) tok from)) as [Hb|];
    [|discriminate].
  cbn [negb]. intros [= <- <- <-].
  split; [exact Ha|]. split; [exact Hb|]. split; [reflexivity|].
  split; [|reflexivity].
  intros tok' who. unfold balanceOf in *. cbn [ledger balances].
  destruct (decide ((tok', who) = (tok, to))) as [[= -> ->]|Hne].
  - rewrite lookup_insert_eq. cbn.
    destruct (decide (from = to)) as [->|Hft].
    + rewrite lookup_insert_eq. cbn. lia.
    + rewrite lookup_insert_ne by congruence. reflexivity.
  - rewrite lookup_insert_ne by congruence.
    destruct (decide ((tok', who) = (tok, from))) as [[= -> ->]|Hne'].
    + now rewrite lookup_insert_eq.
    + now rewrite lookup_insert_ne by congruence.
Qed.

(** The guards as propositions. *)
Ltac guards :=
  repeat match goal with
         | H : negb _ = true |- _ => apply negb_true_iff in H
         | H : context [(_ =? _) = true] |- _ => rewrite N.eqb_eq in H
         | H : (_ =? _) = false |- _ => apply N.eqb_neq in H
         | H : (_ <? _) = true |- _ => apply N.ltb_lt in H
         | H : (_ <=? _) = true |- _ => apply N.leb_le in H
         | H : _ || _ = true |- _ => apply orb_true_iff in H
         | H : DealStatus_eqb ?s _ = true |- _ =>
             let E := fresh "Hstatus" in
             assert (E : DealStatus_eqb s s = true -> True) by auto;
             destruct s eqn:?; try discriminate H; clear H E
         end.

Lemma fundDeal_inv c id w u w' es :
  fundDeal c id w = Ok (u, w', es) ->
  let d := default zeroDeal (deals (storage w) !! id) in
  buyer d = msg_sender c /\ status d = Created
  /\ block_timestamp c <= expiresAt d
  /\ amount d <= balanceOf (ledger w) (token d) (msg_sender c)
  /\ storage w' = store id (set_status Funded d) (storage w)
  /\ (forall tok who,
        balanceOf (ledger w') tok who =
          if decide ((tok, who) = (token d, this c)) then
            (if decide (msg_sender c = this c)
             then balanceOf (ledger w) tok who
             else balanceOf (ledger w) tok who + amount d)
          else if decide ((tok, who) = (token d, msg_sender c)) then
            balanceOf (ledger w) tok who - amount d
          else balanceOf (ledger w) tok who)
  /\ es = [Transfer (token d) (msg_sender c) (this c) (amount d);
           Emit (DealFunded id (msg_sender c))].
Proof.
  intros H. unfold fundDeal in H. tx_inv. cbv zeta.
  set (d := default zeroDeal (deals (storage w) !! id)) in *.
  match goal with H : safeTransferFrom _ _ _ _ _ _ = _ |- _ =>
    apply safeTransferFrom_world in H;
      destruct H as (_ & Hbal & Hst & Hledger & ->) end.
  guards. cbn [storage ledger]. rewrite Hst.
  repeat split; auto.
Qed.

Lemma confirmPaymentSent_inv c id w u w' es :
  confirmPaymentSent c id w = Ok (u, w', es) ->
  let d := default zeroDeal (deals (storage w) !! id) in
  buyer d = msg_sender c /\ status d = Funded
  /\ storage w' = store id (set_buyerConfirmed true (set_status PaymentSent d))
                    (storage w)
  /\ ledger w' = ledger w
  /\ es = [Emit (PaymentSentEv id (msg_sender c))].
Proof.
  intros H. unfold confirmPaymentSent in H. tx_inv. cbv zeta.
  set (d := default zeroDeal (deals (storage w) !! id)) in *.
  guards. repeat split; auto.
Qed.

Lemma initiateDispute_inv c id w u w' es :
  initiateDispute c id w = Ok (u, w', es) ->
  let d := default zeroDeal (deals (storage w) !! id) in
  (msg_sender c = buyer d \/ msg_sender c = seller d)
  /\ DISPUTE_FEE <= msg_value c
  /\ (status d = Funded \/ status d = PaymentSent)
  /\ storage w' = store id (set_status Disputed d) (storage w)
  /\ ledger w' = ledger w
  /\ es = [Emit (DealDisputed id (msg_sender c))].
Proof.
  intros H. unfold initiateDispute, onlyDealParticipant in H. tx_inv. cbv zeta.
  set (d := default zeroDeal (deals (storage w) !! id)) in *.
  assert (Hs : status d = Funded \/ status d = PaymentSent).
  { destruct (status d); cbn in *; auto; discriminate. }
  match goal with H : DealStatus_eqb _ _ || _ = true |- _ => clear H end.
  guards.
  repeat split; auto.
Qed.

Lemma cancelDeal_inv c id w u w' es :
  cancelDeal c id w = Ok (u, w', es) ->
  let d := default zeroDeal (deals (storage w) !! id) in
  (msg_sender c = buyer d \/ msg_sender c = seller d)
  /\ status d = Created
  /\ storage w' = store id (set_status Cancelled d) (storage w)
  /\ ledger w' = ledger w
  /\ es = [Emit (DealCancelled id)].
Proof.
  intros H. unfold cancelDeal, onlyDealParticipant in H. tx_inv. cbv zeta.
  set (d := default zeroDeal (deals (storage w) !! id)) in *. guards.
  repeat split; auto.
Qed.

Lemma emergencyRefund_inv c id w u w' es :
  emergencyRefund c id w = Ok (u, w', es) ->
  let d := default zeroDeal (deals (storage w) !! id) in
  buyer d = msg_sender c /\ status d = Funded
  /\ expiresAt d + ONE_HOUR < block_timestamp c
  /\ amount d <= balanceOf (ledger w) (token d) (this c)
  /\ w' = mkWorld (store id (set_status Cancelled d) (storage w))
                  (ledger (after_transfer c (token d) (buyer d) (amount d) w))
  /\ es = [Transfer (token d) (this c) (buyer d) (amount d);
           Emit (DealCancelled id)].
Proof.
  intros H. unfold emergencyRefund in H. tx_inv. cbv zeta.
  set (d := default zeroDeal (deals (storage w) !! id)) in *.
  match goal with H : safeTransfer _ _ _ _ _ = _ |- _ =>
    apply safeTransfer_world in H; destruct H as (Hbal & -> & ->) end.
  guards. repeat split; auto.
Qed.

Lemma updatePlatformFee_inv c p w u w' es :
  updatePlatformFee c p w = Ok (u, w', es) ->
  msg_sender c = arbitrator (storage w) /\ p <= 500
  /\ storage w' = mkStorage (deals (storage w)) (userReputation (storage w))
                    (nextDealId (storage w)) (arbitrator (storage w))
                    (feeRecipient (storage w)) p
  /\ ledger w' = ledger w /\ es = [].
Proof.
  intros H. unfold updatePlatformFee, onlyArbitrator in H. tx_inv.
  guards. repeat split; auto.
Qed.

Lemma bump_reputation_world who w u w' es :
  bump_reputation who w = Ok (u, w', es) ->
  reputationOf (storage w) who + 1 <= MAX_UINT256
  /\ w' = mkWorld (bumped who (storage w)) (ledger w)
  /\ es = [].
Proof.
  unfold bump_reputation. intros H. tx_inv. repeat split; auto.
Qed.

(** As [tx_inv], keeping the whole of what [bump_reputation] writes. *)
Ltac tx_open :=
  repeat first
    [ match goal with
      | H : bump_reputation _ _ = Ok _ |- _ =>
          apply bump_reputation_world in H; destruct H as (_ & ? & ?); subst
      end
    | match goal with
      | H : bind _ _ _ = Ok _ |- _ =>
          apply bind_inv in H; destruct H as (? & ? & ? & ? & ? & H & ?); subst
      | H : ret _ _ = Ok _ |- _ =>
          apply ret_inv in H; destruct H as (? & ? & ?); subst
      | H : require _ _ _ = Ok _ |- _ =>
          apply require_inv in H; destruct H as (? & ? & ?); subst
      | H : nonpayable _ _ = Ok _ |- _ =>
          let Hv := fresh "Hvalue" in
          apply nonpayable_inv in H; destruct H as (Hv & ? & ?); subst
      | H : emit _ _ = Ok _ |- _ =>
          apply emit_inv in H; destruct H as (? & ?); subst
      | H : load_deal _ _ = Ok _ |- _ =>
          apply load_deal_inv in H; destruct H as (? & ? & ?); subst
      | H : store_deal _ _ _ = Ok _ |- _ =>
          apply store_deal_inv in H; destruct H as (? & ?); subst
      end ].

(** What a payout leaves in the contract: of the token paid out, at
    least the old balance less the amount; of any other token, the old
    balance. *)
Lemma safeTransfer_leaves c tok to amt w u w' es :
  safeTransfer c tok to amt w = Ok (u, w', es) ->
  storage w' = storage w
  /\ forall tok',
       balanceOf (ledger w) tok' (this c)
       <= balanceOf (ledger w') tok' (this c)
          + (if decide (tok' = tok) then amt else 0).
Proof.
  intros H. destruct u.
  pose proof (balance_after_transfer _ _ _ _ _ _ _ H) as Hbal.
  apply safeTransfer_inv in H. destruct H as (Hle & Hst & _).
  split; [exact Hst|]. intros tok'. rewrite Hbal.
  repeat case_decide; simplify_eq; try congruence; lia.
Qed.

Lemma release_to_seller_leaves c d w u w' es :
  release_to_seller c d w = Ok (u, w', es) ->
  forall tok',
    balanceOf (ledger w) tok' (this c)
    <= balanceOf (ledger w') tok' (this c)
       + (if decide (tok' = token d) then amount d else 0).
Proof.
  unfold release_to_seller. intros H tok'. tx_inv.
  set (fee := amount d * platformFeePercent (storage w) / 10000) in *.
  match goal with H : safeTransfer _ _ (seller d) _ _ = _ |- _ =>
    apply safeTransfer_leaves in H; destruct H as [Hst1 Hfirst];
      specialize (Hfirst tok')
  end.
  destruct (0 <? fee).
  - match goal with H : safeTransfer _ _ _ _ _ = _ |- _ =>
      apply safeTransfer_leaves in H; destruct H as [Hst2 Hsecond];
        specialize (Hsecond tok') end.
    case_decide; lia.
  - tx_inv. case_decide; lia.
Qed.

Lemma confirmPaymentReceived_inv c id w u w' es :
  confirmPaymentReceived c id w = Ok (u, w', es) ->
  let d := default zeroDeal (deals (storage w) !! id) in
  let fee := fee_of (platformFeePercent (storage w)) (amount d) in
  seller d = msg_sender c /\ status d = PaymentSent
  /\ storage w'
     = bumped (seller d)
         (bumped (buyer d)
            (store id (set_status Completed (set_sellerConfirmed true d))
               (storage w)))
  /\ (forall tok',
        balanceOf (ledger w) tok' (this c)
        <= balanceOf (ledger w') tok' (this c)
           + (if decide (tok' = token d) then amount d else 0))
  /\ es = Transfer (token d) (this c) (seller d) (amount d - fee)
          :: (if 0 <? fee
              then [Transfer (token d) (this c) (feeRecipient (storage w)) fee]
              else [])
          ++ [Emit (PaymentConfirmed id (msg_sender c)); Emit (DealCompleted id)].
Proof.
  intros H. unfold confirmPaymentReceived in H. tx_open. cbv zeta.
  set (d := default zeroDeal (deals (storage w) !! id)) in *.
  match goal with H : release_to_seller _ _ _ = _ |- _ =>
    pose proof (release_to_seller_leaves _ _ _ _ _ _ H) as Hleaves;
    apply release_to_seller_inv in H; destruct H as (_ & Hst & ->) end.
  guards. cbn [storage ledger platformFeePercent amount set_sellerConfirmed
               token seller buyer feeRecipient] in *.
  split; [assumption|]. split; [reflexivity|]. split.
  { unfold bumped, store, reputationOf. cbn. rewrite Hst. cbn.
    now rewrite insert_insert_eq. }
  split; [exact Hleaves|].
  destruct (0 <? _); reflexivity.
Qed.

Lemma resolveDispute_inv c id b w u w' es :
  resolveDispute c id b w = Ok (u, w', es) ->
  let d := default zeroDeal (deals (storage w) !! id) in
  let fee := fee_of (platformFeePercent (storage w)) (amount d) in
  msg_sender c = arbitrator (storage w) /\ status d = Disputed
  /\ storage w' = store id (set_status Completed d) (storage w)
  /\ (forall tok',
        balanceOf (ledger w) tok' (this c)
        <= balanceOf (ledger w') tok' (this c)
           + (if decide (tok' = token d) then amount d else 0))
  /\ es = (if b then [Transfer (token d) (this c) (buyer d) (amount d)]
           else Transfer (token d) (this c) (seller d) (amount d - fee)
                :: (if 0 <? fee
                    then [Transfer (token d) (this c)
                            (feeRecipient (storage w)) fee]
                    else []))
          ++ [Emit (DealCompleted id)].
Proof.
  intros H. unfold resolveDispute, onlyArbitrator in H. tx_inv. cbv zeta.
  set (d := default zeroDeal (deals (storage w) !! id)) in *.
  guards. destruct b.
  - match goal with H : safeTransfer _ _ _ _ _ = _ |- _ =>
      pose proof (safeTransfer_leaves _ _ _ _ _ _ _ _ H) as [Hst Hleaves];
      apply safeTransfer_inv in H; destruct H as (_ & _ & ->) end.
    cbn [storage ledger]. rewrite Hst. repeat split; auto.
  - match goal with H : release_to_seller _ _ _ = _ |- _ =>
      pose proof (release_to_seller_leaves _ _ _ _ _ _ H) as Hleaves;
      apply release_to_seller_inv in H; destruct H as (_ & Hst & ->) end.
    cbn [storage ledger]. rewrite Hst. repeat split; auto.
Qed.

(** ** Reading the storage after a write *)

Lemma store_lookup id0 d0 s id :
  deals (store id0 d0 s) !! id = if decide (id0 = id) then Some d0 else deals s !! id.
Proof. unfold store. cbn. apply lookup_insert. Qed.

Lemma storage_ok_ids s : storage_ok s -> ids_in_use s.
Proof. intros [_ H] id d Hd. exact (proj1 (H id d Hd)). Qed.

(** The call a successful transaction made, as the storage it leaves:
    either the deals are as they were, or one deal was written. *)
Lemma call_writes c f w u w' es :
  call c f w = Ok (u, w', es) ->
  (deals (storage w') = deals (storage w) /\ target f = None
   /\ nextDealId (storage w') = nextDealId (storage w))
  \/ (exists id d',
        deals (storage w') = <[id := d']> (deals (storage w))
        /\ nextDealId (storage w') = nextDealId (storage w)
        /\ target f = Some id
        /\ let d := default zeroDeal (deals (storage w) !! id) in
           same_terms d d'
           /\ chain_edge (status d) (status d') = true
           /\ (msg_sender c = buyer d \/ msg_sender c = seller d
               \/ (msg_sender c = arbitrator (storage w)
                   /\ exists b, f = CallResolveDispute id b))
           /\ (deals (storage w) !! id = None -> msg_sender c = 0))
  \/ (exists _seller _token _amount _inrAmount,
        f = CallCreateDeal _seller _token _amount _inrAmount
        /\ nextDealId (storage w') = nextDealId (storage w) + 1
        /\ deals (storage w')
           = <[nextDealId (storage w) :=
                 mkDeal (nextDealId (storage w)) (msg_sender c) _seller _token
                        _amount _inrAmount Created (block_timestamp c)
                        (block_timestamp c + DEAL_TIMEOUT) false false]>
               (deals (storage w))
        /\ _seller <> msg_sender c /\ 0 < _amount /\ 0 < _inrAmount).
Proof.
  intros H. destruct f; cbn [call] in H.
  - right. right. apply bind_inv in H.
    destruct H as (u0 & w0 & e0 & e0' & Hv & H & ->).
    apply nonpayable_inv in Hv. destruct Hv as (_ & -> & _).
    apply bind_inv in H.
    destruct H as (id & w1 & e1 & e2 & H & Hret & ->).
    apply ret_inv in Hret. destruct Hret as (_ & -> & _).
    apply createDeal_inv in H.
    destruct H as (Hs & Ha & Hi & -> & _ & Hst & _ & _).
    eexists _, _, _, _. split; [reflexivity|]. rewrite Hst. cbn.
    repeat split; auto.
  - right. left. apply fundDeal_inv in H. cbv zeta in H.
    destruct H as (Hb & Hs & _ & _ & Hst & _ & _).
    eexists _, _. rewrite Hst. cbn [store deals nextDealId target].
    repeat split; try reflexivity; [now rewrite Hs|auto|].
    intros Hnone. rewrite Hnone in Hb. now rewrite <- Hb.
  - right. left. apply confirmPaymentSent_inv in H. cbv zeta in H.
    destruct H as (Hb & Hs & Hst & _ & _).
    eexists _, _. rewrite Hst. cbn [store deals nextDealId target].
    repeat split; try reflexivity; [now rewrite Hs|auto|].
    intros Hnone. rewrite Hnone in Hs. discriminate.
  - right. left. apply confirmPaymentReceived_inv in H. cbv zeta in H.
    destruct H as (Hb & Hs & Hst & _ & _).
    eexists _, _. rewrite Hst. cbn [store bumped deals nextDealId target].
    repeat split; try reflexivity; [now rewrite Hs|auto|].
    intros Hnone. rewrite Hnone in Hs. discriminate.
  - right. left. apply initiateDispute_inv in H. cbv zeta in H.
    destruct H as (Hp & _ & Hs & Hst & _ & _).
    eexists _, _. rewrite Hst. cbn [store deals nextDealId target].
    repeat split; try reflexivity;
      [destruct Hs as [-> | ->]; reflexivity|tauto|].
    intros Hnone. rewrite Hnone in Hs. destruct Hs; discriminate.
  - right. left. apply resolveDispute_inv in H. cbv zeta in H.
    destruct H as (Ha & Hs & Hst & _ & _).
    eexists _, _. rewrite Hst. cbn [store deals nextDealId target].
    repeat split; try reflexivity; [now rewrite Hs|eauto|].
    intros Hnone. rewrite Hnone in Hs. discriminate.
  - right. left. apply cancelDeal_inv in H. cbv zeta in H.
    destruct H as (Hp & Hs & Hst & _ & _).
    eexists _, _. rewrite Hst. cbn [store deals nextDealId target].
    repeat split; try reflexivity; [now rewrite Hs|tauto|].
    intros Hnone. rewrite Hnone in Hp. destruct Hp as [-> | ->]; reflexivity.
  - right. left. apply emergencyRefund_inv in H. cbv zeta in H.
    destruct H as (Hb & Hs & _ & _ & -> & _).
    eexists _, _. cbn [storage store deals nextDealId target].
    repeat split; try reflexivity; [now rewrite Hs|auto|].
    intros Hnone. rewrite Hnone in Hs. discriminate.
  - left. apply updatePlatformFee_inv in H.
    destruct H as (_ & _ & Hst & _ & _). rewrite Hst. cbn. auto.
  - left. unfold getDeal in H. tx_inv. auto.
  - left. unfold getter_deals in H. tx_inv. auto.
Qed.

(** X1.  Whatever call goes through, a deal that exists keeps its
    terms (id, buyer, seller, token, amount, INR amount, creation and
    expiry time) and either stays as it is or moves its status along one
    edge of the graph the guards draw: Created to Funded or Cancelled,
    Funded to PaymentSent, Disputed or Cancelled, PaymentSent to Completed
    or Disputed, Disputed to Completed.  Completed and Cancelled deals
    never change. *)
Theorem call_keeps_terms_and_follows_graph c f w u w' es id d :
  ids_in_use (storage w) ->
  call c f w = Ok (u, w', es) ->
  deals (storage w) !! id = Some d ->
  exists d',
    deals (storage w') !! id = Some d'
    /\ same_terms d d'
    /\ (d' = d \/ chain_edge (status d) (status d') = true)
    /\ (status d = Completed \/ status d = Cancelled -> d' = d).
Proof.
  intros Hids H Hd.
  assert (Hsame : same_terms d d) by (repeat split).
  destruct (call_writes _ _ _ _ _ _ H)
    as [(Hdeals & _ & _)
       |[(id0 & d0 & Hdeals & _ & _ & Hshape)
        |(s & t & a & i & _ & _ & Hdeals & _)]].
  - exists d. rewrite Hdeals. auto.
  - cbv zeta in Hshape. destruct Hshape as (Hterms & Hedge & _ & _).
    rewrite Hdeals, lookup_insert. case_decide as E.
    + subst id0. rewrite Hd in Hterms, Hedge. cbn in Hterms, Hedge.
      exists d0. repeat split; try apply Hterms; auto.
      intros [Hs|Hs]; rewrite Hs in Hedge; discriminate.
    + exists d. auto.
  - rewrite Hdeals, lookup_insert_ne; [exists d; auto|].
    specialize (Hids id d Hd). lia.
Qed.

(** ** The deals stay as they were created *)

Lemma call_keeps_storage_ok c f w u w' es :
  msg_sender c <> 0 ->
  storage_ok (storage w) ->
  call c f w = Ok (u, w', es) ->
  storage_ok (storage w').
Proof.
  intros Hreal [Hnext Hok] H.
  destruct (call_writes _ _ _ _ _ _ H)
    as [(Hdeals & _ & Hn)
       |[(id0 & d0 & Hdeals & Hn & _ & Hshape)
        |(s & t & a & i & _ & Hn & Hdeals & Hs & Ha & Hi)]].
  - split; [lia|]. intros id d. rewrite Hdeals, Hn. apply Hok.
  - cbv zeta in Hshape. destruct Hshape as (Hterms & _ & _ & Hnone).
    split; [lia|]. intros id d. rewrite Hdeals, Hn, lookup_insert.
    case_decide as E; [|apply Hok].
    intros [= <-]. subst id0.
    destruct (deals (storage w) !! id) as [d|] eqn:Hd;
      [|now specialize (Hnone eq_refl)].
    destruct (Hok id d Hd) as (Hlt & Hc). split; [exact Hlt|].
    cbn in Hterms. destruct Hterms as (T1 & T2 & T3 & T4 & T5 & T6 & T7 & T8).
    destruct Hc as (C1 & C2 & C3 & C4 & C5 & C6 & C7).
    unfold deal_as_created. rewrite T1, T2, T3, T5, T6, T7, T8. auto 10.
  - split; [lia|]. intros id d. rewrite Hdeals, Hn, lookup_insert.
    case_decide as E.
    + intros [= <-]. subst id. split; [lia|].
      unfold deal_as_created. cbn. repeat split; auto; lia.
    + intros Hd. destruct (Hok id d Hd). split; [lia|assumption].
Qed.

(** ** What the deals hold in the contract *)

Lemma escrowed_insert_fresh tok (m : gmap N Deal) id d :
  m !! id = None ->
  escrowed tok (<[id := d]> m) = escrowed_by tok d + escrowed tok m.
Proof.
  intros H. unfold escrowed.
  rewrite map_fold_insert_L; [reflexivity| |exact H].
  intros. lia.
Qed.

Lemma escrowed_delete tok (m : gmap N Deal) id d :
  m !! id = Some d ->
  escrowed tok m = escrowed_by tok d + escrowed tok (delete id m).
Proof.
  intros H. unfold escrowed.
  rewrite (map_fold_delete_L _ _ id d m); [reflexivity| |exact H].
  intros. lia.
Qed.

(** Writing a deal replaces what the old deal of that id held by what
    the new one holds. *)
Lemma escrowed_insert tok (m : gmap N Deal) id d' :
  escrowed tok (<[id := d']> m) + escrowed_by tok (default zeroDeal (m !! id))
  = escrowed_by tok d' + escrowed tok m.
Proof.
  destruct (m !! id) as [d|] eqn:Hd; cbn [default from_option Datatypes.id].
  - rewrite <- insert_delete_eq.
    rewrite escrowed_insert_fresh by apply lookup_delete_eq.
    rewrite (escrowed_delete tok m id d Hd). lia.
  - rewrite escrowed_insert_fresh by exact Hd.
    unfold escrowed_by at 2. cbn. lia.
Qed.

Lemma escrowed_by_le tok (m : gmap N Deal) id d :
  m !! id = Some d -> escrowed_by tok d <= escrowed tok m.
Proof. intros H. rewrite (escrowed_delete tok m id d H). lia. Qed.

Lemma escrowed_by_status tok d s :
  escrowed_by tok (set_status s d)
  = if in_escrow s && (token d =? tok) then amount d else 0.
Proof. reflexivity. Qed.

Lemma call_keeps_solvent c f w u w' es :
  msg_sender c <> this c ->
  ids_in_use (storage w) ->
  solvent (this c) w ->
  call c f w = Ok (u, w', es) ->
  solvent (this c) w'.
Proof.
  intros Hnot Hids Hsol H tok. specialize (Hsol tok).
  destruct f; cbn [call] in H.
  - apply call_createDeal_inv in H. destruct H as (_ & id & H).
    apply createDeal_inv in H.
    destruct H as (_ & _ & _ & -> & _ & Hst & Hl & _).
    rewrite Hst, Hl. cbn [store deals].
    rewrite escrowed_insert_fresh.
    + unfold escrowed_by. cbn. lia.
    + destruct (deals (storage w) !! nextDealId (storage w)) as [d|] eqn:Hd;
        [|reflexivity].
      specialize (Hids _ _ Hd). lia.
  - apply fundDeal_inv in H. cbv zeta in H.
    destruct H as (_ & Hs & _ & _ & Hst & Hl & _).
    pose proof (escrowed_insert tok (deals (storage w)) _dealId
                  (set_status Funded (default zeroDeal (deals (storage w) !! _dealId))))
      as He.
    rewrite Hst, Hl. cbn [store deals].
    rewrite escrowed_by_status in He. unfold escrowed_by in He.
    rewrite Hs in He. cbn [in_escrow andb] in He.
    destruct (N.eqb_spec (token (default zeroDeal (deals (storage w) !! _dealId))) tok);
      repeat case_decide; simplify_eq; try congruence; lia.
  - apply confirmPaymentSent_inv in H. cbv zeta in H.
    destruct H as (_ & Hs & Hst & Hl & _).
    pose proof (escrowed_insert tok (deals (storage w)) _dealId
                  (set_buyerConfirmed true
                     (set_status PaymentSent
                        (default zeroDeal (deals (storage w) !! _dealId))))) as He.
    rewrite Hst, Hl. cbn [store deals].
    unfold escrowed_by in He. rewrite Hs in He. cbn in He. lia.
  - apply confirmPaymentReceived_inv in H. cbv zeta in H.
    destruct H as (_ & Hs & Hst & Hl & _). specialize (Hl tok).
    pose proof (escrowed_insert tok (deals (storage w)) _dealId
                  (set_status Completed
                     (set_sellerConfirmed true
                        (default zeroDeal (deals (storage w) !! _dealId))))) as He.
    rewrite Hst. cbn [store bumped deals].
    unfold escrowed_by in He. rewrite Hs in He. cbn in He.
    destruct (N.eqb_spec (token (default zeroDeal (deals (storage w) !! _dealId))) tok);
      case_decide; simplify_eq; try congruence; lia.
  - apply initiateDispute_inv in H. cbv zeta in H.
    destruct H as (_ & _ & Hs & Hst & Hl & _).
    pose proof (escrowed_insert tok (deals (storage w)) _dealId
                  (set_status Disputed
                     (default zeroDeal (deals (storage w) !! _dealId)))) as He.
    rewrite Hst, Hl. cbn [store deals].
    unfold escrowed_by in He.
    destruct Hs as [Hs|Hs]; rewrite Hs in He; cbn in He; lia.
  - apply resolveDispute_inv in H. cbv zeta in H.
    destruct H as (_ & Hs & Hst & Hl & _). specialize (Hl tok).
    pose proof (escrowed_insert tok (deals (storage w)) _dealId
                  (set_status Completed
                     (default zeroDeal (deals (storage w) !! _dealId)))) as He.
    rewrite Hst. cbn [store deals].
    unfold escrowed_by in He. rewrite Hs in He. cbn in He.
    destruct (N.eqb_spec (token (default zeroDeal (deals (storage w) !! _dealId))) tok);
      case_decide; simplify_eq; try congruence; lia.
  - apply cancelDeal_inv in H. cbv zeta in H.
    destruct H as (_ & Hs & Hst & Hl & _).
    pose proof (escrowed_insert tok (deals (storage w)) _dealId
                  (set_status Cancelled
                     (default zeroDeal (deals (storage w) !! _dealId)))) as He.
    rewrite Hst, Hl. cbn [store deals].
    unfold escrowed_by in He. rewrite Hs in He. cbn in He. lia.
  - apply emergencyRefund_inv in H. cbv zeta in H.
    destruct H as (_ & Hs & _ & Hbal & -> & _).
    pose proof (escrowed_insert tok (deals (storage w)) _dealId
                  (set_status Cancelled
                     (default zeroDeal (deals (storage w) !! _dealId)))) as He.
    destruct (safeTransfer_leaves _ _ _ _ _ _ _ _
                (safeTransfer_run c _
                   (buyer (default zeroDeal (deals (storage w) !! _dealId)))
                   _ w Hbal)) as [_ Hl].
    specialize (Hl tok). cbn [storage ledger store deals].
    unfold escrowed_by in He. rewrite Hs in He. cbn in He.
    destruct (N.eqb_spec (token (default zeroDeal (deals (storage w) !! _dealId))) tok);
      case_decide; simplify_eq; try congruence; lia.
  - apply updatePlatformFee_inv in H.
    destruct H as (_ & _ & Hst & Hl & _). rewrite Hst, Hl. exact Hsol.
  - apply call_getDeal_inv in H. destruct H as (_ & -> & _). exact Hsol.
  - apply call_deals_inv in H. destruct H as (_ & -> & _). exact Hsol.
Qed.

(** ** From deployment on *)

Lemma run_calls_keeps self txs w :
  real_senders self txs ->
  storage_ok (storage w) -> solvent self w ->
  storage_ok (storage (fst (run_calls txs w)))
  /\ solvent self (fst (run_calls txs w)).
Proof.
  intros Hreal. revert w.
  induction Hreal as [|[c f] txs (H0 & Hself & Hthis) _ IH]; intros w Hok Hsol;
    cbn [run_calls]; [auto|].
  cbn [fst] in *.
  destruct (call c f w) as [[[u w1] es]|r] eqn:Hcall; [|now apply IH].
  assert (Hok1 : storage_ok (storage w1))
    by exact (call_keeps_storage_ok _ _ _ _ _ _ H0 Hok Hcall).
  assert (Hsol1 : solvent self w1).
  { rewrite <- Hthis. apply (call_keeps_solvent c f w u w1 es);
      [congruence|now apply storage_ok_ids|now rewrite Hthis|exact Hcall]. }
  specialize (IH w1 Hok1 Hsol1). now destruct (run_calls txs w1).
Qed.

Lemma deployed_ok self _arbitrator _feeRecipient l :
  storage_ok (storage (deployed _arbitrator _feeRecipient l))
  /\ solvent self (deployed _arbitrator _feeRecipient l).
Proof.
  split.
  - split; [cbn; lia|]. intros id d. cbn. now rewrite lookup_empty.
  - intros tok. cbn. unfold escrowed. rewrite map_fold_empty. lia.
Qed.

Lemma sample_dispute_txs_real : real_senders 500 sample_dispute_txs.
Proof. repeat constructor; cbn; lia. Qed.

(** X2.  From deployment on, whatever real accounts send, every stored
    deal is as [createDeal] wrote it: it sits under its own id, an id from
    1 up to the counter, its buyer is neither its seller nor the zero
    address, its two amounts are positive and it expires 24 hours after
    it was created. *)
Theorem deals_stay_as_created self _arbitrator _feeRecipient l txs id d :
  real_senders self txs ->
  deals (storage (fst (run_calls txs (deployed _arbitrator _feeRecipient l)))) !! id
  = Some d ->
  id < nextDealId (storage (fst (run_calls txs (deployed _arbitrator _feeRecipient l))))
  /\ deal_as_created id d.
Proof.
  intros Hreal Hd.
  destruct (deployed_ok self _arbitrator _feeRecipient l) as [Hok Hsol].
  destruct (run_calls_keeps self txs _ Hreal Hok Hsol) as [[_ H] _].
  now apply H.
Qed.

Lemma deals_stay_as_created_witness :
  1 < nextDealId (storage sample_disputed)
  /\ deal_as_created 1 (sample_deal Disputed false).
Proof.
  exact (deals_stay_as_created 500 99 98 _ sample_dispute_txs 1
           (sample_deal Disputed false) sample_dispute_txs_real
           sample_disputed_deal).
Defined.

Lemma contract_solvent_aux self _arbitrator _feeRecipient l txs tok :
  real_senders self txs ->
  escrowed tok
    (deals (storage (fst (run_calls txs (deployed _arbitrator _feeRecipient l)))))
  <= balanceOf (ledger (fst (run_calls txs (deployed _arbitrator _feeRecipient l))))
       tok self.
Proof.
  intros Hreal.
  destruct (deployed_ok self _arbitrator _feeRecipient l) as [Hok Hsol].
  destruct (run_calls_keeps self txs _ Hreal Hok Hsol) as [_ H].
  apply H.
Qed.

(** X3.  From deployment on, whatever real accounts send, the contract
    holds of every token at least the sum of the amounts of the deals in
    that token that are funded, paid or disputed. *)
Theorem contract_stays_solvent self _arbitrator _feeRecipient l txs tok :
  real_senders self txs ->
  escrowed tok
    (deals (storage (fst (run_calls txs (deployed _arbitrator _feeRecipient l)))))
  <= balanceOf (ledger (fst (run_calls txs (deployed _arbitrator _feeRecipient l))))
       tok self.
Proof.
  intros Hreal.
  destruct (deployed_ok self _arbitrator _feeRecipient l) as [Hok Hsol].
  destruct (run_calls_keeps self txs _ Hreal Hok Hsol) as [_ H].
  apply H.
Qed.

Lemma contract_stays_solvent_witness :
  escrowed 77 (deals (storage sample_disputed))
  <= balanceOf (ledger sample_disputed) 77 500.
Proof.
  exact (contract_stays_solvent 500 99 98 _ sample_dispute_txs 77
           sample_dispute_txs_real).
Defined.

(** ** Who may change what *)

(** Apply to a successful [call] the lemma of the function it called. *)
Ltac call_inv H :=
  match type of H with
  | call _ ?f _ = _ =>
      destruct f; cbn [call] in H;
      [ apply call_createDeal_inv in H; destruct H as (_ & ? & H);
        apply createDeal_inv in H
      | apply fundDeal_inv in H
      | apply confirmPaymentSent_inv in H
      | apply confirmPaymentReceived_inv in H
      | apply initiateDispute_inv in H
      | apply resolveDispute_inv in H
      | apply cancelDeal_inv in H
      | apply emergencyRefund_inv in H
      | apply updatePlatformFee_inv in H
      | apply call_getDeal_inv in H
      | apply call_deals_inv in H ];
      cbv zeta in H;
      repeat match goal with
             | H' : _ /\ _ |- _ => destruct H'
             end;
      subst
  end.

(** X4.  No call changes the arbitrator or the fee recipient, and the
    fee percent changes only through [updatePlatformFee] sent by the
    arbitrator, to a value of at most 500. *)
Theorem call_leaves_the_roles c f w u w' es :
  call c f w = Ok (u, w', es) ->
  arbitrator (storage w') = arbitrator (storage w)
  /\ feeRecipient (storage w') = feeRecipient (storage w)
  /\ (platformFeePercent (storage w') = platformFeePercent (storage w)
      \/ (f = CallUpdatePlatformFee (platformFeePercent (storage w'))
          /\ msg_sender c = arbitrator (storage w)
          /\ platformFeePercent (storage w') <= 500)).
Proof.
  intros H. call_inv H;
    repeat match goal with
           | Hst : storage _ = _ |- _ => rewrite Hst
           end;
    cbn; auto 10.
Qed.

Lemma call_arbitrator c f w u w' es :
  call c f w = Ok (u, w', es) ->
  arbitrator (storage w') = arbitrator (storage w).
Proof.
  intros H. call_inv H;
    repeat match goal with
           | Hst : storage _ = _ |- _ => rewrite Hst
           end;
    reflexivity.
Qed.

Lemma run_calls_arbitrator txs w :
  arbitrator (storage (fst (run_calls txs w))) = arbitrator (storage w).
Proof.
  revert w. induction txs as [|[c f] txs IH]; intros w; cbn [run_calls];
    [reflexivity|].
  destruct (call c f w) as [[[u w1] es]|r] eqn:Hcall; [|apply IH].
  specialize (IH w1). destruct (run_calls txs w1). cbn [fst] in *.
  rewrite IH. exact (call_arbitrator _ _ _ _ _ _ Hcall).
Qed.

Lemma reputationOf_bumped x s who :
  reputationOf (bumped x s) who
  = reputationOf s who + (if decide (who = x) then 1 else 0).
Proof.
  unfold reputationOf, bumped. cbn. rewrite lookup_insert.
  repeat case_decide; subst; try congruence; cbn; unfold reputationOf; lia.
Qed.

(** X5.  The on-chain reputation counter of an account goes up by one
    when a deal it is the buyer or the seller of is confirmed by
    [confirmPaymentReceived], and is left alone by every other call; a
    dispute resolved by the arbitrator gives reputation to nobody. *)
Theorem call_reputation c f w u w' es who :
  call c f w = Ok (u, w', es) ->
  reputationOf (storage w') who
  = reputationOf (storage w) who + reputation_gain f (storage w) who.
Proof.
  intros H. call_inv H;
    repeat match goal with
           | Hst : storage _ = _ |- _ => rewrite Hst
           end;
    cbn [reputation_gain storage]; rewrite ?reputationOf_bumped;
    unfold reputationOf, store; cbn; lia.
Qed.

(** X6.  Every function that changes a deal reverts when nothing is
    stored under the id it is given, whoever (but the zero address) sends
    the call.  The two functions that read a deal, [getDeal] and the
    getter of the public mapping [deals], do not: called without value
    on such an id they return the all-zero deal, change nothing and log
    nothing. *)
Theorem call_on_unknown_deal_reverts c f id w :
  deals (storage w) !! id = None ->
  msg_sender c <> 0 ->
  (target f = Some id -> exists reason, call c f w = Revert reason)
  /\ (msg_value c = 0 ->
      getDeal c id w = Ok (zeroDeal, w, [])
      /\ getter_deals c id w = Ok (zeroDeal, w, [])
      /\ call c (CallGetDeal id) w = Ok (tt, w, [])
      /\ call c (CallDeals id) w = Ok (tt, w, [])).
Proof.
  intros Hnone Hreal. split.
  - intros Ht.
    destruct (call c f w) as [[[u w1] es]|r] eqn:Hcall; [|now exists r].
    exfalso.
    destruct (call_writes _ _ _ _ _ _ Hcall)
      as [(_ & Ht' & _)
         |[(id0 & d0 & _ & _ & Ht' & Hshape)
          |(s & t & a & i & -> & _)]]; try congruence; try discriminate.
    rewrite Ht in Ht'. injection Ht' as <-.
    cbv zeta in Hshape. now apply Hreal, Hshape.
  - intros Hvalue.
    assert (Hget : getDeal c id w = Ok (zeroDeal, w, [])).
    { unfold getDeal.
      tx_run ltac:(apply nonpayable_run; assumption).
      unfold load_deal, bind, get_storage, ret. now rewrite Hnone. }
    repeat split; try exact Hget; cbn [call]; unfold getter_deals;
      fold (getDeal c id); unfold bind; rewrite Hget; reflexivity.
Qed.

Lemma call_on_unknown_deal_reverts_witness :
  (exists reason, call (sample_ctx 10 0) (CallFundDeal 7) sample_genesis = Revert reason)
  /\ getDeal (sample_ctx 10 0) 7 sample_genesis = Ok (zeroDeal, sample_genesis, []).
Proof.
  destruct (call_on_unknown_deal_reverts (sample_ctx 10 0) (CallFundDeal 7) 7
              sample_genesis) as [Hrev Hread]; [reflexivity|discriminate|].
  split; [now apply Hrev|now apply Hread].
Defined.

(** X7.  A deal is changed only by a call of its buyer, of its seller,
    or by the arbitrator's [resolveDispute]; a call of anyone else that
    goes through leaves it exactly as it was. *)
Theorem stranger_cannot_touch_a_deal c f w u w' es id d :
  ids_in_use (storage w) ->
  call c f w = Ok (u, w', es) ->
  deals (storage w) !! id = Some d ->
  deals (storage w') !! id = Some d
  \/ msg_sender c = buyer d \/ msg_sender c = seller d
  \/ (msg_sender c = arbitrator (storage w)
      /\ exists b, f = CallResolveDispute id b).
Proof.
  intros Hids H Hd.
  destruct (call_writes _ _ _ _ _ _ H)
    as [(Hdeals & _ & _)
       |[(id0 & d0 & Hdeals & _ & _ & Hshape)
        |(s & t & a & i & _ & _ & Hdeals & _)]].
  - left. now rewrite Hdeals.
  - cbv zeta in Hshape. destruct Hshape as (_ & _ & Hwho & _).
    destruct (decide (id0 = id)) as [->|Hne].
    + right. rewrite Hd in Hwho. exact Hwho.
    + left. now rewrite Hdeals, lookup_insert_ne.
  - left. rewrite Hdeals, lookup_insert_ne; [exact Hd|].
    specialize (Hids id d Hd). lia.
Qed.

Lemma sample_funded_world_deal :
  deals (storage sample_funded_world) !! 1 = Some (sample_deal Funded false).
Proof. vm_compute. reflexivity. Qed.

Lemma sample_funded_world_ids : ids_in_use (storage sample_funded_world).
Proof.
  apply storage_ok_ids.
  destruct (deployed_ok 500 99 98 (ledger sample_genesis)) as [Hok Hsol].
  refine (proj1 (run_calls_keeps 500 sample_opening _ _ Hok Hsol)).
  repeat constructor; cbn; lia.
Qed.

Lemma stranger_cannot_touch_a_deal_witness :
  exists u w' es,
    call (sample_ctx 30 0) (CallCreateDeal 40 77 5 5) sample_funded_world
    = Ok (u, w', es)
    /\ deals (storage w') !! 1 = Some (sample_deal Funded false).
Proof.
  destruct (call (sample_ctx 30 0) (CallCreateDeal 40 77 5 5) sample_funded_world)
    as [[[u w'] es]|r] eqn:H; [|vm_compute in H; discriminate].
  exists u, w', es. split; [reflexivity|].
  destruct (stranger_cannot_touch_a_deal _ _ _ _ _ _ 1 (sample_deal Funded false)
              sample_funded_world_ids H sample_funded_world_deal)
    as [Hsame|[Hb|[Hs|[Ha _]]]]; [exact Hsame|discriminate..].
Defined.

(** ** Refunds that always go through *)

(** X8.  From deployment on, whatever real accounts send, the
    arbitrator can resolve every disputed deal for the buyer by a call
    that carries no value: the contract holds the tokens, the call goes
    through and sends the whole amount of the deal to its buyer. *)
Theorem disputed_deal_can_always_be_refunded
    self _arbitrator _feeRecipient l txs w c id d :
  real_senders self txs ->
  w = fst (run_calls txs (deployed _arbitrator _feeRecipient l)) ->
  deals (storage w) !! id = Some d ->
  status d = Disputed ->
  msg_sender c = _arbitrator ->
  msg_value c = 0 ->
  this c = self ->
  exists w',
    resolveDispute c id true w
    = Ok (tt, w', [Transfer (token d) self (buyer d) (amount d);
                   Emit (DealCompleted id)]).
Proof.
  intros Hreal -> Hd Hs Ha Hvalue Hthis.
  set (w := fst (run_calls txs (deployed _arbitrator _feeRecipient l))) in *.
  assert (Hbal : amount d <= balanceOf (ledger w) (token d) (this c)).
  { rewrite Hthis.
    pose proof (contract_solvent_aux self _arbitrator _feeRecipient l txs (token d) Hreal)
      as Hsol. fold w in Hsol.
    pose proof (escrowed_by_le (token d) _ _ _ Hd) as Hle.
    unfold escrowed_by in Hle. rewrite Hs, N.eqb_refl in Hle. cbn in Hle. lia. }
  assert (Harb : msg_sender c = arbitrator (storage w)).
  { unfold w. now rewrite run_calls_arbitrator. }
  eexists. rewrite <- Hthis.
  unfold resolveDispute, onlyArbitrator.
  tx_run ltac:(apply nonpayable_run; assumption).
  tx_run ltac:(erewrite bind_run by reflexivity; cbv beta iota;
               rewrite require_run by (rewrite Harb; apply N.eqb_refl);
               reflexivity).
  tx_run ltac:(apply load_deal_run; eassumption).
  tx_run ltac:(apply require_run; rewrite Hs; reflexivity).
  tx_run ltac:(apply safeTransfer_run; assumption).
  tx_run ltac:(reflexivity).
  reflexivity.
Qed.

Lemma disputed_deal_can_always_be_refunded_witness :
  exists w',
    resolveDispute (sample_ctx 99 0) 1 true sample_disputed
    = Ok (tt, w', [Transfer 77 500 10 1000; Emit (DealCompleted 1)]).
Proof.
  exact (disputed_deal_can_always_be_refunded 500 99 98 _ sample_dispute_txs
           sample_disputed (sample_ctx 99 0) 1 (sample_deal Disputed false)
           sample_dispute_txs_real eq_refl sample_disputed_deal eq_refl
           eq_refl eq_refl eq_refl).
Defined.

(** ** When a call goes through *)






(** X13.  When the deal's amount times the fee percent does not fit
    256 bits, the two calls that pay the seller revert on the checked
    multiplication, whatever else holds: such a deal can be settled for
    the buyer only. *)
Theorem oversized_deal_cannot_pay_the_seller c w id d :
  deals (storage w) !! id = Some d ->
  MAX_UINT256 < amount d * platformFeePercent (storage w) ->
  (exists reason, confirmPaymentReceived c id w = Revert reason)
  /\ (exists reason, resolveDispute c id false w = Revert reason).
Proof.
  intros Hd Hbig. split.
  - destruct (confirmPaymentReceived c id w) as [[[u w1] es]|r] eqn:H;
      [|now exists r].
    exfalso. unfold confirmPaymentReceived, release_to_seller in H. tx_inv.
    rewrite Hd in *. cbn in *. lia.
  - destruct (resolveDispute c id false w) as [[[u w1] es]|r] eqn:H;
      [|now exists r].
    exfalso. unfold resolveDispute, onlyArbitrator, release_to_seller in H. tx_inv.
    rewrite Hd in *. cbn in *. lia.
Qed.

(** ** The theorems above on the sample deployment *)


Lemma call_keeps_terms_and_follows_graph_witness :
  exists u w' es d',
    call (sample_ctx 10 DISPUTE_FEE) (CallInitiateDispute 1) sample_funded_world
    = Ok (u, w', es)
    /\ deals (storage w') !! 1 = Some d'
    /\ same_terms (sample_deal Funded false) d'
    /\ (d' = sample_deal Funded false
        \/ chain_edge Funded (status d') = true).
Proof.
  destruct (call (sample_ctx 10 DISPUTE_FEE) (CallInitiateDispute 1)
              sample_funded_world) as [[[u w'] es]|r] eqn:H;
    [|vm_compute in H; discriminate].
  destruct (call_keeps_terms_and_follows_graph _ _ _ _ _ _ 1
              (sample_deal Funded false) sample_funded_world_ids H
              sample_funded_world_deal) as (d' & Hd' & Hterms & Hedge & _).
  exists u, w', es, d'. auto.
Defined.





Lemma sample_oversized_deal :
  deals (storage sample_oversized) !! 1
  = Some (mkDeal 1 10 20 77 (2 ^ 255) 1 Created 1000 87400 false false).
Proof. vm_compute. reflexivity. Qed.

Lemma oversized_deal_cannot_pay_the_seller_witness :
  (exists reason, confirmPaymentReceived (sample_ctx 20 0) 1 sample_oversized
                  = Revert reason)
  /\ (exists reason, resolveDispute (sample_ctx 99 0) 1 false sample_oversized
                     = Revert reason).
Proof.
  split.
  - apply (oversized_deal_cannot_pay_the_seller (sample_ctx 20 0) sample_oversized 1
             _ sample_oversized_deal). vm_compute. reflexivity.
  - apply (oversized_deal_cannot_pay_the_seller (sample_ctx 99 0) sample_oversized 1
             _ sample_oversized_deal). vm_compute. reflexivity.
Defined.

Lemma call_leaves_the_roles_witness :
  exists u w' es,
    call (sample_ctx 99 0) (CallUpdatePlatformFee 300) sample_genesis
    = Ok (u, w', es)
    /\ arbitrator (storage w') = arbitrator (storage sample_genesis)
    /\ feeRecipient (storage w') = feeRecipient (storage sample_genesis).
Proof.
  destruct (call (sample_ctx 99 0) (CallUpdatePlatformFee 300) sample_genesis)
    as [[[u w'] es]|r] eqn:H; [|vm_compute in H; discriminate].
  destruct (call_leaves_the_roles _ _ _ _ _ _ H) as (Harb & Hfee & _).
  exists u, w', es. auto.
Defined.

Lemma call_reputation_witness :
  exists u w' es,
    call (sample_ctx 20 0) (CallConfirmPaymentReceived 1) sample_payment_sent
    = Ok (u, w', es)
    /\ reputationOf (storage w') 10
       = reputationOf (storage sample_payment_sent) 10
         + reputation_gain (CallConfirmPaymentReceived 1)
             (storage sample_payment_sent) 10.
Proof.
  destruct (call (sample_ctx 20 0) (CallConfirmPaymentReceived 1)
              sample_payment_sent) as [[[u w'] es]|r] eqn:H;
    [|vm_compute in H; discriminate].
  exists u, w', es. split; [reflexivity|].
  exact (call_reputation _ _ _ _ _ _ 10 H).
Defined.

End EscrowMore.

(** * More of the off-chain routes *)

Module DBMore.
Import DB DBFacts.

Local Open Scope string_scope.
Local Open Scope Z_scope.

(** ** PUT /api/deals/[id], request by request *)

(** What a request that is answered with a deal went through, and the
    tables it leaves. *)
Lemma PUT_Json_inv now fresh db params_id body r msg db' :
  PUT now fresh db params_id body = (Json r msg, db') ->
  exists wallet status st d user,
    b_walletAddress body = Some wallet /\ b_status body = Some status
    /\ status_of_string status = Some st
    /\ getDealById db params_id = Some d
    /\ getUserByWallet db wallet = Some user
    /\ (user_id_of user = buyer_id d \/ user_id_of user = seller_id d)
    /\ r = Some (apply_update now st (PUT_updateData user d body) d)
    /\ deal_checks (apply_update now st (PUT_updateData user d body) d) = true
    /\ let db1 :=
         with_deals (map (fun x => if String.eqb (id x) params_id
                                   then apply_update now st (PUT_updateData user d body) x
                                   else x) (deals db)) db in
       let db_r :=
         if String.eqb status "completed"
         then snd (updateUserReputation (seller_id d)
                     (snd (updateUserReputation (buyer_id d) db1)))
         else db1 in
       db' = if negb (String.eqb (notificationMessage status) "")
             then snd (createNotification now fresh
                         (mkNotificationData
                            (if String.eqb (user_id_of user) (buyer_id d)
                             then seller_id d else buyer_id d)
                            "Deal Update" (Text (notificationMessage status))
                            "deal" (Some params_id)) db_r)
             else db_r.
Proof.
  unfold PUT, PUT_trace.
  destruct (negb (truthy_string (b_walletAddress body))
            || negb (truthy_string (b_status body))) eqn:Hreq;
    [intros [=]|].
  destruct (b_walletAddress body) as [wallet|]; [|intros [=]].
  destruct (b_status body) as [status|]; [|intros [=]].
  destruct (getDealById db params_id) as [d|] eqn:Hd; [|intros [=]].
  destruct (getUserByWallet db wallet) as [user|] eqn:Hu; [|intros [=]].
  destruct (negb (String.eqb (user_id_of user) (buyer_id d))
            && negb (String.eqb (user_id_of user) (seller_id d))) eqn:Hparty;
    [intros [=]|].
  unfold PUT_write.
  destruct (updateDealStatus now params_id status (PUT_updateData user d body) db)
    as [[r1 db1]|] eqn:Hupd; [|intros [=]].
  destruct (updateDealStatus_inv _ _ _ _ _ _ _ _ Hd Hupd)
    as (st & Hst & -> & Hchk & -> & _).
  intros H. exists wallet, status, st, d, user.
  repeat (split; [auto; fail|]).
  split.
  { apply andb_false_iff in Hparty.
    destruct Hparty as [H1|H1]; apply negb_false_iff, String.eqb_eq in H1; auto. }
  cbv zeta.
  destruct (String.eqb status "completed");
    destruct (negb (String.eqb (notificationMessage status) ""));
    cbn [List.last app] in H; injection H as <- <- <-; auto.
Qed.

Lemma updateUserReputation_rest userId db :
  ads (snd (updateUserReputation userId db)) = ads db
  /\ notifications (snd (updateUserReputation userId db)) = notifications db.
Proof.
  unfold updateUserReputation. destruct (reputation_calc userId (deals db)).
  split; reflexivity.
Qed.

Lemma Forall2_map_same {A : Type} (R : A -> A -> Prop) (f : A -> A) l :
  (forall x, R x (f x)) -> Forall2 R l (map f l).
Proof. intros H. induction l; cbn; constructor; auto. Qed.

Lemma Forall2_through {A : Type} (R : A -> A -> Prop) (f : A -> A) l l' :
  (forall x y, R x y -> R x (f y)) -> Forall2 R l l' -> Forall2 R l (map f l').
Proof. intros H HF. induction HF; cbn; constructor; auto. Qed.

Lemma apply_update_terms now st data d :
  same_deal_terms d (apply_update now st data d).
Proof. unfold same_deal_terms. cbn. repeat split. Qed.

Lemma same_deal_terms_refl d : same_deal_terms d d.
Proof. unfold same_deal_terms. repeat split. Qed.

(** X14.  Whatever the request and whatever the answer, PUT leaves the
    ads alone, deletes and reorders no row, changes no deal but the one
    named in the path and of that one none of the terms (ad, buyer,
    seller, amount, price, INR total, payment method, UPI id, creation
    and expiry time), changes of a user neither id, wallet nor name, and
    adds at most one notification after the ones that are there.  And
    it changes the tables at all only on a request that names the wallet
    of the buyer or of the seller of the deal in the path. *)
Theorem PUT_frame now fresh db params_id body :
  ads (snd (PUT now fresh db params_id body)) = ads db
  /\ Forall2 (fun d d' => same_deal_terms d d' /\ (id d <> params_id -> d' = d))
             (deals db) (deals (snd (PUT now fresh db params_id body)))
  /\ Forall2 (fun u u' => user_id_of u' = user_id_of u
                          /\ wallet_address u' = wallet_address u
                          /\ username u' = username u)
             (users db) (users (snd (PUT now fresh db params_id body)))
  /\ (exists ns,
        notifications (snd (PUT now fresh db params_id body))
        = (notifications db ++ ns)%list
        /\ (length ns <= 1)%nat)
  /\ (snd (PUT now fresh db params_id body) <> db ->
      exists wallet user d,
        b_walletAddress body = Some wallet
        /\ getUserByWallet db wallet = Some user
        /\ getDealById db params_id = Some d
        /\ (user_id_of user = buyer_id d \/ user_id_of user = seller_id d)).
Proof.
  destruct (PUT now fresh db params_id body) as [[r msg|code err] db'] eqn:H;
    cbn [snd].
  - destruct (PUT_Json_inv _ _ _ _ _ _ _ _ H)
      as (wallet & status & st & d & user & Hw & _ & _ & Hd & Hu & Hparty
          & _ & _ & Hdb).
    cbv zeta in Hdb.
    set (db1 := with_deals _ db) in Hdb.
    set (db_r := if String.eqb status "completed" then _ else db1) in Hdb.
    assert (Hads : ads db_r = ads db).
    { unfold db_r. destruct (String.eqb status "completed"); [|reflexivity].
      now rewrite !(proj1 (updateUserReputation_rest _ _)). }
    assert (Hns : notifications db_r = notifications db).
    { unfold db_r. destruct (String.eqb status "completed"); [|reflexivity].
      now rewrite !(proj2 (updateUserReputation_rest _ _)). }
    assert (Hds : deals db_r
                  = map (fun x => if String.eqb (id x) params_id
                                  then apply_update now st (PUT_updateData user d body) x
                                  else x) (deals db)).
    { unfold db_r. destruct (String.eqb status "completed"); [|reflexivity].
      now rewrite !updateUserReputation_deals. }
    assert (Hus : Forall2 (fun u u' => user_id_of u' = user_id_of u
                                       /\ wallet_address u' = wallet_address u
                                       /\ username u' = username u)
                          (users db) (users db_r)).
    { unfold db_r. destruct (String.eqb status "completed").
      - rewrite !updateUserReputation_users. cbn [users db1 with_deals].
        apply Forall2_through.
        { intros u u' (H1 & H2 & H3). cbv beta.
          destruct (String.eqb (user_id_of u') _); cbn; auto. }
        apply Forall2_map_same. intros u. cbv beta.
        destruct (String.eqb (user_id_of u) _); cbn; auto.
      - cbn. clear. induction (users db); constructor; auto. }
    assert (Hframe : Forall2 (fun x x' => same_deal_terms x x'
                                          /\ (id x <> params_id -> x' = x))
                             (deals db) (deals db_r)).
    { rewrite Hds. apply Forall2_map_same. intros x.
      destruct (String.eqb (id x) params_id) eqn:E.
      - split; [apply apply_update_terms|].
        apply String.eqb_eq in E. congruence.
      - split; [apply same_deal_terms_refl|reflexivity]. }
    destruct (negb (String.eqb (notificationMessage status) "")); subst db';
      cbn [createNotification snd ads deals users notifications with_notifications];
      (split; [exact Hads|split; [exact Hframe|split; [exact Hus|
         split; [|intros _; exists wallet, user, d; auto]]]]).
    + rewrite Hns. eexists. split; [reflexivity|]. cbn. lia.
    + rewrite Hns. exists []. split; [now rewrite app_nil_r|]. cbn. lia.
  - destruct (PUT_failure _ _ _ _ _ _ _ _ H) as [-> _].
    split; [reflexivity|]. split.
    { clear. induction (deals db); constructor; auto.
      split; [apply same_deal_terms_refl|reflexivity]. }
    split.
    { clear. induction (users db); constructor; auto. }
    split; [|intros Hne; contradiction].
    exists []. split; [now rewrite app_nil_r|]. cbn. lia.
Qed.

(** X15.  A rating reaches the row only together with a feedback text,
    and then in the columns named after the other party: the buyer's
    rating is stored as [seller_rating] and [seller_feedback], the
    seller's as [buyer_rating] and [buyer_feedback], whatever was there
    before, and it lies between 1 and 5.  A rating of 0, a rating without
    feedback or with an empty one is dropped without a word: the four
    columns stay as they were. *)
Theorem PUT_rating_goes_to_the_other_side
    now fresh db params_id body wallet d user d' msg db' :
  b_walletAddress body = Some wallet ->
  getDealById db params_id = Some d ->
  getUserByWallet db wallet = Some user ->
  PUT now fresh db params_id body = (Json (Some d') msg, db') ->
  (truthy_int (b_rating body) && truthy_string (b_feedback body) = true ->
   (exists z, b_rating body = Some z /\ 1 <= z <= 5)
   /\ (user_id_of user = buyer_id d ->
       seller_rating d' = b_rating body /\ seller_feedback d' = b_feedback body
       /\ buyer_rating d' = buyer_rating d /\ buyer_feedback d' = buyer_feedback d)
   /\ (user_id_of user <> buyer_id d ->
       buyer_rating d' = b_rating body /\ buyer_feedback d' = b_feedback body
       /\ seller_rating d' = seller_rating d
       /\ seller_feedback d' = seller_feedback d))
  /\ (truthy_int (b_rating body) && truthy_string (b_feedback body) = false ->
      buyer_rating d' = buyer_rating d /\ buyer_feedback d' = buyer_feedback d
      /\ seller_rating d' = seller_rating d
      /\ seller_feedback d' = seller_feedback d).
Proof.
  intros Hw Hd Hu H.
  destruct (PUT_Json_inv _ _ _ _ _ _ _ _ H)
    as (wallet' & status & st & d0 & user' & Hw' & _ & _ & Hd' & Hu' & _
        & Hr & Hchk & _).
  rewrite Hw in Hw'. injection Hw' as <-.
  rewrite Hd in Hd'. injection Hd' as <-.
  rewrite Hu in Hu'. injection Hu' as <-.
  injection Hr as ->.
  unfold deal_checks in Hchk.
  cbn [apply_update buyer_rating seller_rating buyer_feedback seller_feedback
       PUT_updateData upd_buyer_rating upd_seller_rating upd_buyer_feedback
       upd_seller_feedback] in *.
  split; intros Hrated; rewrite Hrated in *; cbn [andb] in *.
  - apply andb_true_iff in Hrated. destruct Hrated as [Hr Hf].
    destruct (b_rating body) as [z|] eqn:Hz; [|discriminate].
    destruct (b_feedback body) as [fb|] eqn:Hfb; [|discriminate].
    destruct (String.eqb_spec (user_id_of user) (buyer_id d)) as [E|E];
      cbn [negb assign rating_check] in *.
    + apply andb_true_iff in Hchk. destruct Hchk as [_ Hchk].
      split; [exists z; split; [reflexivity|lia]|].
      split; [auto|]. intros E'. contradiction.
    + apply andb_true_iff in Hchk. destruct Hchk as [Hchk _].
      split; [exists z; split; [reflexivity|lia]|].
      split; [|auto]. intros E'. contradiction.
  - cbn [assign]. auto.
Qed.

Lemma updateDealStatus_rejects now dealId status st data db d :
  getDealById db dealId = Some d ->
  status_of_string status = Some st ->
  deal_checks (apply_update now st data d) = false ->
  updateDealStatus now dealId status data db = None.
Proof.
  intros Hd Hst Hbad.
  destruct (updateDealStatus now dealId status data db) as [[r db1]|] eqn:H;
    [|reflexivity].
  destruct (updateDealStatus_inv _ _ _ _ _ _ _ _ Hd H) as (st' & Hst' & _ & Hchk & _).
  congruence.
Qed.

Lemma updateDealStatus_unknown_status now dealId status data db d :
  getDealById db dealId = Some d ->
  status_of_string status = None ->
  updateDealStatus now dealId status data db = None.
Proof.
  intros Hd Hst.
  destruct (updateDealStatus now dealId status data db) as [[r db1]|] eqn:H;
    [|reflexivity].
  destruct (updateDealStatus_inv _ _ _ _ _ _ _ _ Hd H) as (st' & Hst' & _).
  congruence.
Qed.

(** The handler up to the write, for a request of a party. *)
Lemma PUT_of_a_party now fresh db params_id body wallet status d user :
  b_walletAddress body = Some wallet -> wallet <> "" ->
  b_status body = Some status -> status <> "" ->
  getDealById db params_id = Some d ->
  getUserByWallet db wallet = Some user ->
  user_id_of user = buyer_id d \/ user_id_of user = seller_id d ->
  PUT now fresh db params_id body
  = (let '(r, trace) := PUT_write now fresh params_id status body d user db in
     (r, List.last trace db)).
Proof.
  intros Hw Hwne Hs Hsne Hd Hu Hparty.
  unfold PUT, PUT_trace. rewrite Hw, Hs. cbn [truthy_string].
  apply String.eqb_neq in Hwne, Hsne. rewrite Hwne, Hsne. cbn [negb orb].
  rewrite Hd, Hu.
  replace (negb (String.eqb (user_id_of user) (buyer_id d))
           && negb (String.eqb (user_id_of user) (seller_id d))) with false;
    [reflexivity|].
  symmetry. apply andb_false_iff.
  destruct Hparty as [E|E]; rewrite E, String.eqb_refl; auto.
Qed.

Lemma updateDealStatus_unreadable now dealId status data db :
  update_parameters_ok data = false ->
  updateDealStatus now dealId status data db = None.
Proof. intros H. unfold updateDealStatus. now rewrite H. Qed.

(** X16.  A request of the buyer or the seller is answered 500 with
    nothing written when its status text is none of the seven values;
    when it carries, together with a feedback text, a rating outside
    1..5; when its [dealIdOnChain] is a number other than 0 that does not
    fit an INTEGER column; or when its [paymentDetails] is a string, not
    empty, that does not read as JSON. *)
Theorem PUT_answers_500_when
    now fresh db params_id body wallet status d user :
  b_walletAddress body = Some wallet -> wallet <> "" ->
  b_status body = Some status -> status <> "" ->
  getDealById db params_id = Some d ->
  getUserByWallet db wallet = Some user ->
  user_id_of user = buyer_id d \/ user_id_of user = seller_id d ->
  status_of_string status = None
  \/ (truthy_int (b_rating body) && truthy_string (b_feedback body) = true
      /\ rating_check (b_rating body) = false)
  \/ (exists z, b_dealIdOnChain body = Some z /\ z <> 0
                /\ (z < - 2 ^ 31 \/ 2 ^ 31 <= z))
  \/ (exists s, b_paymentDetails body = Some (PdString s false) /\ s <> "") ->
  PUT now fresh db params_id body = (internal_error, db).
Proof.
  intros Hw Hwne Hs Hsne Hd Hu Hparty Hbad.
  rewrite (PUT_of_a_party now fresh db params_id body wallet status d user)
    by assumption.
  unfold PUT_write.
  destruct Hbad as [Hnone|[[Hrated Hbad]|[(z & Hz & Hz0 & Hrange)|(s & Hp & Hne)]]].
  - now rewrite (updateDealStatus_unknown_status _ _ _ _ _ _ Hd Hnone).
  - destruct (status_of_string status) as [st|] eqn:Hst;
      [|now rewrite (updateDealStatus_unknown_status _ _ _ _ _ _ Hd Hst)].
    rewrite (updateDealStatus_rejects _ _ _ st _ _ _ Hd Hst); [reflexivity|].
    unfold deal_checks.
    cbn [apply_update buyer_rating seller_rating PUT_updateData
         upd_buyer_rating upd_seller_rating].
    rewrite Hrated. cbn [andb].
    destruct (b_rating body) as [r|]; [|discriminate].
    destruct (String.eqb (user_id_of user) (buyer_id d));
      cbn [negb assign]; rewrite Hbad; auto using andb_false_r.
  - rewrite updateDealStatus_unreadable; [reflexivity|].
    unfold update_parameters_ok, PUT_updateData. cbn [upd_deal_id_on_chain].
    rewrite Hz. unfold if_truthy_int, truthy_int.
    rewrite (proj2 (Z.eqb_neq z 0) Hz0). cbn [negb int4].
    replace ((- 2 ^ 31 <=? z) && (z <? 2 ^ 31)) with false; [reflexivity|].
    symmetry. apply andb_false_iff.
    destruct Hrange; [left; apply Z.leb_gt|right; apply Z.ltb_ge]; assumption.
  - rewrite updateDealStatus_unreadable; [reflexivity|].
    unfold update_parameters_ok, PUT_updateData. cbn [upd_payment_details].
    rewrite Hp. unfold if_truthy_details, truthy_details.
    rewrite (proj2 (String.eqb_neq s "") Hne). cbn [negb details_reads_as_json].
    apply andb_false_r.
Qed.

Lemma status_of_string_text s st :
  status_of_string s = Some st ->
  s = match st with
      | initiated => "initiated" | funded => "funded"
      | payment_sent => "payment_sent" | completed => "completed"
      | disputed => "disputed" | cancelled => "cancelled"
      | expired => "expired"
      end.
Proof.
  unfold status_of_string.
  repeat match goal with
         | |- context [String.eqb s ?t] =>
             destruct (String.eqb_spec s t); [intros [= <-]; assumption|]
         end.
  discriminate.
Qed.

(** X17.  An accepted update to funded, payment_sent, completed,
    disputed or cancelled adds exactly one notification, unread, of type
    deal, related to the deal, and addressed to the party that did not
    send the request; an accepted update to initiated or expired adds
    none. *)
Theorem PUT_notifies_the_other_party
    now fresh db params_id body wallet status d user r msg db' :
  b_walletAddress body = Some wallet ->
  b_status body = Some status ->
  getDealById db params_id = Some d ->
  getUserByWallet db wallet = Some user ->
  PUT now fresh db params_id body = (Json r msg, db') ->
  (status = "initiated" \/ status = "expired" ->
   notifications db' = notifications db)
  /\ (status <> "initiated" -> status <> "expired" ->
      exists n,
        notifications db' = (notifications db ++ [n])%list
        /\ n_user_id n = (if String.eqb (user_id_of user) (buyer_id d)
                          then seller_id d else buyer_id d)
        /\ (buyer_id d <> seller_id d -> n_user_id n <> user_id_of user)
        /\ n_title n = "Deal Update"
        /\ n_message n = Text (notificationMessage status)
        /\ notificationMessage status <> ""
        /\ n_type n = "deal"
        /\ n_related_id n = or_string_opt (Some params_id) None
        /\ n_is_read n = false).
Proof.
  intros Hw Hs Hd Hu H.
  destruct (PUT_Json_inv _ _ _ _ _ _ _ _ H)
    as (wallet' & status' & st & d0 & user' & Hw' & Hs' & Hst & Hd' & Hu'
        & Hparty & _ & _ & Hdb).
  rewrite Hw in Hw'. injection Hw' as <-.
  rewrite Hs in Hs'. injection Hs' as <-.
  rewrite Hd in Hd'. injection Hd' as <-.
  rewrite Hu in Hu'. injection Hu' as <-.
  cbv zeta in Hdb.
  set (db1 := with_deals _ db) in Hdb.
  assert (Hns : notifications
                  (if String.eqb status "completed"
                   then snd (updateUserReputation (seller_id d)
                               (snd (updateUserReputation (buyer_id d) db1)))
                   else db1) = notifications db).
  { destruct (String.eqb status "completed"); [|reflexivity].
    now rewrite !(proj2 (updateUserReputation_rest _ _)). }
  pose proof (status_of_string_text _ _ Hst) as Htext.
  split.
  - intros Hquiet.
    assert (Hm : notificationMessage status = "")
      by (destruct Hquiet as [-> | ->]; reflexivity).
    rewrite Hm in Hdb. cbn [String.eqb negb] in Hdb.
    destruct Hquiet as [-> | ->]; subst db'; exact Hns.
  - intros Hni Hne.
    assert (Hm : String.eqb (notificationMessage status) "" = false)
      by (destruct st; subst status; try contradiction; reflexivity).
    rewrite Hm in Hdb. cbn [negb] in Hdb. subst db'.
    cbn [createNotification snd notifications with_notifications].
    rewrite Hns. eexists. split; [reflexivity|].
    cbn [n_user_id n_title n_message n_type n_related_id n_is_read
         nd_user_id nd_title nd_message nd_type nd_related_id].
    repeat split.
    + intros Hdiff.
      destruct (String.eqb_spec (user_id_of user) (buyer_id d)) as [E|E].
      * congruence.
      * destruct Hparty; congruence.
    + apply String.eqb_neq. exact Hm.
Qed.

(** ** POST /api/deals, request by request *)

(** The deal row and the tables of an accepted request. *)
Lemma POST_Json_inv now f1 f2 f3 db body r msg db' :
  POST now f1 f2 f3 db body = (Json r msg, db') ->
  exists adId wallet amt ad requester d,
    p_adId body = Some adId /\ p_buyerWallet body = Some wallet
    /\ p_amount body = Some amt
    /\ String.eqb adId "" || String.eqb wallet ""
       || negb (truthy_value (Some amt)) = false
    /\ number_le (ToNumber amt) (Fin 0) = false
    /\ getAdById db adId = Some ad /\ getUserByWallet db wallet = Some requester
    /\ String.eqb (ad_user_id ad) (user_id_of requester) = false
    /\ below_min ad amt = false /\ above_max ad amt = false
    /\ gt_column amt (ad_amount ad) = false
    /\ msg = "Deal created successfully"
    /\ createDeal now f1 (POST_dealData body adId amt ad requester) db
       = Some (d, with_deals (deals db ++ [d]) db)
    /\ r = Some d
    /\ db' = with_notifications
               (notifications db
                ++ [fst (createNotification now f2
                           (mkNotificationData
                              (dd_buyer_id (POST_dealData body adId amt ad requester))
                              "Deal Created"
                              (DealCreatedFor amt (asset ad) (ad_price ad))
                              "deal" (Some (id d))) db);
                    fst (createNotification now f3
                           (mkNotificationData
                              (dd_seller_id (POST_dealData body adId amt ad requester))
                              "New Deal Request"
                              (SomeoneWantsTo
                                 (match ad_type ad with
                                  | sell => "buy" | buy => "sell" end)
                                 amt (asset ad))
                              "deal" (Some (id d))) db)])%list
               (with_deals (deals db ++ [d])%list db).
Proof.
  unfold POST.
  destruct (p_adId body) as [adId|]; [|intros [=]].
  destruct (p_buyerWallet body) as [wallet|]; [|intros [=]].
  destruct (p_amount body) as [amt|]; [|intros [=]].
  destruct (String.eqb adId "" || String.eqb wallet ""
            || negb (truthy_value (Some amt))) eqn:Hreq;
    [intros [=]|].
  destruct (number_le (ToNumber amt) (Fin 0)) eqn:Hpos; [intros [=]|].
  destruct (getAdById db adId) as [ad|] eqn:Had; [|intros [=]].
  destruct (getUserByWallet db wallet) as [requester|] eqn:Hu; [|intros [=]].
  destruct (String.eqb (ad_user_id ad) (user_id_of requester)) eqn:Hself;
    [intros [=]|].
  destruct (below_min ad amt) eqn:Hmin; [intros [=]|].
  destruct (above_max ad amt) eqn:Hmax; [intros [=]|].
  destruct (gt_column amt (ad_amount ad)) eqn:Havail; [intros [=]|].
  fold (POST_dealData body adId amt ad requester).
  destruct (createDeal now f1 (POST_dealData body adId amt ad requester) db)
    as [[d db1]|] eqn:Hc; [|intros [=]].
  destruct (createDeal_row _ _ _ _ _ _ Hc) as (a & t & _ & _ & _ & _ & _ & _ & ->).
  cbn [createNotification fst snd]. intros [= <- <- <-].
  exists adId, wallet, amt, ad, requester, d.
  repeat (split; [reflexivity || assumption|]).
  unfold with_notifications, with_deals. cbn.
  now rewrite <- app_assoc.
Qed.

(** The other way round: a request that passes the checks and whose
    row the table takes is accepted. *)
Lemma POST_accepts now f1 f2 f3 db body adId wallet amt ad requester d db1 :
  p_adId body = Some adId -> p_buyerWallet body = Some wallet ->
  p_amount body = Some amt ->
  String.eqb adId "" || String.eqb wallet ""
  || negb (truthy_value (Some amt)) = false ->
  number_le (ToNumber amt) (Fin 0) = false ->
  getAdById db adId = Some ad -> getUserByWallet db wallet = Some requester ->
  String.eqb (ad_user_id ad) (user_id_of requester) = false ->
  below_min ad amt = false -> above_max ad amt = false ->
  gt_column amt (ad_amount ad) = false ->
  createDeal now f1 (POST_dealData body adId amt ad requester) db = Some (d, db1) ->
  exists db',
    POST now f1 f2 f3 db body = (Json (Some d) "Deal created successfully", db')
    /\ deals db' = (deals db ++ [d])%list.
Proof.
  intros Ha Hw Hamt Hreq Hpos Had Hu Hself Hmin Hmax Havail Hc.
  unfold POST. rewrite Ha, Hw, Hamt, Hreq, Hpos, Had, Hu, Hself, Hmin, Hmax, Havail.
  fold (POST_dealData body adId amt ad requester). rewrite Hc.
  destruct (createDeal_row _ _ _ _ _ _ Hc) as (a & t & _ & _ & _ & _ & _ & _ & ->).
  cbn [createNotification fst snd]. eexists. split; reflexivity.
Qed.

(** Whether the table takes a row does not depend on the table, on the
    time or on the id. *)
Lemma createDeal_again now f dd db d db1 now' g db2 :
  createDeal now f dd db = Some (d, db1) ->
  exists d2,
    createDeal now' g dd db2 = Some (d2, with_deals (deals db2 ++ [d2]) db2)
    /\ id d2 = g /\ ad_id d2 = ad_id d /\ amount d2 = amount d
    /\ buyer_id d2 = buyer_id d /\ seller_id d2 = seller_id d.
Proof.
  intros H.
  destruct (createDeal_row _ _ _ _ _ _ H)
    as (a & t & Ha & Ht & Hpa & Hpp & Hpt & -> & _).
  unfold createDeal. rewrite Ha, Ht, Hpa, Hpp, Hpt. cbn [andb].
  eexists. split; [reflexivity|]. cbn. auto.
Qed.

Lemma getAdById_reads db1 db2 adId :
  users db1 = users db2 -> ads db1 = ads db2 ->
  getAdById db1 adId = getAdById db2 adId.
Proof. intros Hu Ha. unfold getAdById. now rewrite Hu, Ha. Qed.

Lemma getUserByWallet_reads db1 db2 wallet :
  users db1 = users db2 -> getUserByWallet db1 wallet = getUserByWallet db2 wallet.
Proof. intros Hu. unfold getUserByWallet. now rewrite Hu. Qed.

(** X18.  Creating a deal changes neither the ad nor any user: the
    amount of the ad is not reduced by the deals made on it.  So the very
    request that was accepted is accepted again, at any later time, and
    yields a second deal on the same ad for the same amount between the
    same two users. *)
Theorem POST_does_not_use_up_the_ad now f1 f2 f3 db body d msg db' :
  POST now f1 f2 f3 db body = (Json (Some d) msg, db') ->
  ads db' = ads db /\ users db' = users db
  /\ forall now' g1 g2 g3,
       exists d2 db'',
         POST now' g1 g2 g3 db' body = (Json (Some d2) msg, db'')
         /\ ad_id d2 = ad_id d /\ amount d2 = amount d
         /\ buyer_id d2 = buyer_id d /\ seller_id d2 = seller_id d
         /\ id d2 = g1
         /\ deals db'' = (deals db ++ [d; d2])%list.
Proof.
  intros H.
  destruct (POST_Json_inv _ _ _ _ _ _ _ _ _ H)
    as (adId & wallet & amt & ad & requester & d0 & Ha & Hw & Hamt & Hreq & Hpos
        & Had & Hu & Hself & Hmin & Hmax & Havail & -> & Hc & Hr & Hdb).
  injection Hr as <-.
  assert (Hads : ads db' = ads db) by (subst db'; reflexivity).
  assert (Husers : users db' = users db) by (subst db'; reflexivity).
  assert (Hdeals : deals db' = (deals db ++ [d])%list) by (subst db'; reflexivity).
  split; [exact Hads|]. split; [exact Husers|].
  intros now' g1 g2 g3.
  rewrite <- (getAdById_reads db' db adId Husers Hads) in Had.
  rewrite <- (getUserByWallet_reads db' db wallet Husers) in Hu.
  destruct (createDeal_again _ _ _ _ _ _ now' g1 db' Hc)
    as (d2 & Hc2 & Hid & Had2 & Hamt2 & Hb2 & Hs2).
  destruct (POST_accepts now' g1 g2 g3 db' body adId wallet amt ad requester d2 _
              Ha Hw Hamt Hreq Hpos Had Hu Hself Hmin Hmax Havail Hc2)
    as (db'' & H2 & Hdeals2).
  exists d2, db''. split; [exact H2|].
  repeat (split; [assumption|]).
  rewrite Hdeals2, Hdeals. now rewrite <- app_assoc.
Qed.

Lemma find_app_first {A : Type} (p : A -> bool) l1 l2 :
  List.find p (l1 ++ l2)%list
  = match List.find p l1 with
    | Some x => Some x
    | None => List.find p l2
    end.
Proof.
  induction l1 as [|x xs IH]; [reflexivity|].
  cbn [app List.find]. now destruct (p x).
Qed.

(** X19.  Round trip.  When the new id is not in use, the deal the
    handler returns is the deal [getDealById] finds under that id
    afterwards, every other id finds what it found before, and the deal
    starts initiated, unrated, created now and expiring 24 hours later.
    The handler adds two unread notifications about it, one for the
    buyer and one for the seller. *)
Theorem POST_round_trip now f1 f2 f3 db body d msg db' :
  (forall x, In x (deals db) -> id x <> f1) ->
  POST now f1 f2 f3 db body = (Json (Some d) msg, db') ->
  id d = f1
  /\ getDealById db' f1 = Some d
  /\ (forall other, other <> f1 -> getDealById db' other = getDealById db other)
  /\ DB.status d = initiated
  /\ created_at d = now /\ expires_at d = now + DAY
  /\ buyer_rating d = None /\ seller_rating d = None
  /\ funded_at d = None /\ payment_sent_at d = None /\ completed_at d = None
  /\ exists n1 n2,
       notifications db' = (notifications db ++ [n1; n2])%list
       /\ n_user_id n1 = buyer_id d /\ n_user_id n2 = seller_id d
       /\ n_is_read n1 = false /\ n_is_read n2 = false
       /\ n_type n1 = "deal" /\ n_type n2 = "deal"
       /\ n_related_id n1 = or_string_opt (Some f1) None
       /\ n_related_id n2 = or_string_opt (Some f1) None.
Proof.
  intros Hfresh H.
  destruct (POST_Json_inv _ _ _ _ _ _ _ _ _ H)
    as (adId & wallet & amt & ad & requester & d0 & _ & _ & _ & _ & _
        & _ & _ & _ & _ & _ & _ & _ & Hc & Hr & Hdb).
  injection Hr as <-.
  destruct (createDeal_row _ _ _ _ _ _ Hc) as (a & t & _ & _ & _ & _ & _ & Hd & _).
  assert (Hid : id d = f1) by (rewrite Hd; reflexivity).
  split; [exact Hid|].
  assert (Hfind : forall k,
            List.find (fun x => String.eqb (id x) k) (deals db') =
            match List.find (fun x => String.eqb (id x) k) (deals db) with
            | Some x => Some x
            | None => if String.eqb f1 k then Some d else None
            end).
  { intros k. rewrite Hdb. cbn [deals with_notifications with_deals].
    rewrite find_app_first. cbn [List.find]. now rewrite Hid. }
  split.
  { unfold getDealById. rewrite Hfind.
    destruct (List.find (fun x => String.eqb (id x) f1) (deals db)) as [x|] eqn:E.
    - apply find_some in E. destruct E as [Hin E].
      apply String.eqb_eq in E. exfalso. now apply (Hfresh x).
    - now rewrite String.eqb_refl. }
  split.
  { intros other Hne. unfold getDealById. rewrite Hfind.
    destruct (List.find (fun x => String.eqb (id x) other) (deals db));
      [reflexivity|].
    apply not_eq_sym, String.eqb_neq in Hne. now rewrite Hne. }
  repeat (split; [rewrite Hd; reflexivity|]).
  eexists. eexists. rewrite Hdb.
  cbn [notifications with_notifications]. split; [reflexivity|].
  rewrite Hd. cbn. repeat split.
Qed.

(** X20.  A deal is created only on an ad that is stored and active,
    between two users that are stored: the owner of the ad and the user
    of the requesting wallet, and at the price of the ad. *)
Theorem POST_references_exist now f1 f2 f3 db body d msg db' :
  POST now f1 f2 f3 db body = (Json (Some d) msg, db') ->
  (exists a, In a (ads db) /\ ad_id_of a = ad_id d /\ ad_status a = ad_active
             /\ price d = ad_price a
             /\ (ad_user_id a = buyer_id d \/ ad_user_id a = seller_id d))
  /\ (exists u, In u (users db) /\ user_id_of u = buyer_id d)
  /\ (exists u, In u (users db) /\ user_id_of u = seller_id d).
Proof.
  intros H.
  destruct (POST_Json_inv _ _ _ _ _ _ _ _ _ H)
    as (adId & wallet & amt & ad & requester & d0 & _ & _ & _ & _ & _
        & Had & Hu & _ & _ & _ & _ & _ & Hc & Hr & _).
  injection Hr as <-.
  destruct (createDeal_row _ _ _ _ _ _ Hc) as (a & t & _ & _ & _ & _ & _ & -> & _).
  cbn [ad_id buyer_id seller_id price dd_ad_id dd_buyer_id
       dd_seller_id dd_price POST_dealData].
  unfold getAdById in Had. apply find_some in Had. destruct Had as [Hin Hcond].
  apply andb_true_iff in Hcond. destruct Hcond as [Hcond Howner].
  apply andb_true_iff in Hcond. destruct Hcond as [Hid Hactive].
  apply String.eqb_eq in Hid.
  apply existsb_exists in Howner. destruct Howner as (owner & Hoin & Howner).
  apply String.eqb_eq in Howner.
  unfold getUserByWallet in Hu. apply find_some in Hu. destruct Hu as [Huin _].
  split.
  { exists ad. repeat split; auto.
    - unfold ad_is_active in Hactive. now destruct (ad_status ad).
    - destruct (ad_type ad); auto. }
  destruct (ad_type ad); split; eauto.
Qed.

(** ** Reputation *)

Lemma Tables_eq (a b : Tables) :
  users a = users b -> ads a = ads b -> deals a = deals b ->
  notifications a = notifications b -> a = b.
Proof. destruct a, b. cbn. congruence. Qed.

Lemma updateUserReputation_fst userId db :
  fst (updateUserReputation userId db)
  = match List.find (fun u => String.eqb (user_id_of u) userId) (users db) with
    | Some _ => derived_score userId (deals db)
    | None => 0
    end.
Proof.
  unfold updateUserReputation, derived_score.
  destruct (reputation_calc userId (deals db)) as [total pos]. cbn [fst].
  rewrite (find_updated_row (fun u => String.eqb (user_id_of u) userId)
             (set_reputation (reputation_of_counts total pos) total pos))
    by reflexivity.
  now destruct (List.find _ (users db)).
Qed.

Lemma find_none_absent userId (us : list User) :
  (forall u, In u us -> user_id_of u <> userId) ->
  List.find (fun u => String.eqb (user_id_of u) userId) us = None.
Proof.
  intros H. destruct (List.find _ us) as [u|] eqn:E; [|reflexivity].
  apply find_some in E. destruct E as [Hin E]. apply String.eqb_eq in E.
  now apply H in Hin.
Qed.

(** X21.  Recomputing a reputation is a projection of the deals onto
    the user's row: doing it twice is doing it once, the recomputations of
    two users can be done in either order (the handler starts both at
    once), and for an id no user has the statement changes nothing and
    the function returns 0. *)
Theorem updateUserReputation_settles a b db :
  updateUserReputation a (snd (updateUserReputation a db))
  = updateUserReputation a db
  /\ snd (updateUserReputation a (snd (updateUserReputation b db)))
     = snd (updateUserReputation b (snd (updateUserReputation a db)))
  /\ ((forall u, In u (users db) -> user_id_of u <> a) ->
      updateUserReputation a db = (0, db)).
Proof.
  split; [|split].
  - apply injective_projections.
    + rewrite !updateUserReputation_fst, updateUserReputation_deals,
        updateUserReputation_users.
      rewrite (find_updated_row (fun u => String.eqb (user_id_of u) a)
                 (set_reputation (derived_score a (deals db))
                    (fst (reputation_calc a (deals db)))
                    (snd (reputation_calc a (deals db))))) by reflexivity.
      now destruct (List.find _ (users db)).
    + apply Tables_eq;
        rewrite ?updateUserReputation_deals,
          ?(proj1 (updateUserReputation_rest _ _)),
          ?(proj2 (updateUserReputation_rest _ _)); try reflexivity.
      rewrite !updateUserReputation_users, updateUserReputation_deals, map_map.
      apply map_ext. intros u.
      destruct (String.eqb (user_id_of u) a) eqn:E; cbn [set_reputation user_id_of];
        rewrite E; reflexivity.
  - apply Tables_eq;
      rewrite ?updateUserReputation_deals,
        ?(proj1 (updateUserReputation_rest _ _)),
        ?(proj2 (updateUserReputation_rest _ _)); try reflexivity.
    rewrite !updateUserReputation_users, !updateUserReputation_deals, !map_map.
    apply map_ext. intros u.
    destruct (String.eqb_spec (user_id_of u) a) as [Ea|Ea];
      destruct (String.eqb_spec (user_id_of u) b) as [Eb|Eb];
      cbn [set_reputation user_id_of];
      repeat match goal with
             | |- context [String.eqb ?x ?y] =>
                 destruct (String.eqb_spec x y); try contradiction
             end;
      try reflexivity.
    subst a b. reflexivity.
  - intros Habsent. apply injective_projections.
    + rewrite updateUserReputation_fst, (find_none_absent _ _ Habsent). reflexivity.
    + cbn [snd]. apply Tables_eq;
        rewrite ?updateUserReputation_deals,
          ?(proj1 (updateUserReputation_rest _ _)),
          ?(proj2 (updateUserReputation_rest _ _)); try reflexivity.
      rewrite updateUserReputation_users.
      rewrite <- (map_id (users db)) at 2. apply map_ext_in.
      intros u Hin. destruct (String.eqb_spec (user_id_of u) a) as [E|E];
        [now apply Habsent in Hin|reflexivity].
Qed.

Lemma reputation_calc_counts userId ds :
  reputation_calc userId ds
  = (Z.of_nat (length (List.filter
       (fun d => (String.eqb (buyer_id d) userId || String.eqb (seller_id d) userId)
                 && DealStatus_eqb (DB.status d) completed) ds)),
     Z.of_nat (length (List.filter
       (fun d => ((String.eqb (buyer_id d) userId && rating_ge4 (seller_rating d))
                  || (String.eqb (seller_id d) userId && rating_ge4 (buyer_rating d)))
                 && DealStatus_eqb (DB.status d) completed) ds))).
Proof.
  induction ds as [|d ds IH]; [reflexivity|].
  cbn [reputation_calc List.filter]. rewrite IH.
  unfold reputation_row, positive_row.
  destruct (String.eqb (buyer_id d) userId), (String.eqb (seller_id d) userId),
    (DealStatus_eqb (DB.status d) completed),
    (rating_ge4 (seller_rating d)), (rating_ge4 (buyer_rating d));
    cbn [andb orb length]; f_equal; lia.
Qed.

(** X22.  The two persistence layers agree on reputation.  The SQL
    function [calculate_user_reputation], with its two separate counts,
    leaves the tables exactly as [SwapSathiDB.updateUserReputation] with
    its single aggregate does, and returns the same score for a user that
    exists.  For an id no user has they differ in what they return: the
    SQL function still returns the score the deals give, the other 0. *)
Theorem calculate_user_reputation_agrees userId db :
  snd (calculate_user_reputation userId db) = snd (updateUserReputation userId db)
  /\ fst (calculate_user_reputation userId db) = derived_score userId (deals db)
  /\ ((exists u, In u (users db) /\ user_id_of u = userId) ->
      fst (updateUserReputation userId db)
      = fst (calculate_user_reputation userId db))
  /\ ((forall u, In u (users db) -> user_id_of u <> userId) ->
      fst (updateUserReputation userId db) = 0).
Proof.
  assert (Hfst : fst (calculate_user_reputation userId db)
                 = derived_score userId (deals db)).
  { unfold calculate_user_reputation, derived_score.
    rewrite reputation_calc_counts. reflexivity. }
  split; [|split; [exact Hfst|split]].
  - apply Tables_eq;
      rewrite ?updateUserReputation_deals,
        ?(proj1 (updateUserReputation_rest _ _)),
        ?(proj2 (updateUserReputation_rest _ _)); try reflexivity.
    rewrite updateUserReputation_users.
    unfold calculate_user_reputation, derived_score.
    rewrite reputation_calc_counts. reflexivity.
  - intros (u & Hin & Hid). rewrite Hfst, updateUserReputation_fst.
    destruct (List.find _ (users db)) eqn:E; [reflexivity|].
    exfalso. apply (find_none _ _ E) in Hin.
    apply String.eqb_neq in Hin. contradiction.
  - intros Habsent.
    now rewrite updateUserReputation_fst, (find_none_absent _ _ Habsent).
Qed.

(** ** GET /api/deals *)







(** ** Users *)

Lemma lower_ascii_idem c : lower_ascii (lower_ascii c) = lower_ascii c.
Proof. destruct c as [[] [] [] [] [] [] [] []]; reflexivity. Qed.

Lemma toLowerCase_idem s : toLowerCase (toLowerCase s) = toLowerCase s.
Proof.
  induction s as [|c s IH]; [reflexivity|].
  cbn [toLowerCase]. now rewrite lower_ascii_idem, IH.
Qed.

Lemma find_map_kept {A : Type} (p : A -> bool) (g : A -> A) l :
  (forall x, p (g x) = p x) -> (forall x, p x = true -> g x = x) ->
  List.find p (map g l) = List.find p l.
Proof.
  intros Hp Hg. induction l as [|x l IH]; [reflexivity|].
  cbn [map List.find]. rewrite Hp. destruct (p x) eqn:E; [|exact IH].
  now rewrite Hg.
Qed.

(** The row the upsert writes over an old one. *)
Lemma createOrUpdateUser_cases fresh walletAddress userData db :
  match getUserByWallet db walletAddress with
  | Some old =>
      createOrUpdateUser fresh walletAddress userData db
      = (mkUser (user_id_of old) (wallet_address old)
           (assign (if_truthy_string (ud_username userData)) (username old))
           (reputation_score old) (total_trades old) (successful_trades old),
         with_users
           (map (fun u =>
                   if String.eqb (wallet_address u) (toLowerCase walletAddress)
                   then mkUser (user_id_of u) (wallet_address u)
                          (assign (if_truthy_string (ud_username userData))
                             (username u))
                          (reputation_score u) (total_trades u)
                          (successful_trades u)
                   else u) (users db)) db)
  | None =>
      createOrUpdateUser fresh walletAddress userData db
      = (mkUser fresh (toLowerCase walletAddress)
           (if_truthy_string (ud_username userData)) 0 0 0,
         with_users
           (users db ++ [mkUser fresh (toLowerCase walletAddress)
                           (if_truthy_string (ud_username userData)) 0 0 0])%list
           db)
  end.
Proof.
  unfold createOrUpdateUser, getUserByWallet.
  now destruct (List.find _ (users db)).
Qed.

(** X24.  Round trip of the upsert.  The row [createOrUpdateUser]
    returns carries the wallet in lower case and is the row
    [getUserByWallet] finds afterwards under that wallet written in any
    mix of cases; a wallet that differs in more than case finds what it
    found before.  A row that was there keeps its id and its three
    reputation columns, and keeps its name unless a non-empty one is
    given; ads, deals and notifications are untouched. *)
Theorem createOrUpdateUser_round_trip fresh walletAddress userData db :
  let u := fst (createOrUpdateUser fresh walletAddress userData db) in
  let db' := snd (createOrUpdateUser fresh walletAddress userData db) in
  wallet_address u = toLowerCase walletAddress
  /\ (forall w, toLowerCase w = toLowerCase walletAddress ->
                getUserByWallet db' w = Some u)
  /\ (forall w, toLowerCase w <> toLowerCase walletAddress ->
                getUserByWallet db' w = getUserByWallet db w)
  /\ (forall old, getUserByWallet db walletAddress = Some old ->
        user_id_of u = user_id_of old
        /\ reputation_score u = reputation_score old
        /\ total_trades u = total_trades old
        /\ successful_trades u = successful_trades old
        /\ username u = (if truthy_string (ud_username userData)
                         then ud_username userData else username old)
        /\ length (users db') = length (users db))
  /\ (getUserByWallet db walletAddress = None ->
      user_id_of u = fresh /\ reputation_score u = 0 /\ total_trades u = 0
      /\ successful_trades u = 0
      /\ username u = if_truthy_string (ud_username userData)
      /\ users db' = (users db ++ [u])%list)
  /\ ads db' = ads db /\ deals db' = deals db
  /\ notifications db' = notifications db.
Proof.
  pose proof (createOrUpdateUser_cases fresh walletAddress userData db) as Hc.
  destruct (getUserByWallet db walletAddress) as [old|] eqn:Hold;
    rewrite Hc; cbn [fst snd]; clear Hc.
  - assert (Hwal : wallet_address old = toLowerCase walletAddress).
    { unfold getUserByWallet in Hold. apply find_some in Hold.
      now apply String.eqb_eq. }
    split; [exact Hwal|]. split; [|split].
    + intros w Hw. unfold getUserByWallet. cbn [users with_users]. rewrite Hw.
      rewrite (find_updated_row
                 (fun u => String.eqb (wallet_address u) (toLowerCase walletAddress))
                 (fun u => mkUser (user_id_of u) (wallet_address u)
                             (assign (if_truthy_string (ud_username userData))
                                (username u))
                             (reputation_score u) (total_trades u)
                             (successful_trades u))) by reflexivity.
      unfold getUserByWallet in Hold. now rewrite Hold.
    + intros w Hw. unfold getUserByWallet. cbn [users with_users].
      apply find_map_kept.
      * intros x. now destruct (String.eqb (wallet_address x) (toLowerCase walletAddress)).
      * intros x Hx.
        destruct (String.eqb_spec (wallet_address x) (toLowerCase walletAddress))
          as [E|E]; [|reflexivity].
        apply String.eqb_eq in Hx. congruence.
    + split.
      { intros old' [= <-]. cbn. repeat split.
        - unfold if_truthy_string, assign.
          now destruct (truthy_string (ud_username userData)) eqn:E,
                       (ud_username userData).
        - now rewrite length_map. }
      split; [discriminate|]. repeat split.
  - split; [reflexivity|]. split; [|split].
    + intros w Hw. unfold getUserByWallet in *. cbn [users with_users].
      rewrite Hw, find_app_first, Hold. cbn [List.find wallet_address].
      now rewrite String.eqb_refl.
    + intros w Hw. unfold getUserByWallet. cbn [users with_users].
      rewrite find_app_first.
      destruct (List.find _ (users db)); [reflexivity|].
      cbn [List.find wallet_address].
      apply not_eq_sym, String.eqb_neq in Hw. now rewrite Hw.
    + split; [discriminate|]. repeat split.
Qed.

(** X25.  The upsert keeps the [users] table well formed: if the
    wallets were pairwise different and written in lower case they still
    are, and if the ids were pairwise different and the new id is not in
    use they still are.  So a wallet never gets a second row, however its
    letters are cased in the request. *)
Theorem createOrUpdateUser_keeps_users_well_formed fresh walletAddress userData db :
  let db' := snd (createOrUpdateUser fresh walletAddress userData db) in
  (NoDup (map wallet_address (users db)) ->
   NoDup (map wallet_address (users db')))
  /\ (Forall (fun u => toLowerCase (wallet_address u) = wallet_address u) (users db) ->
      Forall (fun u => toLowerCase (wallet_address u) = wallet_address u) (users db'))
  /\ (NoDup (map user_id_of (users db)) ->
      (forall u, In u (users db) -> user_id_of u <> fresh) ->
      NoDup (map user_id_of (users db'))).
Proof.
  pose proof (createOrUpdateUser_cases fresh walletAddress userData db) as Hc.
  destruct (getUserByWallet db walletAddress) as [old|] eqn:Hold;
    rewrite Hc; cbn [fst snd users with_users]; clear Hc.
  - assert (Hw : map wallet_address
                   (map (fun u =>
                           if String.eqb (wallet_address u) (toLowerCase walletAddress)
                           then mkUser (user_id_of u) (wallet_address u)
                                  (assign (if_truthy_string (ud_username userData))
                                     (username u))
                                  (reputation_score u) (total_trades u)
                                  (successful_trades u)
                           else u) (users db))
                 = map wallet_address (users db)).
    { rewrite map_map. apply map_ext. intros u.
      now destruct (String.eqb (wallet_address u) (toLowerCase walletAddress)). }
    assert (Hi : map user_id_of
                   (map (fun u =>
                           if String.eqb (wallet_address u) (toLowerCase walletAddress)
                           then mkUser (user_id_of u) (wallet_address u)
                                  (assign (if_truthy_string (ud_username userData))
                                     (username u))
                                  (reputation_score u) (total_trades u)
                                  (successful_trades u)
                           else u) (users db))
                 = map user_id_of (users db)).
    { rewrite map_map. apply map_ext. intros u.
      now destruct (String.eqb (wallet_address u) (toLowerCase walletAddress)). }
    rewrite Hw, Hi. split; [auto|]. split; [|auto].
    rewrite !List.Forall_forall. intros H u Hin.
    apply in_map_iff in Hin. destruct Hin as (x & <- & Hin).
    specialize (H x Hin).
    now destruct (String.eqb (wallet_address x) (toLowerCase walletAddress)).
  - assert (Habsent : forall u, In u (users db) ->
                                wallet_address u <> toLowerCase walletAddress).
    { intros u Hin E. unfold getUserByWallet in Hold.
      apply (find_none _ _ Hold) in Hin. apply String.eqb_neq in Hin.
      contradiction. }
    rewrite !map_app. cbn [map wallet_address user_id_of]. split; [|split].
    + intros Hnd. apply NoDup_app. split; [exact Hnd|]. split.
      * intros w Hw Hw'. apply list_elem_of_In in Hw, Hw'.
        destruct Hw' as [<-|[]].
        apply in_map_iff in Hw. destruct Hw as (u & E & Hin).
        now apply (Habsent u).
      * apply NoDup_singleton.
    + rewrite !List.Forall_forall. intros H u Hin.
      apply in_app_iff in Hin. destruct Hin as [Hin|[<-|[]]]; [auto|].
      cbn [wallet_address]. apply toLowerCase_idem.
    + intros Hnd Hfresh. apply NoDup_app. split; [exact Hnd|]. split.
      * intros i Hi Hi'. apply list_elem_of_In in Hi, Hi'.
        destruct Hi' as [<-|[]].
        apply in_map_iff in Hi. destruct Hi as (u & E & Hin).
        now apply (Hfresh u).
      * apply NoDup_singleton.
Qed.

Lemma createOrUpdateUser_lookup fresh walletAddress userData db :
  getUserByWallet (snd (createOrUpdateUser fresh walletAddress userData db))
                  walletAddress
  = Some (fst (createOrUpdateUser fresh walletAddress userData db)).
Proof.
  pose proof (createOrUpdateUser_cases fresh walletAddress userData db) as Hc.
  destruct (getUserByWallet db walletAddress) as [old|] eqn:Hold;
    rewrite Hc; cbn [fst snd]; clear Hc;
    unfold getUserByWallet in *; cbn [users with_users].
  - rewrite (find_updated_row
               (fun u => String.eqb (wallet_address u) (toLowerCase walletAddress))
               (fun u => mkUser (user_id_of u) (wallet_address u)
                           (assign (if_truthy_string (ud_username userData))
                              (username u))
                           (reputation_score u) (total_trades u)
                           (successful_trades u))) by reflexivity.
    now rewrite Hold.
  - rewrite find_app_first, Hold. cbn [List.find wallet_address].
    now rewrite String.eqb_refl.
Qed.

Lemma createOrUpdateUser_rest fresh walletAddress userData db :
  ads (snd (createOrUpdateUser fresh walletAddress userData db)) = ads db
  /\ deals (snd (createOrUpdateUser fresh walletAddress userData db)) = deals db
  /\ notifications (snd (createOrUpdateUser fresh walletAddress userData db))
     = notifications db.
Proof.
  pose proof (createOrUpdateUser_cases fresh walletAddress userData db) as Hc.
  destruct (getUserByWallet db walletAddress); rewrite Hc; repeat split.
Qed.

Lemma createOrUpdateUser_known fresh walletAddress userData db old :
  getUserByWallet db walletAddress = Some old ->
  let u := fst (createOrUpdateUser fresh walletAddress userData db) in
  user_id_of u = user_id_of old /\ wallet_address u = wallet_address old
  /\ reputation_score u = reputation_score old
  /\ total_trades u = total_trades old
  /\ successful_trades u = successful_trades old
  /\ username u = assign (if_truthy_string (ud_username userData)) (username old).
Proof.
  intros Hold.
  pose proof (createOrUpdateUser_cases fresh walletAddress userData db) as Hc.
  rewrite Hold in Hc. rewrite Hc. repeat split.
Qed.

(** X26.  POST /api/users writes nothing unless the signature
    verifies: without it the answer is 400 or 401 and the tables are as
    they were.  With it the user returned is the row of the wallet
    afterwards, and a welcome notification is added exactly when that row
    has no completed trade: not only on the first authentication but on
    every one until the first trade completes. *)
Theorem users_POST_writes_only_when_signed now fresh_user fresh_n signature_ok db body :
  (signature_ok = false ->
   exists code err,
     users_POST now fresh_user fresh_n signature_ok db body
     = (UserFailure code err, db)
     /\ (code = 400 \/ code = 401))
  /\ (forall user msg db',
        users_POST now fresh_user fresh_n signature_ok db body
        = (UserJson user msg, db') ->
        signature_ok = true
        /\ exists wallet,
             ub_walletAddress body = Some wallet /\ wallet <> ""
             /\ getUserByWallet db' wallet = Some user
             /\ deals db' = deals db /\ ads db' = ads db
             /\ (total_trades user <> 0 -> notifications db' = notifications db)
             /\ (total_trades user = 0 ->
                 (exists n,
                     notifications db' = (notifications db ++ [n])%list
                     /\ n_user_id n = user_id_of user
                     /\ n_title n = "Welcome to SwapSathi!"
                     /\ n_type n = "system" /\ n_related_id n = None
                     /\ n_is_read n = false)
                 /\ forall now' fresh_user' fresh_n',
                      exists user' db'' n',
                        users_POST now' fresh_user' fresh_n' true db' body
                        = (UserJson user' msg, db'')
                        /\ user_id_of user' = user_id_of user
                        /\ notifications db''
                           = (notifications db' ++ [n'])%list
                        /\ n_title n' = "Welcome to SwapSathi!")).
Proof.
  split.
  - intros ->. unfold users_POST.
    destruct (negb (truthy_string (ub_walletAddress body))
              || negb (truthy_string (ub_signature body))
              || negb (truthy_string (ub_message body)));
      cbn [negb]; eauto 6.
  - intros user msg db'. unfold users_POST.
    destruct (negb (truthy_string (ub_walletAddress body))
              || negb (truthy_string (ub_signature body))
              || negb (truthy_string (ub_message body))) eqn:Hreq;
      [intros [=]|].
    destruct signature_ok; cbn [negb]; [|intros [=]].
    destruct (ub_walletAddress body) as [wallet|] eqn:Hw;
      [|cbn in Hreq; discriminate].
    assert (Hwne : wallet <> "").
    { intros ->. cbn in Hreq. discriminate. }
    change (default "" (Some wallet)) with wallet.
    destruct (userData_read (ub_userData body)) as [data|]; [|intros [=]].
    pose proof (createOrUpdateUser_lookup fresh_user wallet data db) as Hlook.
    pose proof (createOrUpdateUser_rest fresh_user wallet data db)
      as (Hads & Hdeals & Hns).
    destruct (createOrUpdateUser fresh_user wallet data db) as [u db1] eqn:Hcou.
    cbn [fst snd] in *.
    intros H. injection H as <- <- <-.
    split; [reflexivity|]. exists wallet.
    split; [reflexivity|]. split; [exact Hwne|].
    destruct (Z.eqb_spec (total_trades u) 0) as [Hz|Hz].
    + cbn [createNotification snd]. unfold getUserByWallet in *.
      cbn [users deals ads notifications with_notifications].
      repeat (split; [assumption|]).
      split; [intros Hnz; contradiction|]. intros _. split.
      * eexists. rewrite Hns. split; [reflexivity|]. repeat split.
      * intros now' fresh_user' fresh_n'.
        set (db2 := with_notifications _ db1).
        assert (Hlook2 : getUserByWallet db2 wallet = Some u) by exact Hlook.
        pose proof (createOrUpdateUser_known fresh_user' wallet data db2 u Hlook2)
          as (Hid & _ & _ & Htr & _).
        cbv zeta in Hid, Htr.
        pose proof (createOrUpdateUser_rest fresh_user' wallet data db2)
          as (_ & _ & Hns2).
        destruct (createOrUpdateUser fresh_user' wallet data db2) as [u2 db3] eqn:Hcou2.
        cbn [fst snd] in *.
        eexists. eexists. eexists.
        rewrite Htr, Hz. cbn [Z.eqb].
        split; [reflexivity|].
        split; [exact Hid|]. cbn [notifications with_notifications].
        rewrite Hns2. split; reflexivity.
    + repeat (split; [assumption|]).
      split; [intros _; exact Hns|]. intros Hz'. contradiction.
Qed.


(** ** POST /api/ads *)

Lemma sql_round_monotone x y : (x <= y)%Q -> sql_round x <= sql_round y.
Proof.
  intros Hxy. unfold sql_round.
  destruct (Qle_bool 0 x) eqn:Ex, (Qle_bool 0 y) eqn:Ey.
  - apply Qfloor_resp_le. lra.
  - apply Qle_bool_iff in Ex. apply Qle_bool_false in Ey. lra.
  - apply Qle_bool_false in Ex. apply Qle_bool_iff in Ey.
    pose proof (Qfloor_resp_le 0 (- x + (1 # 2)) ltac:(lra)) as H1.
    pose proof (Qfloor_resp_le 0 (y + (1 # 2)) ltac:(lra)) as H2.
    change (Qfloor 0) with 0 in H1, H2. lia.
  - pose proof (Qfloor_resp_le (- y + (1 # 2)) (- x + (1 # 2)) ltac:(lra)). lia.
Qed.

Lemma to_scale_monotone scale x y :
  (x <= y)%Q -> (to_scale scale x <= to_scale scale y)%Q.
Proof.
  intros Hxy. unfold to_scale. rewrite !Qred_correct.
  assert (Hu : (0 < inject_Z (scale_unit scale))%Q).
  { unfold scale_unit. change 0%Q with (inject_Z 0). rewrite <- Zlt_Qlt.
    apply Z.pow_pos_nonneg; lia. }
  apply Qmult_le_compat_r; [|now apply Qlt_le_weak, Qinv_lt_0_compat].
  rewrite <- Zle_Qle. apply sql_round_monotone.
  apply Qmult_le_compat_r; [exact Hxy|now apply Qlt_le_weak].
Qed.

(** The row [createAd] inserts, when the statement goes through. *)
Lemma createAd_row fresh adData db ad db1 :
  createAd fresh adData db = Some (ad, db1) ->
  exists ty amount price min max,
    type_of_string (adn_type adData) = Some ty
    /\ decimal_in 18 8 (adn_amount adData) = Some amount
    /\ decimal_in 12 2 (adn_price adData) = Some price
    /\ decimal_in_opt 18 8 (if_truthy_number (adn_min_amount adData)) = Some min
    /\ decimal_in_opt 18 8 (if_truthy_number (adn_max_amount adData)) = Some max
    /\ ad = mkAd fresh (adn_user_id adData) (adn_asset adData) ty amount price
              min max (adn_payment_method adData)
              (or_string_opt (adn_upi_id adData) None) ad_active
    /\ ad_checks ad = true
    /\ db1 = mkTables (users db) (ads db ++ [ad]) (deals db) (notifications db).
Proof.
  unfold createAd.
  destruct (type_of_string _) as [ty|]; [|discriminate].
  destruct (decimal_in 18 8 _) as [amount|]; [|discriminate].
  destruct (decimal_in 12 2 _) as [price|]; [|discriminate].
  destruct (decimal_in_opt 18 8 (if_truthy_number (adn_min_amount adData)))
    as [min|]; [|discriminate].
  destruct (decimal_in_opt 18 8 (if_truthy_number (adn_max_amount adData)))
    as [max|]; [|discriminate].
  destruct (ad_checks _) eqn:Hchk; [|discriminate].
  intros [= <- <-]. exists ty, amount, price, min, max. repeat split. exact Hchk.
Qed.

(** A bound as the table takes it: never NaN, and for a number of the
    body the number at the scale of the column. *)
Lemma stored_bound bound v :
  decimal_in_opt 18 8 (if_truthy_number (number_if_truthy bound)) = Some (Some v) ->
  v <> NumNaN
  /\ forall q, bound = Some (JNum q) -> v = Num (to_scale 8 q) /\ ~ (q == 0)%Q.
Proof.
  unfold if_truthy_number.
  destruct (truthy_number (number_if_truthy bound)) eqn:Ht; [|discriminate].
  destruct (number_if_truthy bound) as [[n| | |]|] eqn:Hn; try discriminate.
  cbn [decimal_in_opt decimal_in].
  destruct (Qlt_bool _ _); [|discriminate].
  cbn. intros [= <-]. split; [discriminate|].
  intros q ->. cbn in Hn, Ht.
  destruct (Qeq_bool q 0) eqn:E; [discriminate|].
  cbn in Hn. injection Hn as <-. split; [reflexivity|].
  now apply Qeq_bool_neq.
Qed.

(** What an accepted request went through, and what it leaves. *)
Lemma ads_POST_Json_inv now fresh_ad fresh_n db body ad msg db' :
  ads_POST now fresh_ad fresh_n db body = (AdJson ad msg, db') ->
  exists wallet user amount price,
    a_walletAddress body = Some wallet
    /\ getUserByWallet db wallet = Some user
    /\ a_amount body = Some amount /\ a_price body = Some price
    /\ number_le (ToNumber amount) (Fin 0) = false
    /\ number_le (ToNumber price) (Fin 0) = false
    /\ exceeds (a_minAmount body) amount = false
    /\ exceeds (a_maxAmount body) amount = false
    /\ createAd fresh_ad
         (mkAdData (user_id_of user) (default "" (a_asset body))
            (default "" (a_type body)) (ToNumber amount) (ToNumber price)
            (number_if_truthy (a_minAmount body))
            (number_if_truthy (a_maxAmount body))
            (default "" (a_paymentMethod body)) (a_upiId body)) db
       = Some (ad, mkTables (users db) (ads db ++ [ad]) (deals db)
                     (notifications db))
    /\ msg = "Ad created successfully"
    /\ users db' = users db /\ deals db' = deals db
    /\ ads db' = (ads db ++ [ad])%list
    /\ exists n, notifications db' = (notifications db ++ [n])%list
                 /\ n_user_id n = user_id_of user
                 /\ n_title n = "Ad Posted Successfully"
                 /\ n_type n = "system"
                 /\ n_related_id n = or_string_opt (Some (ad_id_of ad)) None
                 /\ n_is_read n = false.
Proof.
  unfold ads_POST.
  destruct (negb (truthy_string (a_walletAddress body)) || _ || _ || _ || _ || _ || _)
    eqn:Hreq; [intros [=]|].
  destruct (a_amount body) as [amount|]; [|intros [=]].
  destruct (a_price body) as [price|]; [|intros [=]].
  destruct (number_le (ToNumber amount) (Fin 0)
            || number_le (ToNumber price) (Fin 0)) eqn:Hpos; [intros [=]|].
  apply orb_false_iff in Hpos. destruct Hpos as [Hamt Hprice].
  destruct (exceeds (a_minAmount body) amount) eqn:Hmin; [intros [=]|].
  destruct (exceeds (a_maxAmount body) amount) eqn:Hmax; [intros [=]|].
  destruct (a_walletAddress body) as [wallet|] eqn:Hw; [|cbn in Hreq; discriminate].
  cbn [default from_option Datatypes.id] in *.
  destruct (getUserByWallet db wallet) as [user|] eqn:Hu; [|intros [=]].
  destruct (createAd _ _ _) as [[ad0 db1]|] eqn:Hc; [|intros [=]].
  destruct (createAd_row _ _ _ _ _ Hc) as (? & ? & ? & ? & ? & _ & _ & _ & _ & _ & _ & _ & ->).
  cbn [createNotification snd]. intros [= <- <- <-].
  exists wallet, user, amount, price.
  repeat (split; [reflexivity || assumption|]).
  eexists. split; [reflexivity|]. repeat split.
Qed.

(** X28.  An ad that POST /api/ads stores belongs to the user of the
    requesting wallet and is active.  Whatever the body held, the row
    satisfies the constraints of the table: its amount and its price are
    above zero (or NaN), a minimum it carries is above zero, a maximum is
    at least the minimum, and neither bound is NaN.  When the amount of the
    body is a number, the stored amount is that number at eight decimals,
    and a bound the body gave as a number is stored at eight decimals and
    is at most the stored amount.  For amounts and bounds that arrive as
    strings the route compares texts, and no such relation holds.  All
    the route adds besides the ad is one notification to its owner. *)
Theorem ads_POST_stores_consistent_bounds now fresh_ad fresh_n db body ad msg db' :
  ads_POST now fresh_ad fresh_n db body = (AdJson ad msg, db') ->
  ads db' = (ads db ++ [ad])%list
  /\ ad_id_of ad = fresh_ad /\ ad_status ad = ad_active
  /\ (exists wallet user,
        a_walletAddress body = Some wallet
        /\ getUserByWallet db wallet = Some user
        /\ ad_user_id ad = user_id_of user)
  /\ (forall a, ad_amount ad = Num a -> (0 < a)%Q)
  /\ (forall p, ad_price ad = Num p -> (0 < p)%Q)
  /\ (forall m, min_amount ad = Some (Num m) -> (0 < m)%Q)
  /\ (forall m x, min_amount ad = Some (Num m) -> max_amount ad = Some (Num x) ->
        (m <= x)%Q)
  /\ min_amount ad <> Some NumNaN /\ max_amount ad <> Some NumNaN
  /\ (forall q, a_amount body = Some (JNum q) ->
        exists a,
          ad_amount ad = Num a /\ rounded_to 8 q a
          /\ (forall m m', a_minAmount body = Some (JNum m) ->
                min_amount ad = Some (Num m') ->
                rounded_to 8 m m' /\ (m' <= a)%Q)
          /\ (forall x x', a_maxAmount body = Some (JNum x) ->
                max_amount ad = Some (Num x') ->
                rounded_to 8 x x' /\ (x' <= a)%Q))
  /\ users db' = users db /\ deals db' = deals db
  /\ exists n, notifications db' = (notifications db ++ [n])%list
               /\ n_user_id n = ad_user_id ad.
Proof.
  intros H.
  destruct (ads_POST_Json_inv _ _ _ _ _ _ _ _ H)
    as (wallet & user & amount & price & Hw & Hu & Hamount & Hprice & Hapos & Hppos
        & Hmin & Hmax & Hc & _ & Husers & Hdeals & Hads & n & Hns & Hn & _).
  destruct (createAd_row _ _ _ _ _ Hc)
    as (ty & a0 & p0 & min & max & Hty & Ha0 & Hp0 & Hmin0 & Hmax0 & Had & Hchk & _).
  cbn [adn_type adn_amount adn_price adn_min_amount adn_max_amount] in *.
  unfold ad_checks in Hchk.
  apply andb_true_iff in Hchk. destruct Hchk as [Hchk Hminmax].
  apply andb_true_iff in Hchk. destruct Hchk as [Hchk Hminpos].
  apply andb_true_iff in Hchk. destruct Hchk as [Hamtpos Hpricepos].
  rewrite Had in Hamtpos, Hpricepos, Hminpos, Hminmax.
  cbn [ad_amount ad_price min_amount max_amount] in Hamtpos, Hpricepos, Hminpos, Hminmax.
  assert (Hminv : forall v, min = Some v ->
            v <> NumNaN
            /\ forall q, a_minAmount body = Some (JNum q) ->
                         v = Num (to_scale 8 q) /\ ~ (q == 0)%Q).
  { intros v ->. now apply stored_bound. }
  assert (Hmaxv : forall v, max = Some v ->
            v <> NumNaN
            /\ forall q, a_maxAmount body = Some (JNum q) ->
                         v = Num (to_scale 8 q) /\ ~ (q == 0)%Q).
  { intros v ->. now apply stored_bound. }
  split; [exact Hads|].
  split; [rewrite Had; reflexivity|]. split; [rewrite Had; reflexivity|].
  split; [exists wallet, user; rewrite Had; auto|].
  rewrite Had. cbn [ad_amount ad_price min_amount max_amount ad_user_id].
  split; [intros a ->; now apply Qlt_bool_true|].
  split; [intros p ->; now apply Qlt_bool_true|].
  split; [intros m ->; now apply Qlt_bool_true|].
  split; [intros m x -> ->; now apply Qle_bool_iff|].
  split; [intros E; now destruct (Hminv _ E)|].
  split; [intros E; now destruct (Hmaxv _ E)|].
  split.
  { intros q Hq. rewrite Hq in Hamount. injection Hamount as <-.
    cbn [ToNumber] in Ha0. apply decimal_in_Fin in Ha0. subst a0.
    exists (to_scale 8 q). split; [reflexivity|].
    split; [apply to_scale_rounded|]. split.
    - intros m m' Hm Hm'. destruct (Hminv _ Hm') as [_ Hv].
      destruct (Hv m Hm) as [[= ->] Hm0].
      split; [apply to_scale_rounded|]. apply to_scale_monotone.
      rewrite Hm in Hmin. cbn [exceeds truthy_value value_lt ToNumber number_lt] in Hmin.
      destruct (Qeq_bool m 0) eqn:E; [now apply Qeq_bool_iff in E|].
      cbn [negb andb] in Hmin.
      now apply Qlt_bool_false.
    - intros x x' Hx Hx'. destruct (Hmaxv _ Hx') as [_ Hv].
      destruct (Hv x Hx) as [[= ->] Hx0].
      split; [apply to_scale_rounded|]. apply to_scale_monotone.
      rewrite Hx in Hmax. cbn [exceeds truthy_value value_lt ToNumber number_lt] in Hmax.
      destruct (Qeq_bool x 0) eqn:E; [now apply Qeq_bool_iff in E|].
      cbn [negb andb] in Hmax.
      now apply Qlt_bool_false. }
  split; [exact Husers|]. split; [exact Hdeals|].
  exists n. split; [exact Hns|exact Hn].
Qed.

(** X29.  On an ad whose maximum is negative the deal route turns
    down every request whose amount is a number: every number it lets
    through is above zero, so above the maximum.  The ads route stores
    such an ad, since it tests a maximum only against the amount and the
    table tests it only against the minimum. *)
Theorem negative_maximum_makes_a_dead_ad ad x now f1 f2 f3 tables request :
  max_amount ad = Some (Num x) -> (x < 0)%Q ->
  p_adId request = Some (ad_id_of ad) ->
  getAdById tables (ad_id_of ad) = Some ad ->
  (forall text, p_amount request <> Some (JStr text)) ->
  exists code err, POST now f1 f2 f3 tables request = (Failure code err, tables).
Proof.
  intros Hmaxad Hx Hid Had Hnumber.
  destruct (POST now f1 f2 f3 tables request) as [[r msg|code err] tables'] eqn:H.
  - exfalso.
    destruct (POST_Json_inv _ _ _ _ _ _ _ _ _ H)
      as (adId & w & amt & ad' & requester & d & Ha & _ & Hamt & _ & Hpos & Had' & _
          & _ & _ & Habove & _).
    rewrite Hid in Ha. injection Ha as <-.
    rewrite Had in Had'. injection Had' as <-.
    destruct amt as [q|text]; [|now apply (Hnumber text)].
    unfold above_max in Habove. rewrite Hmaxad in Habove.
    cbn [gt_column column_number number_lt] in Habove.
    cbn [ToNumber number_le number_lt] in Hpos.
    apply Qlt_bool_false in Habove.
    apply negb_false_iff, Qlt_bool_true in Hpos. lra.
  - exists code, err. now rewrite (POST_failure _ _ _ _ _ _ _ _ _ H).
Qed.

Lemma createOrUpdateUser_wallet fresh walletAddress userData db :
  wallet_address (fst (createOrUpdateUser fresh walletAddress userData db))
  = toLowerCase walletAddress.
Proof.
  pose proof (createOrUpdateUser_cases fresh walletAddress userData db) as Hc.
  destruct (getUserByWallet db walletAddress) as [old|] eqn:Hold;
    rewrite Hc; cbn [fst wallet_address]; [|reflexivity].
  unfold getUserByWallet in Hold. apply find_some in Hold.
  now apply String.eqb_eq.
Qed.

Lemma createOrUpdateUser_others fresh walletAddress userData db w :
  toLowerCase w <> toLowerCase walletAddress ->
  getUserByWallet (snd (createOrUpdateUser fresh walletAddress userData db)) w
  = getUserByWallet db w.
Proof.
  intros Hw.
  pose proof (createOrUpdateUser_cases fresh walletAddress userData db) as Hc.
  destruct (getUserByWallet db walletAddress) as [old|] eqn:Hold;
    rewrite Hc; cbn [snd]; unfold getUserByWallet; cbn [users with_users].
  - apply find_map_kept.
    + intros x.
      now destruct (String.eqb (wallet_address x) (toLowerCase walletAddress)).
    + intros x Hx.
      destruct (String.eqb_spec (wallet_address x) (toLowerCase walletAddress))
        as [E|E]; [|reflexivity].
      apply String.eqb_eq in Hx. congruence.
  - rewrite find_app_first.
    destruct (List.find _ (users db)); [reflexivity|].
    cbn [List.find wallet_address].
    apply not_eq_sym, String.eqb_neq in Hw. now rewrite Hw.
Qed.

(** X30.  With the signature check of lib/auth.ts in place, POST
    /api/users writes the row of the signer and no other: whenever the
    request is accepted, the message and signature recover an address,
    the returned user carries that address in lower case and is the row
    found under it afterwards, and the row of every other wallet is found
    as before.  The wallet named in the body counts only up to the case
    of its letters. *)
Theorem users_POST_writes_the_row_of_the_signer
    verifyMessage now fresh_user fresh_n db body wallet signature message
    user msg db' :
  ub_walletAddress body = Some wallet ->
  ub_signature body = Some signature ->
  ub_message body = Some message ->
  users_POST now fresh_user fresh_n
    (verifyWalletSignature verifyMessage wallet signature message) db body
  = (UserJson user msg, db') ->
  exists signer,
    verifyMessage message signature = Some signer
    /\ toLowerCase signer = toLowerCase wallet
    /\ wallet_address user = toLowerCase signer
    /\ getUserByWallet db' signer = Some user
    /\ (forall w, toLowerCase w <> toLowerCase signer ->
                  getUserByWallet db' w = getUserByWallet db w).
Proof.
  intros Hw Hsig Hmsg. unfold users_POST, verifyWalletSignature.
  destruct (negb (truthy_string (ub_walletAddress body)) || _ || _);
    [intros [=]|].
  destruct (verifyMessage message signature) as [signer|]; [|intros [=]].
  destruct (String.eqb_spec (toLowerCase signer) (toLowerCase wallet)) as [E|E];
    cbn [negb]; [|intros [=]].
  rewrite Hw. change (default "" (Some wallet)) with wallet.
  destruct (userData_read (ub_userData body)) as [data|]; [|intros [=]].
  pose proof (createOrUpdateUser_lookup fresh_user wallet data db) as Hlook.
  pose proof (createOrUpdateUser_wallet fresh_user wallet data db) as Hwal.
  pose proof (createOrUpdateUser_others fresh_user wallet data db) as Hothers.
  destruct (createOrUpdateUser fresh_user wallet data db) as [u db1].
  cbn [fst snd] in *. intros H. injection H as <- _ <-.
  exists signer. split; [reflexivity|]. split; [exact E|].
  split; [congruence|].
  assert (Hsame : forall w,
            getUserByWallet
              (if total_trades u =? 0
               then snd (createNotification now fresh_n
                           (mkNotificationData (user_id_of u) "Welcome to SwapSathi!"
                              (Text "Start trading crypto securely with our P2P platform. Your first trade awaits!")
                              "system" None) db1)
               else db1) w
            = getUserByWallet db1 w).
  { intros w. now destruct (total_trades u =? 0). }
  split.
  - rewrite Hsame. unfold getUserByWallet in *. now rewrite E.
  - intros w Hne. rewrite Hsame. apply Hothers. congruence.
Qed.

(** ** The theorems above on the sample tables *)

Lemma sample_created_checks :
  Forall (fun x => deal_checks x = true) (deals sample_created).
Proof. vm_compute. repeat constructor. Qed.

Lemma PUT_frame_witness :
  ads (snd (PUT 1100 "n3" sample_created "d1" (sample_put "0xAA" "funded")))
  = ads sample_created.
Proof.
  exact (proj1 (PUT_frame 1100 "n3" sample_created "d1"
                  (sample_put "0xAA" "funded"))).
Defined.

Lemma PUT_rating_goes_to_the_other_side_witness :
  exists d' msg db',
    PUT 1400 "n6" sample_completed "d1" (sample_rate "0xAA" "completed" 5)
    = (Json (Some d') msg, db')
    /\ seller_rating d' = Some 5.
Proof.
  destruct (PUT 1400 "n6" sample_completed "d1" (sample_rate "0xAA" "completed" 5))
    as [[[d'|] msg|code err] db'] eqn:H; try (vm_compute in H; discriminate).
  destruct (getDealById sample_completed "d1") as [d|] eqn:Hd;
    [|vm_compute in Hd; discriminate].
  destruct (getUserByWallet sample_completed "0xAA") as [u|] eqn:Hu;
    [|vm_compute in Hu; discriminate].
  destruct (PUT_rating_goes_to_the_other_side 1400 "n6" sample_completed "d1"
              (sample_rate "0xAA" "completed" 5) "0xAA" d u d' msg db'
              eq_refl Hd Hu H) as [Hrated _].
  destruct (Hrated eq_refl) as (_ & Hbuyer & _).
  assert (Hid : user_id_of u = buyer_id d).
  { vm_compute in Hd, Hu. injection Hd as <-. injection Hu as <-. reflexivity. }
  destruct (Hbuyer Hid) as (Hsr & _).
  exists d', msg, db'. split; [reflexivity|exact Hsr].
Defined.

Lemma PUT_answers_500_when_witness :
  PUT 1100 "n3" sample_created "d1" (sample_put "0xAA" "done")
  = (internal_error, sample_created)
  /\ PUT 1100 "n3" sample_created "d1"
       (mkPutBody (Some "funded") (Some "0xAA") None None (Some (2 ^ 31)) None
          None None)
     = (internal_error, sample_created)
  /\ PUT 1100 "n3" sample_created "d1"
       (mkPutBody (Some "funded") (Some "0xAA") None None None
          (Some (PdString "paid by UPI" false)) None None)
     = (internal_error, sample_created).
Proof.
  destruct (getDealById sample_created "d1") as [d|] eqn:Hd;
    [|vm_compute in Hd; discriminate].
  destruct (getUserByWallet sample_created "0xAA") as [u|] eqn:Hu;
    [|vm_compute in Hu; discriminate].
  assert (Hid : user_id_of u = buyer_id d).
  { vm_compute in Hd, Hu. injection Hd as <-. injection Hu as <-. reflexivity. }
  split; [|split].
  - refine (PUT_answers_500_when 1100 "n3" sample_created "d1"
              (sample_put "0xAA" "done") "0xAA" "done" d u
              eq_refl _ eq_refl _ Hd Hu (or_introl Hid) _);
      [discriminate|discriminate|left; reflexivity].
  - refine (PUT_answers_500_when 1100 "n3" sample_created "d1"
              (mkPutBody (Some "funded") (Some "0xAA") None None (Some (2 ^ 31))
                 None None None)
              "0xAA" "funded" d u eq_refl _ eq_refl _ Hd Hu (or_introl Hid) _);
      [discriminate|discriminate|].
    right. right. left. exists (2 ^ 31). repeat split; [discriminate|right; lia].
  - refine (PUT_answers_500_when 1100 "n3" sample_created "d1"
              (mkPutBody (Some "funded") (Some "0xAA") None None None
                 (Some (PdString "paid by UPI" false)) None None)
              "0xAA" "funded" d u eq_refl _ eq_refl _ Hd Hu (or_introl Hid) _);
      [discriminate|discriminate|].
    right. right. right. exists "paid by UPI". split; [reflexivity|discriminate].
Defined.

Lemma PUT_notifies_the_other_party_witness :
  exists r msg db' n,
    PUT 1100 "n3" sample_created "d1" (sample_put "0xAA" "funded")
    = (Json r msg, db')
    /\ notifications db' = (notifications sample_created ++ [n])%list
    /\ n_title n = "Deal Update" /\ n_is_read n = false.
Proof.
  destruct (PUT 1100 "n3" sample_created "d1" (sample_put "0xAA" "funded"))
    as [[r msg|code err] db'] eqn:H; [|vm_compute in H; discriminate].
  destruct (getDealById sample_created "d1") as [d|] eqn:Hd;
    [|vm_compute in Hd; discriminate].
  destruct (getUserByWallet sample_created "0xAA") as [u|] eqn:Hu;
    [|vm_compute in Hu; discriminate].
  destruct (PUT_notifies_the_other_party 1100 "n3" sample_created "d1"
              (sample_put "0xAA" "funded") "0xAA" "funded" d u r msg db'
              eq_refl eq_refl Hd Hu H) as [_ Hloud].
  destruct Hloud as (n & Hns & _ & _ & Htitle & _ & _ & _ & _ & Hread);
    [discriminate|discriminate|].
  exists r, msg, db', n. auto.
Defined.

Lemma POST_does_not_use_up_the_ad_witness :
  exists d msg db' d2 db'',
    POST 1000 "d1" "n1" "n2" sample_tables (sample_post "0xAA" 100)
    = (Json (Some d) msg, db')
    /\ POST 2000 "d2" "n3" "n4" db' (sample_post "0xAA" 100)
       = (Json (Some d2) msg, db'')
    /\ amount d2 = amount d /\ ad_id d2 = ad_id d.
Proof.
  destruct (POST 1000 "d1" "n1" "n2" sample_tables (sample_post "0xAA" 100))
    as [[[d|] msg|code err] db'] eqn:H; try (vm_compute in H; discriminate).
  destruct (POST_does_not_use_up_the_ad _ _ _ _ _ _ _ _ _ H) as (_ & _ & Hagain).
  destruct (Hagain 2000 "d2" "n3" "n4") as (d2 & db'' & H2 & Hid & Hamt & _).
  exists d, msg, db', d2, db''. auto.
Defined.

Lemma POST_round_trip_witness :
  exists d msg db',
    POST 1000 "d1" "n1" "n2" sample_tables (sample_post "0xAA" 100)
    = (Json (Some d) msg, db')
    /\ getDealById db' "d1" = Some d /\ expires_at d = 1000 + DAY.
Proof.
  destruct (POST 1000 "d1" "n1" "n2" sample_tables (sample_post "0xAA" 100))
    as [[[d|] msg|code err] db'] eqn:H; try (vm_compute in H; discriminate).
  assert (Hfresh : forall x, In x (deals sample_tables) -> id x <> "d1")
    by (intros x []).
  destruct (POST_round_trip _ _ _ _ _ _ _ _ _ Hfresh H)
    as (_ & Hget & _ & _ & _ & Hexp & _).
  exists d, msg, db'. auto.
Defined.

Lemma POST_references_exist_witness :
  exists d msg db' a,
    POST 1000 "d1" "n1" "n2" sample_tables (sample_post "0xAA" 100)
    = (Json (Some d) msg, db')
    /\ In a (ads sample_tables) /\ ad_id_of a = ad_id d
    /\ ad_status a = ad_active.
Proof.
  destruct (POST 1000 "d1" "n1" "n2" sample_tables (sample_post "0xAA" 100))
    as [[[d|] msg|code err] db'] eqn:H; try (vm_compute in H; discriminate).
  destruct (POST_references_exist _ _ _ _ _ _ _ _ _ H)
    as ((a & Hin & Hid & Hact & _) & _).
  exists d, msg, db', a. auto.
Defined.

Lemma sample_second_has_no_u9 :
  forall u, In u (users sample_second) -> user_id_of u <> "u9".
Proof.
  intros u Hin E.
  assert (H : forallb (fun u => negb (String.eqb (user_id_of u) "u9"))
                      (users sample_second) = true)
    by (vm_compute; reflexivity).
  rewrite forallb_forall in H. specialize (H u Hin).
  rewrite E in H. vm_compute in H. discriminate H.
Qed.

Lemma updateUserReputation_settles_witness :
  updateUserReputation "u9" sample_second = (0, sample_second).
Proof.
  exact (proj2 (proj2 (updateUserReputation_settles "u9" "u1" sample_second))
           sample_second_has_no_u9).
Defined.

Lemma calculate_user_reputation_agrees_witness :
  fst (updateUserReputation "u1" sample_second)
  = fst (calculate_user_reputation "u1" sample_second).
Proof.
  exact (proj1 (proj2 (proj2 (calculate_user_reputation_agrees "u1" sample_second)))
           sample_second_has_alice).
Defined.


Lemma createOrUpdateUser_round_trip_witness :
  getUserByWallet (snd (createOrUpdateUser "u4" "0xAA" (mkUserData (Some "al"))
                          sample_tables)) "0xaa"
  = Some (fst (createOrUpdateUser "u4" "0xAA" (mkUserData (Some "al"))
                 sample_tables)).
Proof.
  exact (proj1 (proj2 (createOrUpdateUser_round_trip "u4" "0xAA"
                         (mkUserData (Some "al")) sample_tables))
           "0xaa" eq_refl).
Defined.

Lemma sample_wallets_differ : NoDup (map wallet_address (users sample_tables)).
Proof.
  cbn.
  repeat (apply NoDup_cons_2;
          [rewrite ?elem_of_cons, elem_of_nil; intuition discriminate|]).
  apply NoDup_nil_2.
Qed.

Lemma createOrUpdateUser_keeps_users_well_formed_witness :
  NoDup (map wallet_address
           (users (snd (createOrUpdateUser "u4" "0xDD" (mkUserData (Some "dave"))
                          sample_tables)))).
Proof.
  exact (proj1 (createOrUpdateUser_keeps_users_well_formed "u4" "0xDD"
                  (mkUserData (Some "dave")) sample_tables)
           sample_wallets_differ).
Defined.

Lemma users_POST_writes_only_when_signed_witness :
  exists code err,
    users_POST 3000 "u4" "n1" false sample_tables sample_user_body
    = (UserFailure code err, sample_tables).
Proof.
  destruct (proj1 (users_POST_writes_only_when_signed 3000 "u4" "n1" false
                     sample_tables sample_user_body) eq_refl)
    as (code & err & H & _).
  exists code, err. exact H.
Defined.


Lemma ads_POST_stores_consistent_bounds_witness :
  (exists ad msg db' a m x,
     ads_POST 3000 "a2" "n1" sample_tables sample_ad_body = (AdJson ad msg, db')
     /\ ad_amount ad = Num a /\ rounded_to 8 200 a
     /\ min_amount ad = Some (Num m) /\ max_amount ad = Some (Num x)
     /\ (0 < m)%Q /\ (m <= x)%Q /\ (x <= a)%Q)
  /\ (exists ad msg db',
        ads_POST 3000 "a2" "n1" sample_tables sample_form_ad_body
        = (AdJson ad msg, db')
        /\ ad_amount ad = Num 200 /\ min_amount ad = Some (Num 1000)
        /\ ad_status ad = ad_active).
Proof.
  split.
  - destruct (ads_POST 3000 "a2" "n1" sample_tables sample_ad_body)
      as [[ad msg|code err] db'] eqn:H; [|vm_compute in H; discriminate].
    destruct (ads_POST_stores_consistent_bounds _ _ _ _ _ _ _ _ H)
      as (_ & _ & _ & _ & _ & _ & Hminpos & Hminmax & _ & _ & Hnum & _).
    destruct (Hnum 200%Q eq_refl) as (a & Ha & Hround & _ & Hmaxle).
    assert (Hmin : min_amount ad = Some (Num 10)).
    { vm_compute in H. injection H as <- _ _. reflexivity. }
    assert (Hmax : max_amount ad = Some (Num 100)).
    { vm_compute in H. injection H as <- _ _. reflexivity. }
    exists ad, msg, db', a, 10%Q, 100%Q.
    exact (conj eq_refl
             (conj Ha
                (conj Hround
                   (conj Hmin
                      (conj Hmax
                         (conj (Hminpos _ Hmin)
                            (conj (Hminmax _ _ Hmin Hmax)
                               (proj2 (Hmaxle 100%Q 100%Q eq_refl Hmax))))))))).
  - destruct (ads_POST 3000 "a2" "n1" sample_tables sample_form_ad_body)
      as [[ad msg|code err] db'] eqn:H; [|vm_compute in H; discriminate].
    destruct (ads_POST_stores_consistent_bounds _ _ _ _ _ _ _ _ H)
      as (_ & _ & Hactive & _).
    assert (Hamt : ad_amount ad = Num 200).
    { vm_compute in H. injection H as <- _ _. reflexivity. }
    assert (Hmin : min_amount ad = Some (Num 1000)).
    { vm_compute in H. injection H as <- _ _. reflexivity. }
    exists ad, msg, db'.
    exact (conj eq_refl (conj Hamt (conj Hmin Hactive))).
Defined.

Lemma negative_maximum_makes_a_dead_ad_witness :
  exists ad msg db',
    ads_POST 3000 "a2" "n1" sample_tables sample_dead_ad_body
    = (AdJson ad msg, db')
    /\ max_amount ad = Some (Num (-5))
    /\ (exists code err,
          POST 4000 "d1" "n2" "n3" db'
            (mkPostBody (Some "a2") (Some "0xAA") (Some (JNum 100)) None None)
          = (Failure code err, db'))
    /\ (exists d reply db'',
          POST 4000 "d1" "n2" "n3" db'
            (mkPostBody (Some "a2") (Some "0xAA") (Some (JStr "+100")) None None)
          = (Json (Some d) reply, db'')
          /\ amount d = Num 100).
Proof.
  destruct (ads_POST 3000 "a2" "n1" sample_tables sample_dead_ad_body)
    as [[ad msg|code err] db'] eqn:H; [|vm_compute in H; discriminate].
  assert (Hmax : max_amount ad = Some (Num (-5))).
  { vm_compute in H. injection H as <- _ _. reflexivity. }
  assert (Hid : Some "a2" = Some (ad_id_of ad)).
  { vm_compute in H. injection H as <- _ _. reflexivity. }
  assert (Hget : getAdById db' (ad_id_of ad) = Some ad).
  { vm_compute in H. injection H as <- _ <-. reflexivity. }
  assert (Htext : exists d reply db'',
            POST 4000 "d1" "n2" "n3" db'
              (mkPostBody (Some "a2") (Some "0xAA") (Some (JStr "+100")) None None)
            = (Json (Some d) reply, db'')
            /\ amount d = Num 100).
  { vm_compute in H. injection H as _ _ <-.
    eexists _, _, _. vm_compute. split; reflexivity. }
  exists ad, msg, db'.
  exact (conj eq_refl
           (conj Hmax
              (conj (negative_maximum_makes_a_dead_ad ad (-5) 4000 "d1" "n2" "n3" db'
                       (mkPostBody (Some "a2") (Some "0xAA") (Some (JNum 100))
                          None None)
                       Hmax eq_refl Hid Hget
                       (fun text E => ltac:(discriminate E)))
                 Htext))).
Defined.

Lemma users_POST_writes_the_row_of_the_signer_witness :
  exists user msg db',
    users_POST 3000 "u4" "n1"
      (verifyWalletSignature (fun _ _ => Some "0xDd") "0xDD" "signature" "message")
      sample_tables sample_user_body
    = (UserJson user msg, db')
    /\ wallet_address user = "0xdd".
Proof.
  destruct (users_POST 3000 "u4" "n1"
              (verifyWalletSignature (fun _ _ => Some "0xDd") "0xDD" "signature"
                 "message") sample_tables sample_user_body)
    as [[user msg|code err] db'] eqn:H; [|vm_compute in H; discriminate].
  destruct (users_POST_writes_the_row_of_the_signer (fun _ _ => Some "0xDd")
              3000 "u4" "n1" sample_tables sample_user_body "0xDD" "signature"
              "message" user msg db' eq_refl eq_refl eq_refl H)
    as (signer & Hrec & _ & Hwal & _).
  injection Hrec as <-.
  exists user, msg, db'. split; [reflexivity|exact Hwal].
Defined.

End DBMore.
